(** * The output persistence pipeline of the LinkedIn content generator

    A shallow embedding of [src/output_manager.py]: the content validator,
    the formatters, the checksum engine, the retry wrapper and the
    save pipeline ([OutputManager.save_content]), with the properties the
    specification states about them.

    Python values are the JSON-like values the generator hands to the
    pipeline: [None], booleans, integers, strings, lists and dictionaries
    keyed by strings.  A dictionary is an association list in insertion
    order with distinct keys, which is what a Python [dict] is once its
    hashing is forgotten.  A character is a code point below 256 (Latin-1);
    floats, tuples, non-string keys and user-defined objects are outside
    the model. *)

From Stdlib Require Import ZArith List String Ascii Bool Lia DecimalString DecimalZ.
From stdpp Require Import base option list strings sorting gmap.

Local Open Scope string_scope.
Local Open Scope Z_scope.

(** ** Characters and strings, as Python's [str] methods see them *)

Module PyStr.

Definition code (c : ascii) : N := N_of_ascii c.

Definition in_range (lo hi : N) (c : ascii) : bool :=
  ((lo <=? code c) && (code c <=? hi))%N.

Definition code_in (l : list N) (c : ascii) : bool :=
  existsb (N.eqb (code c)) l.

(** [str.isalnum] on one character: letters, digits and the numeric
    characters of the Latin-1 block. *)
Definition isalnum (c : ascii) : bool :=
  in_range 48 57 c || in_range 65 90 c || in_range 97 122 c
  || code_in [170; 178; 179; 181; 185; 186; 188; 189; 190]%N c
  || in_range 192 214 c || in_range 216 246 c || in_range 248 255 c.

(** [str.isspace] on one character. *)
Definition isspace (c : ascii) : bool :=
  in_range 9 13 c || in_range 28 32 c || code_in [133; 160]%N c.

(** [str.isprintable] on one character. *)
Definition isprintable (c : ascii) : bool :=
  in_range 32 126 c || (in_range 161 255 c && negb (code_in [173]%N c)).

Definition isupper (c : ascii) : bool :=
  in_range 65 90 c || in_range 192 214 c || in_range 216 222 c.

Definition lower_char (c : ascii) : ascii :=
  if isupper c then ascii_of_N (code c + 32) else c.

Fixpoint smap (f : ascii -> ascii) (s : string) : string :=
  match s with
  | EmptyString => EmptyString
  | String c s' => String (f c) (smap f s')
  end.

Fixpoint sall (p : ascii -> bool) (s : string) : bool :=
  match s with
  | EmptyString => true
  | String c s' => p c && sall p s'
  end.

Fixpoint sany (p : ascii -> bool) (s : string) : bool :=
  match s with
  | EmptyString => false
  | String c s' => p c || sany p s'
  end.

(** [str.lower]. *)
Definition lower (s : string) : string := smap lower_char s.

(** Drop the longest prefix of characters satisfying [p]. *)
Fixpoint ldrop (p : ascii -> bool) (s : string) : string :=
  match s with
  | EmptyString => EmptyString
  | String c s' => if p c then ldrop p s' else s
  end.

(** Drop the longest suffix of characters satisfying [p]. *)
Fixpoint rdrop (p : ascii -> bool) (s : string) : string :=
  match s with
  | EmptyString => EmptyString
  | String c s' =>
      match rdrop p s' with
      | EmptyString => if p c then EmptyString else String c EmptyString
      | r => String c r
      end
  end.

(** [str.strip()] with no argument: white space removed at both ends. *)
Definition strip (s : string) : string := rdrop isspace (ldrop isspace s).

Definition is_empty (s : string) : bool :=
  match s with EmptyString => true | _ => false end.

(** [sep.join(parts)]. *)
Fixpoint join (sep : string) (parts : list string) : string :=
  match parts with
  | [] => EmptyString
  | [p] => p
  | p :: rest => p ++ sep ++ join sep rest
  end.

Definition hex_digit (n : N) : ascii :=
  ascii_of_N (if (n <? 10)%N then 48 + n else 87 + n).

(** Two lower-case hexadecimal digits of a character code. *)
Definition hex2 (c : ascii) : string :=
  String (hex_digit (code c / 16)) (String (hex_digit (code c mod 16)) EmptyString).

Definition dquote : ascii := "034"%char.
Definition squote : ascii := "039"%char.
Definition backslash : ascii := "092"%char.
Definition nl : ascii := "010"%char.
Definition cr : ascii := "013"%char.
Definition tab : ascii := "009"%char.

(** Decimal form of an integer, as [str(int)] and [json.dumps] print it. *)
Definition of_Z (z : Z) : string := NilZero.string_of_int (Z.to_int z).

End PyStr.

(** ** Python values *)

Unset Elimination Schemes.
Inductive pyval : Type :=
| PNone
| PBool (b : bool)
| PInt (z : Z)
| PStr (s : string)
| PList (l : list pyval)
| PDict (d : list (string * pyval)).
Set Elimination Schemes.

(** The items of a dictionary, in insertion order. *)
Abbreviation pydict := (list (string * pyval)).

(** Structural induction that reaches the elements of lists and the
    values of dictionaries. *)
Section pyval_induction.
Variable P : pyval -> Prop.
Hypothesis HNone : P PNone.
Hypothesis HBool : forall b, P (PBool b).
Hypothesis HInt : forall z, P (PInt z).
Hypothesis HStr : forall s, P (PStr s).
Hypothesis HList : forall l, Forall P l -> P (PList l).
Hypothesis HDict : forall d, Forall (fun kv => P (snd kv)) d -> P (PDict d).

Fixpoint pyval_nested_ind (v : pyval) : P v :=
  match v with
  | PNone => HNone
  | PBool b => HBool b
  | PInt z => HInt z
  | PStr s => HStr s
  | PList l =>
      HList l ((fix go (l : list pyval) : Forall P l :=
                  match l with
                  | [] => @List.Forall_nil _ P
                  | x :: l' => @List.Forall_cons _ P x l' (pyval_nested_ind x) (go l')
                  end) l)
  | PDict d =>
      HDict d ((fix go (d : pydict) : Forall (fun kv => P (snd kv)) d :=
                  match d with
                  | [] => @List.Forall_nil _ _
                  | kv :: d' =>
                      @List.Forall_cons _ (fun kv => P (snd kv)) kv d'
                        (pyval_nested_ind (snd kv)) (go d')
                  end) d)
  end.
End pyval_induction.

(** *** Dictionary operations *)

Module Dict.

(** [d.get(k)] / [d[k]]: the value stored under [k]. *)
Fixpoint get (k : string) (d : pydict) : option pyval :=
  match d with
  | [] => None
  | (k', v) :: d' => if String.eqb k k' then Some v else get k d'
  end.

(** [k in d]. *)
Definition contains (k : string) (d : pydict) : bool :=
  match get k d with Some _ => true | None => false end.

(** [d.get(k, default)]. *)
Definition get_default (k : string) (default : pyval) (d : pydict) : pyval :=
  match get k d with Some v => v | None => default end.

(** [d.pop(k, None)], for its effect on the dictionary. *)
Fixpoint pop (k : string) (d : pydict) : pydict :=
  match d with
  | [] => []
  | (k', v) :: d' => if String.eqb k k' then pop k d' else (k', v) :: pop k d'
  end.

(** [d[k] = v]: an existing key keeps its place, a new key goes last. *)
Fixpoint set (k : string) (v : pyval) (d : pydict) : pydict :=
  match d with
  | [] => [(k, v)]
  | (k', v') :: d' =>
      if String.eqb k k' then (k, v) :: d' else (k', v') :: set k v d'
  end.

Definition keys (d : pydict) : list string := map fst d.

End Dict.

(** A value as Python builds it: the keys of every dictionary are distinct. *)
Fixpoint wf (v : pyval) : Prop :=
  match v with
  | PList l => (fix all (l : list pyval) : Prop :=
                  match l with [] => True | x :: l' => wf x /\ all l' end) l
  | PDict d => NoDup (Dict.keys d) /\
               (fix all (d : pydict) : Prop :=
                  match d with [] => True | kv :: d' => wf (snd kv) /\ all d' end) d
  | _ => True
  end.

(** Truth value of a Python object ([bool(v)], [if v], [not v]). *)
Definition truthy (v : pyval) : bool :=
  match v with
  | PNone => false
  | PBool b => b
  | PInt z => negb (z =? 0)
  | PStr s => negb (PyStr.is_empty s)
  | PList l => match l with [] => false | _ => true end
  | PDict d => match d with [] => false | _ => true end
  end.

Definition is_dict (v : pyval) : bool :=
  match v with PDict _ => true | _ => false end.

Definition is_list (v : pyval) : bool :=
  match v with PList _ => true | _ => false end.

(** *** [repr] and [str] *)

Module PyRepr.
Import PyStr.

(** One character inside the quotes of [repr(s)]. *)
Definition repr_char (q c : ascii) : string :=
  if Ascii.eqb c q || Ascii.eqb c backslash then String backslash (String c EmptyString)
  else if Ascii.eqb c tab then String backslash "t"
  else if Ascii.eqb c nl then String backslash "n"
  else if Ascii.eqb c cr then String backslash "r"
  else if isprintable c then String c EmptyString
  else String backslash (String "x" (hex2 c)).

Fixpoint repr_chars (q : ascii) (s : string) : string :=
  match s with
  | EmptyString => EmptyString
  | String c s' => repr_char q c ++ repr_chars q s'
  end.

(** [repr] of a string: single quotes, unless the string has a single
    quote and no double quote. *)
Definition repr_str (s : string) : string :=
  let q := if sany (Ascii.eqb squote) s && negb (sany (Ascii.eqb dquote) s)
           then dquote else squote in
  String q (repr_chars q s ++ String q EmptyString).

Fixpoint repr (v : pyval) : string :=
  match v with
  | PNone => "None"
  | PBool true => "True"
  | PBool false => "False"
  | PInt z => of_Z z
  | PStr s => repr_str s
  | PList l => "[" ++ join ", " (map repr l) ++ "]"
  | PDict d =>
      "{" ++ join ", " (map (fun kv => repr_str (fst kv) ++ ": " ++ repr (snd kv)) d) ++ "}"
  end.

(** [str(v)]: a string is itself, everything else is its [repr]. *)
Definition str (v : pyval) : string :=
  match v with
  | PStr s => s
  | _ => repr v
  end.

End PyRepr.

(** ** Exceptions *)

(** The exception classes of [output_manager.py] and the built-in ones
    its calls can raise. *)
Inductive exn_class : Type :=
| OutputError | FileError | SerializationError | ValidationError | RateLimitError
| TypeError | AttributeError | ValueError | JSONDecodeError | OSError.

(** An exception: its class and its message ([str(e)]). *)
Record exn : Type := Exn { exn_cls : exn_class; exn_msg : string }.

(** The outcome of a call: a returned value or a raised exception. *)
Inductive result (A : Type) : Type :=
| Ok (a : A)
| Raise (e : exn).
Arguments Ok {A} a.
Arguments Raise {A} e.

Definition raises {A} (r : result A) : bool :=
  match r with Ok _ => false | Raise _ => true end.

Definition raises_class {A} (c : exn_class) (r : result A) : Prop :=
  exists msg, r = Raise (Exn c msg).

(** The six content kinds with a registered validator and formatter. *)
Definition KINDS : list string :=
  ["text"; "carousel"; "poll"; "newsletter"; "video_script"; "document"].

(** ** [ContentValidator] *)

Module ContentValidator.

Definition _validate_text (content : pydict) : result unit :=
  match Dict.get "content" content with
  | None => Raise (Exn ValidationError "Text content missing 'content' field")
  | Some v =>
      if negb (truthy v) then Raise (Exn ValidationError "Text content is empty")
      else Ok tt
  end.

Definition _validate_carousel (content : pydict) : result unit :=
  match Dict.get "slides" content with
  | None => Raise (Exn ValidationError "Carousel content missing 'slides' field")
  | Some v =>
      if negb (is_list v) then Raise (Exn ValidationError "Carousel 'slides' must be a list")
      else Ok tt
  end.

Definition _validate_poll (content : pydict) : result unit :=
  match Dict.get "options" content with
  | None => Raise (Exn ValidationError "Poll content missing 'options' field")
  | Some v =>
      if negb (is_list v) then Raise (Exn ValidationError "Poll 'options' must be a list")
      else Ok tt
  end.

Definition _validate_newsletter (content : pydict) : result unit :=
  match Dict.get "sections" content with
  | None => Raise (Exn ValidationError "Newsletter content missing 'sections' field")
  | Some v =>
      if negb (is_dict v)
      then Raise (Exn ValidationError "Newsletter 'sections' must be a dictionary")
      else Ok tt
  end.

Definition _validate_video_script (content : pydict) : result unit :=
  match Dict.get "script" content with
  | None => Raise (Exn ValidationError "Video script content missing 'script' field")
  | Some v =>
      if negb (truthy v) then Raise (Exn ValidationError "Video script content is empty")
      else Ok tt
  end.

Definition _validate_document (content : pydict) : result unit :=
  match Dict.get "sections" content with
  | None => Raise (Exn ValidationError "Document content missing 'sections' field")
  | Some v =>
      if negb (is_dict v)
      then Raise (Exn ValidationError "Document 'sections' must be a dictionary")
      else Ok tt
  end.

(** The dispatch table [validators], read with [validators.get(content_type)]. *)
Definition validators (content_type : string) : option (pydict -> result unit) :=
  if String.eqb content_type "text" then Some _validate_text
  else if String.eqb content_type "carousel" then Some _validate_carousel
  else if String.eqb content_type "poll" then Some _validate_poll
  else if String.eqb content_type "newsletter" then Some _validate_newsletter
  else if String.eqb content_type "video_script" then Some _validate_video_script
  else if String.eqb content_type "document" then Some _validate_document
  else None.

(** [validate_content]: returns nothing or raises; it reads its
    arguments only (the log lines are not modelled). *)
Definition validate_content (content : pyval) (content_type : string) : result unit :=
  match content with
  | PDict d =>
      if negb (truthy content) then Raise (Exn ValidationError "Content is empty")
      else if negb (Dict.contains "metadata" d)
      then Raise (Exn ValidationError "Content missing 'metadata' field")
      else
        match validators content_type with
        | Some validator => validator d
        | None =>
            Raise (Exn ValidationError
                     ("No validator found for content type: " ++ content_type))
        end
  | _ => Raise (Exn ValidationError "Content must be a dictionary")
  end.

End ContentValidator.

(** ** File names *)

(** The characters [_sanitize_filename] keeps. *)
Definition safe_char (x : ascii) : ascii :=
  if PyStr.isalnum x || Ascii.eqb x " " || Ascii.eqb x "-" || Ascii.eqb x "_"
  then x else "_"%char.

(** [OutputManager._sanitize_filename].  The argument is whatever the
    caller found under [topic]; [str(text)] turns it into a string. *)
Definition _sanitize_filename (text : pyval) : string :=
  if negb (truthy text) then "untitled"
  else
    let joined := PyStr.smap safe_char (PyStr.lower (PyRepr.str text)) in
    let stripped := PyStr.strip joined in
    if PyStr.is_empty stripped then "untitled" else stripped.

(** ** SHA-256, as [hashlib.sha256(data).hexdigest()] *)

Module Sha256.

Definition mask : Z := 4294967295.
Definition add32 (x y : Z) : Z := Z.land (x + y) mask.
Definition rotr (n x : Z) : Z :=
  Z.lor (Z.shiftr x n) (Z.land (Z.shiftl x (32 - n)) mask).
Definition not32 (x : Z) : Z := Z.lxor x mask.

Definition Ch (x y z : Z) : Z := Z.lxor (Z.land x y) (Z.land (not32 x) z).
Definition Maj (x y z : Z) : Z :=
  Z.lxor (Z.lxor (Z.land x y) (Z.land x z)) (Z.land y z).
Definition Sigma0 (x : Z) : Z := Z.lxor (Z.lxor (rotr 2 x) (rotr 13 x)) (rotr 22 x).
Definition Sigma1 (x : Z) : Z := Z.lxor (Z.lxor (rotr 6 x) (rotr 11 x)) (rotr 25 x).
Definition sigma0 (x : Z) : Z := Z.lxor (Z.lxor (rotr 7 x) (rotr 18 x)) (Z.shiftr x 3).
Definition sigma1 (x : Z) : Z := Z.lxor (Z.lxor (rotr 17 x) (rotr 19 x)) (Z.shiftr x 10).

Definition K : list Z :=
  [1116352408; 1899447441; 3049323471; 3921009573; 961987163; 1508970993;
   2453635748; 2870763221; 3624381080; 310598401; 607225278; 1426881987;
   1925078388; 2162078206; 2614888103; 3248222580; 3835390401; 4022224774;
   264347078; 604807628; 770255983; 1249150122; 1555081692; 1996064986;
   2554220882; 2821834349; 2952996808; 3210313671; 3336571891; 3584528711;
   113926993; 338241895; 666307205; 773529912; 1294757372; 1396182291;
   1695183700; 1986661051; 2177026350; 2456956037; 2730485921; 2820302411;
   3259730800; 3345764771; 3516065817; 3600352804; 4094571909; 275423344;
   430227734; 506948616; 659060556; 883997877; 958139571; 1322822218;
   1537002063; 1747873779; 1955562222; 2024104815; 2227730452; 2361852424;
   2428436474; 2756734187; 3204031479; 3329325298].

(** The eight words of the hash state. *)
Record state : Type := State { sa : Z; sb : Z; sc : Z; sd : Z; se : Z; sf : Z; sg : Z; sh : Z }.

Definition H0 : state :=
  State 1779033703 3144134277 1013904242 2773480762
        1359893119 2600822924 528734635 1541459225.

(** The padded message: the data, the byte 128, zeros up to 56 modulo 64,
    and the length in bits on eight bytes. *)
Definition be_bytes (n : nat) (x : Z) : list Z :=
  map (fun i => Z.land (Z.shiftr x (8 * Z.of_nat i)) 255) (rev (seq 0 n)).

Definition pad (data : list Z) : list Z :=
  let len := Z.of_nat (length data) in
  let zeros := Z.to_nat ((55 - len) mod 64) in
  data ++ [128] ++ repeat 0 zeros ++ be_bytes 8 (8 * len).

Fixpoint words (n : nat) (bytes : list Z) : list Z :=
  match n, bytes with
  | S n', b0 :: b1 :: b2 :: b3 :: rest =>
      (b0 * 16777216 + b1 * 65536 + b2 * 256 + b3) :: words n' rest
  | _, _ => []
  end.

(** The message schedule, latest word first: [w] holds W[t-1], W[t-2], ... *)
Fixpoint schedule (n : nat) (w : list Z) : list Z :=
  match n with
  | O => w
  | S n' =>
      let wt := add32 (add32 (sigma1 (nth 1 w 0)) (nth 6 w 0))
                      (add32 (sigma0 (nth 14 w 0)) (nth 15 w 0)) in
      schedule n' (wt :: w)
  end.

Definition round (s : state) (kw : Z * Z) : state :=
  let '(k, w) := kw in
  let t1 := add32 (add32 (add32 (sh s) (Sigma1 (se s))) (add32 (Ch (se s) (sf s) (sg s)) k)) w in
  let t2 := add32 (Sigma0 (sa s)) (Maj (sa s) (sb s) (sc s)) in
  State (add32 t1 t2) (sa s) (sb s) (sc s) (add32 (sd s) t1) (se s) (sf s) (sg s).

Definition compress (s : state) (block : list Z) : state :=
  let w := rev (schedule 48 (rev (words 16 block))) in
  let r := fold_left round (combine K w) s in
  State (add32 (sa s) (sa r)) (add32 (sb s) (sb r)) (add32 (sc s) (sc r))
        (add32 (sd s) (sd r)) (add32 (se s) (se r)) (add32 (sf s) (sf r))
        (add32 (sg s) (sg r)) (add32 (sh s) (sh r)).

Fixpoint blocks (n : nat) (s : state) (bytes : list Z) : state :=
  match n with
  | O => s
  | S n' => blocks n' (compress s (firstn 64 bytes)) (skipn 64 bytes)
  end.

Definition digest (data : list Z) : state :=
  let p := pad data in blocks (length p / 64) H0 p.

(** Eight lower-case hexadecimal digits of a 32-bit word. *)
Definition hex8 (x : Z) : string :=
  string_of_list_ascii
    (map (fun i => PyStr.hex_digit (Z.to_N (Z.land (Z.shiftr x (4 * Z.of_nat i)) 15)))
         (rev (seq 0 8))).

Definition hex_of_state (s : state) : string :=
  hex8 (sa s) ++ hex8 (sb s) ++ hex8 (sc s) ++ hex8 (sd s)
  ++ hex8 (se s) ++ hex8 (sf s) ++ hex8 (sg s) ++ hex8 (sh s).

Definition hexdigest (data : list Z) : string := hex_of_state (digest data).

End Sha256.

(** [s.encode()]: the UTF-8 bytes of a string of code points below 256. *)
Definition utf8_encode (s : string) : list Z :=
  flat_map (fun c =>
              let n := Z.of_N (PyStr.code c) in
              if n <? 128 then [n]
              else [Z.lor 192 (Z.shiftr n 6); Z.lor 128 (Z.land n 63)])
           (list_ascii_of_string s).

(** ** JSON text, as [json.dumps] and [json.dump] write it *)

Module Json.
Import PyStr.

(** One character inside a JSON string.  With [ensure_ascii] every
    character outside the printable ASCII range is written as a
    [\u00XX] escape; without it only the control characters are. *)
Definition escape_char (ensure_ascii : bool) (c : ascii) : string :=
  if Ascii.eqb c dquote then String backslash (String dquote EmptyString)
  else if Ascii.eqb c backslash then String backslash (String backslash EmptyString)
  else if Ascii.eqb c nl then String backslash "n"
  else if Ascii.eqb c cr then String backslash "r"
  else if Ascii.eqb c tab then String backslash "t"
  else if Ascii.eqb c "008" then String backslash "b"
  else if Ascii.eqb c "012" then String backslash "f"
  else if (code c <? 32)%N || (ensure_ascii && (126 <? code c)%N)
       then String backslash ("u00" ++ hex2 c)
  else String c EmptyString.

Fixpoint escape (ensure_ascii : bool) (s : string) : string :=
  match s with
  | EmptyString => EmptyString
  | String c s' => escape_char ensure_ascii c ++ escape ensure_ascii s'
  end.

Definition encode_str (ensure_ascii : bool) (s : string) : string :=
  String dquote (escape ensure_ascii s ++ String dquote EmptyString).

(** [sorted(items)] on the keys: a stable insertion sort by code points. *)
Fixpoint insert_item {A} (kv : string * A) (l : list (string * A)) : list (string * A) :=
  match l with
  | [] => [kv]
  | kv' :: l' =>
      if String.leb (fst kv) (fst kv') then kv :: l else kv' :: insert_item kv l'
  end.

Definition sort_items {A} (l : list (string * A)) : list (string * A) :=
  fold_right insert_item [] l.

Definition render_item (colon : string) (ks : string * string) : string :=
  fst ks ++ colon ++ snd ks.

(** [json.dumps(v, sort_keys=...)] with the default separators and
    [ensure_ascii=True]. *)
Fixpoint dumps (sort_keys : bool) (v : pyval) : string :=
  match v with
  | PNone => "null"
  | PBool true => "true"
  | PBool false => "false"
  | PInt z => of_Z z
  | PStr s => encode_str true s
  | PList l => "[" ++ join ", " (map (dumps sort_keys) l) ++ "]"
  | PDict d =>
      let items := map (fun kv => (fst kv, dumps sort_keys (snd kv))) d in
      let items := if sort_keys then sort_items items else items in
      "{" ++ join ", "
               (map (fun ks => encode_str true (fst ks) ++ ": " ++ snd ks) items)
          ++ "}"
  end.

(** A line break followed by the indentation of a nesting level. *)
Fixpoint spaces (n : nat) : string :=
  match n with O => EmptyString | S n' => String " " (spaces n') end.

Definition newline_indent (level : nat) : string :=
  String nl (spaces (2 * level)).

(** [json.dump(v, f, indent=2, ensure_ascii=False)], from nesting
    [level]: what [_save_json] writes. *)
Fixpoint dump_indent (level : nat) (v : pyval) : string :=
  match v with
  | PNone => "null"
  | PBool true => "true"
  | PBool false => "false"
  | PInt z => of_Z z
  | PStr s => encode_str false s
  | PList [] => "[]"
  | PList l =>
      "[" ++ newline_indent (S level)
          ++ join ("," ++ newline_indent (S level)) (map (dump_indent (S level)) l)
          ++ newline_indent level ++ "]"
  | PDict [] => "{}"
  | PDict d =>
      "{" ++ newline_indent (S level)
          ++ join ("," ++ newline_indent (S level))
               (map (fun kv => encode_str false (fst kv) ++ ": "
                               ++ dump_indent (S level) (snd kv)) d)
          ++ newline_indent level ++ "}"
  end.

(** [json.dump(v, f, indent=2)] with [ensure_ascii] as given; the
    default is [True]: what [_create_temp_backup] writes. *)
Fixpoint dump_indent_as (ensure_ascii : bool) (level : nat) (v : pyval) : string :=
  match v with
  | PNone => "null"
  | PBool true => "true"
  | PBool false => "false"
  | PInt z => of_Z z
  | PStr s => encode_str ensure_ascii s
  | PList [] => "[]"
  | PList l =>
      "[" ++ newline_indent (S level)
          ++ join ("," ++ newline_indent (S level))
               (map (dump_indent_as ensure_ascii (S level)) l)
          ++ newline_indent level ++ "]"
  | PDict [] => "{}"
  | PDict d =>
      "{" ++ newline_indent (S level)
          ++ join ("," ++ newline_indent (S level))
               (map (fun kv => encode_str ensure_ascii (fst kv) ++ ": "
                               ++ dump_indent_as ensure_ascii (S level) (snd kv)) d)
          ++ newline_indent level ++ "}"
  end.

End Json.

(** ** The checksum engine *)

Definition volatile_fields : list string := ["generation_time"; "metadata"].

(** [OutputManager._normalize_content]: a shallow copy of a dictionary
    without the volatile fields; anything else is returned as it is. *)
Definition _normalize_content (content : pyval) : pyval :=
  match content with
  | PDict d => PDict (fold_left (fun normalized field => Dict.pop field normalized)
                                volatile_fields d)
  | _ => content
  end.

(** [OutputManager._compute_checksum]. *)
Definition _compute_checksum (content : pyval) : string :=
  let normalized_content := _normalize_content content in
  let serialized := Json.dumps true normalized_content in
  Sha256.hexdigest (utf8_encode serialized).

(** *** Dictionaries as objects

    [_normalize_content] copies its argument before it removes keys.
    To say that the caller's dictionary is left as it was, dictionaries
    live in a store of objects: [content.copy()] allocates a new object
    with the same items, [normalized.pop(field, None)] updates the
    object it is called on. *)

Module Obj.

Definition loc := nat.

(** The dictionaries alive, by address. *)
Abbreviation store := (gmap loc pydict).

(** What a variable holds: a reference to a dictionary object, or a
    value that is not a dictionary. *)
Inductive ref : Type :=
| Ref (l : loc)
| Imm (v : pyval).

(** [d.copy()]: a fresh object with the items of [l]. *)
Definition copy (l : loc) (h : store) : loc * store :=
  let l' := fresh (dom h) in
  (l', <[l' := default [] (h !! l)]> h).

(** [d.pop(k, None)]: the object at [l] loses the key. *)
Definition pop (l : loc) (k : string) (h : store) : store :=
  alter (Dict.pop k) l h.

(** [OutputManager._normalize_content] on objects. *)
Definition _normalize_content (content : ref) (h : store) : ref * store :=
  match content with
  | Imm v => (Imm v, h)
  | Ref l =>
      let '(normalized, h1) := copy l h in
      let h2 := fold_left (fun h field => pop normalized field h) volatile_fields h1 in
      (Ref normalized, h2)
  end.

(** The value a reference stands for. *)
Definition value (r : ref) (h : store) : option pyval :=
  match r with
  | Imm v => Some v
  | Ref l => PDict <$> h !! l
  end.

End Obj.

(** ** Calls that can raise *)

#[global] Instance result_ret : MRet result := fun A a => Ok a.
#[global] Instance result_bind : MBind result := fun A B f r =>
  match r with
  | Ok a => f a
  | Raise e => Raise e
  end.

(** Method lookups and protocols of Python objects, with the exception
    each one raises on an object that does not support it. *)
Module Py.

(** [type(v).__name__]. *)
Definition type_name (v : pyval) : string :=
  match v with
  | PNone => "NoneType"
  | PBool _ => "bool"
  | PInt _ => "int"
  | PStr _ => "str"
  | PList _ => "list"
  | PDict _ => "dict"
  end.

Definition no_attribute (v : pyval) (attr : string) : exn :=
  Exn AttributeError ("'" ++ type_name v ++ "' object has no attribute '" ++ attr ++ "'").

(** [c.get(k, default)]: only a dictionary has [get]. *)
Definition get (c : pyval) (k : string) (default : pyval) : result pyval :=
  match c with
  | PDict d => Ok (Dict.get_default k default d)
  | _ => Raise (no_attribute c "get")
  end.

(** [c.items()]. *)
Definition items (c : pyval) : result pydict :=
  match c with
  | PDict d => Ok d
  | _ => Raise (no_attribute c "items")
  end.

Fixpoint chars (s : string) : list pyval :=
  match s with
  | EmptyString => []
  | String c s' => PStr (String c EmptyString) :: chars s'
  end.

(** [for x in v]: the elements of a list, the characters of a string,
    the keys of a dictionary. *)
Definition iter (v : pyval) : result (list pyval) :=
  match v with
  | PList l => Ok l
  | PStr s => Ok (chars s)
  | PDict d => Ok (map (fun kv => PStr (fst kv)) d)
  | _ => Raise (Exn TypeError ("'" ++ type_name v ++ "' object is not iterable"))
  end.

(** [sep.join(parts)]: every part has to be a string. *)
Fixpoint strings (parts : list pyval) : result (list string) :=
  match parts with
  | [] => Ok []
  | PStr s :: rest => ss ← strings rest; Ok (s :: ss)
  | _ :: _ => Raise (Exn TypeError "sequence item: expected str instance")
  end.

Definition join (sep : string) (parts : list pyval) : result string :=
  ss ← strings parts; Ok (PyStr.join sep ss).

(** [f"{v}"]. *)
Definition fmt (v : pyval) : string := PyRepr.str v.

(** [enumerate(l, start)]. *)
Fixpoint enumerate {A} (start : Z) (l : list A) : list (Z * A) :=
  match l with
  | [] => []
  | x :: l' => (start, x) :: enumerate (start + 1) l'
  end.

(** A loop whose body can raise: the results of the iterations, or the
    first exception. *)
Fixpoint for_each {A B} (f : A -> result B) (l : list A) : result (list B) :=
  match l with
  | [] => Ok []
  | x :: l' => y ← f x; ys ← for_each f l'; Ok (y :: ys)
  end.

(** [sub] occurs in [s]. *)
Fixpoint has_substring (sub s : string) : bool :=
  String.prefix sub s
  || match s with
     | EmptyString => false
     | String _ s' => has_substring sub s'
     end.

(** [k in c], for a string [k]: a key of a dictionary, an element of a
    list, a part of a string. *)
Definition contains (c : pyval) (k : string) : result bool :=
  match c with
  | PDict d => Ok (Dict.contains k d)
  | PList l =>
      Ok (existsb (fun v => match v with PStr s => String.eqb s k | _ => false end) l)
  | PStr s => Ok (has_substring k s)
  | _ => Raise (Exn TypeError ("argument of type '" ++ type_name c ++ "' is not iterable"))
  end.

(** [c[k] = v], for a string [k]. *)
Definition setitem (c : pyval) (k : string) (v : pyval) : result pyval :=
  match c with
  | PDict d => Ok (PDict (Dict.set k v d))
  | PList _ => Raise (Exn TypeError "list indices must be integers or slices, not str")
  | _ => Raise (Exn TypeError ("'" ++ type_name c
                               ++ "' object does not support item assignment"))
  end.

End Py.

(** ** [ContentFormatter] *)

Module ContentFormatter.
Import PyStr.

Definition nl1 : string := String nl EmptyString.
Definition nl2 : string := String nl (String nl EmptyString).

(** [format_safely]: the rendering, or the fallback when the method
    raises or renders nothing. *)
Definition format_safely (content : pyval) (method : pyval -> result string) : string :=
  let attempt :=
    result ← method content;
    if negb (truthy (PStr result)) then Raise (Exn ValueError "Empty formatted content")
    else Ok result in
  match attempt with
  | Ok result => result
  | Raise e =>
      "# Error Formatting Content" ++ nl2 ++ "Original content:" ++ nl1 ++ PyRepr.str content
  end.

(** The optional call to action: [if cta := c.get('cta'): parts.extend(...)]. *)
Definition cta_parts (c : pyval) : result (list pyval) :=
  cta ← Py.get c "cta" PNone;
  Ok (if truthy cta then [PStr (nl1 ++ "## Call to Action"); cta] else []).

(** The loop over [c.get(field, {}).items()]. *)
Definition section_parts (c : pyval) (field : string) : result (list pyval) :=
  sections ← Py.get c field (PDict []);
  items ← Py.items sections;
  Ok (flat_map (fun kv => [PStr (nl1 ++ "## " ++ fst kv); PStr (PyRepr.str (snd kv))]) items).

Definition text_method (c : pyval) : result string :=
  v ← Py.get c "content" (PStr ""); Ok (PyRepr.str v).

Definition poll_method (c : pyval) : result string :=
  hook ← Py.get c "hook" (PStr "Poll");
  context ← Py.get c "context" (PStr "");
  options ← Py.get c "options" (PList []);
  opts ← Py.iter options;
  Py.join nl2
    [PStr ("# " ++ Py.fmt hook); PStr "## Context"; context; PStr "## Options";
     PStr (PyStr.join nl1 (map (fun opt => "- " ++ Py.fmt opt) opts))].

Definition carousel_slide (islide : Z * pyval) : result (list pyval) :=
  let '(i, slide) := islide in
  title ← Py.get slide "title" (PStr ("Slide " ++ of_Z i));
  content_text ← Py.get slide "content" (PStr "");
  Ok [PStr (nl1 ++ "## Slide " ++ of_Z i ++ ": " ++ Py.fmt title); content_text].

Definition carousel_method (c : pyval) : result string :=
  hook ← Py.get c "hook" (PStr "Carousel");
  slides ← Py.get c "slides" (PList []);
  slides ← Py.iter slides;
  slide_parts ← Py.for_each carousel_slide (Py.enumerate 1 slides);
  cta ← cta_parts c;
  Py.join nl2 ([PStr ("# " ++ Py.fmt hook ++ nl1)] ++ concat slide_parts ++ cta).

Definition newsletter_method (c : pyval) : result string :=
  hook ← Py.get c "hook" (PStr "Newsletter");
  sections ← section_parts c "sections";
  cta ← cta_parts c;
  Py.join nl2 ([PStr ("# " ++ Py.fmt hook)] ++ sections ++ cta).

Definition video_script_method (c : pyval) : result string :=
  hook ← Py.get c "hook" (PStr "Video Script");
  duration ← Py.get c "duration" (PInt 0);
  script ← section_parts c "script";
  Py.join nl2 ([PStr ("# " ++ Py.fmt hook);
                PStr ("Duration: " ++ Py.fmt duration ++ " minutes")] ++ script).

Definition document_method (c : pyval) : result string :=
  hook ← Py.get c "hook" (PStr "Document");
  doc_type ← Py.get c "doc_type" (PStr "unknown");
  sections ← section_parts c "sections";
  Py.join nl2 ([PStr ("# " ++ Py.fmt hook);
                PStr ("Document Type: " ++ Py.fmt doc_type)] ++ sections).

(** The six methods of a formatter instance. *)
Definition text (content : pyval) : string := format_safely content text_method.
Definition poll (content : pyval) : string := format_safely content poll_method.
Definition carousel (content : pyval) : string := format_safely content carousel_method.
Definition newsletter (content : pyval) : string := format_safely content newsletter_method.
Definition video_script (content : pyval) : string :=
  format_safely content video_script_method.
Definition document (content : pyval) : string := format_safely content document_method.

(** The static helpers [_format_carousel], ..., [_format_document] of
    the class: the same renderings, outside [format_safely]. *)
Definition _format_carousel (content : pyval) : result string :=
  hook ← Py.get content "hook" (PStr "Carousel");
  slides ← Py.get content "slides" (PList []);
  slides ← Py.iter slides;
  slide_parts ← Py.for_each carousel_slide (Py.enumerate 1 slides);
  cta ← cta_parts content;
  Py.join nl2 ([PStr ("# " ++ Py.fmt hook ++ nl1)] ++ concat slide_parts ++ cta).

Definition _format_poll (content : pyval) : result string :=
  hook ← Py.get content "hook" (PStr "Poll");
  context ← Py.get content "context" (PStr "");
  options ← Py.get content "options" (PList []);
  opts ← Py.iter options;
  Py.join nl2
    [PStr ("# " ++ Py.fmt hook); PStr "## Context"; context; PStr "## Options";
     PStr (PyStr.join nl1 (map (fun opt => "- " ++ Py.fmt opt) opts))].

Definition _format_newsletter (content : pyval) : result string :=
  hook ← Py.get content "hook" (PStr "Newsletter");
  sections ← section_parts content "sections";
  cta ← cta_parts content;
  Py.join nl2 ([PStr ("# " ++ Py.fmt hook)] ++ sections ++ cta).

Definition _format_video_script (content : pyval) : result string :=
  hook ← Py.get content "hook" (PStr "Video Script");
  duration ← Py.get content "duration" (PInt 0);
  script ← section_parts content "script";
  Py.join nl2 ([PStr ("# " ++ Py.fmt hook);
                PStr ("Duration: " ++ Py.fmt duration ++ " minutes")] ++ script).

Definition _format_document (content : pyval) : result string :=
  hook ← Py.get content "hook" (PStr "Document");
  doc_type ← Py.get content "doc_type" (PStr "unknown");
  sections ← section_parts content "sections";
  Py.join nl2 ([PStr ("# " ++ Py.fmt hook);
                PStr ("Document Type: " ++ Py.fmt doc_type)] ++ sections).

End ContentFormatter.

(** What [formatter(content)] can be applied to: a method bound to the
    formatter instance, or a function taken from the class, which still
    expects [self] before [content]. *)
Inductive callable : Type :=
| BoundMethod (f : pyval -> string)
| ClassFunction (name : string) (f : unit -> pyval -> string).

(** A call with one positional argument. *)
Definition call1 (f : callable) (arg : pyval) : result string :=
  match f with
  | BoundMethod m => Ok (m arg)
  | ClassFunction name _ =>
      Raise (Exn TypeError
               (name ++ "() missing 1 required positional argument: 'content'"))
  end.

(** ** Reading JSON text, as [json.load] *)

Module JsonParse.
Import PyStr.

Definition is_ws (c : ascii) : bool :=
  Ascii.eqb c " " || Ascii.eqb c tab || Ascii.eqb c nl || Ascii.eqb c cr.

Fixpoint skip_ws (s : string) : string :=
  match s with
  | String c s' => if is_ws c then skip_ws s' else s
  | EmptyString => EmptyString
  end.

Definition hex_value (c : ascii) : option N :=
  if in_range 48 57 c then Some (code c - 48)%N
  else if in_range 97 102 c then Some (code c - 87)%N
  else if in_range 65 70 c then Some (code c - 55)%N
  else None.

(** The character a backslash escape stands for ([\u] apart). *)
Definition unescape (e : ascii) : option ascii :=
  if Ascii.eqb e dquote then Some dquote
  else if Ascii.eqb e backslash then Some backslash
  else if Ascii.eqb e "/" then Some "/"%char
  else if Ascii.eqb e "b" then Some "008"%char
  else if Ascii.eqb e "f" then Some "012"%char
  else if Ascii.eqb e "n" then Some nl
  else if Ascii.eqb e "r" then Some cr
  else if Ascii.eqb e "t" then Some tab
  else None.

(** The inside of a string literal, up to its closing quote: the
    decoded string and the text after the quote.  Control characters have
    to be escaped; a [\u] escape beyond code point 255 has no character
    in this model and is refused. *)
Fixpoint parse_chars (s : string) : option (string * string) :=
  match s with
  | EmptyString => None
  | String c s' =>
      if Ascii.eqb c dquote then Some (EmptyString, s')
      else if Ascii.eqb c backslash then
        match s' with
        | EmptyString => None
        | String e s'' =>
            if Ascii.eqb e "u" then
              match s'' with
              | String h1 (String h2 (String h3 (String h4 r))) =>
                  match hex_value h1, hex_value h2, hex_value h3, hex_value h4 with
                  | Some 0%N, Some 0%N, Some n3, Some n4 =>
                      match parse_chars r with
                      | Some (t, rest) => Some (String (ascii_of_N (16 * n3 + n4)) t, rest)
                      | None => None
                      end
                  | _, _, _, _ => None
                  end
              | _ => None
              end
            else
              match unescape e with
              | Some c' =>
                  match parse_chars s'' with
                  | Some (t, rest) => Some (String c' t, rest)
                  | None => None
                  end
              | None => None
              end
        end
      else if (code c <? 32)%N then None
      else
        match parse_chars s' with
        | Some (t, rest) => Some (String c t, rest)
        | None => None
        end
  end.

Definition is_digit (c : ascii) : bool := in_range 48 57 c.

(** The longest prefix of digits, and what follows it. *)
Fixpoint span_digits (s : string) : string * string :=
  match s with
  | String c s' =>
      if is_digit c then let '(d, r) := span_digits s' in (String c d, r)
      else (EmptyString, s)
  | EmptyString => (EmptyString, EmptyString)
  end.

(** What follows an integer must not continue it into a float, which
    this model does not have. *)
Definition starts_fraction (s : string) : bool :=
  match s with
  | String c _ => Ascii.eqb c "." || Ascii.eqb c "e" || Ascii.eqb c "E"
  | EmptyString => false
  end.

(** An integer literal: an optional minus sign, then [0] or digits
    that do not start with [0]. *)
Definition parse_int (s : string) : option (Z * string) :=
  let '(negative, s1) :=
    match s with
    | String "-" s' => (true, s')
    | _ => (false, s)
    end in
  let '(digits, r) :=
    match s1 with
    | String "0" r => ("0", r)
    | _ => span_digits s1
    end in
  if is_empty digits || starts_fraction r then None
  else
    match NilEmpty.uint_of_string digits with
    | Some u => Some (if negative then - Z.of_uint u else Z.of_uint u, r)
    | None => None
    end.

(** [s] without the prefix [p], when it starts with it. *)
Fixpoint strip_prefix (p s : string) : option string :=
  match p, s with
  | EmptyString, _ => Some s
  | String a p', String b s' => if Ascii.eqb a b then strip_prefix p' s' else None
  | String _ _, EmptyString => None
  end.

(** [dict(pairs)]: a repeated key keeps its first place and takes the
    last value. *)
Definition dict_of_pairs (pairs : pydict) : pydict :=
  fold_left (fun d kv => Dict.set (fst kv) (snd kv) d) pairs [].

(** The recursive descent of the decoder.  [fuel] bounds the depth of
    the calls; [loads] gives it more than the text can use. *)
Fixpoint parse_value (fuel : nat) (s : string) : option (pyval * string) :=
  match fuel with
  | O => None
  | S fuel' =>
      match s with
      | EmptyString => None
      | String c s' =>
          if Ascii.eqb c dquote then
            match parse_chars s' with
            | Some (t, r) => Some (PStr t, r)
            | None => None
            end
          else if Ascii.eqb c "{" then
            match skip_ws s' with
            | String "}" r => Some (PDict [], r)
            | s1 =>
                match parse_members fuel' s1 with
                | Some (pairs, r) => Some (PDict (dict_of_pairs pairs), r)
                | None => None
                end
            end
          else if Ascii.eqb c "[" then
            match skip_ws s' with
            | String "]" r => Some (PList [], r)
            | s1 =>
                match parse_elements fuel' s1 with
                | Some (l, r) => Some (PList l, r)
                | None => None
                end
            end
          else if Ascii.eqb c "n" then
            match strip_prefix "ull" s' with Some r => Some (PNone, r) | None => None end
          else if Ascii.eqb c "t" then
            match strip_prefix "rue" s' with Some r => Some (PBool true, r) | None => None end
          else if Ascii.eqb c "f" then
            match strip_prefix "alse" s' with Some r => Some (PBool false, r) | None => None end
          else
            match parse_int s with
            | Some (z, r) => Some (PInt z, r)
            | None => None
            end
      end
  end
with parse_elements (fuel : nat) (s : string) : option (list pyval * string) :=
  match fuel with
  | O => None
  | S fuel' =>
      match parse_value fuel' s with
      | Some (v, r) =>
          match skip_ws r with
          | String "," r' =>
              match parse_elements fuel' (skip_ws r') with
              | Some (vs, r'') => Some (v :: vs, r'')
              | None => None
              end
          | String "]" r' => Some ([v], r')
          | _ => None
          end
      | None => None
      end
  end
with parse_members (fuel : nat) (s : string) : option (pydict * string) :=
  match fuel with
  | O => None
  | S fuel' =>
      match s with
      | String c s' =>
          if Ascii.eqb c dquote then
            match parse_chars s' with
            | Some (k, r) =>
                match skip_ws r with
                | String ":" r' =>
                    match parse_value fuel' (skip_ws r') with
                    | Some (v, r'') =>
                        match skip_ws r'' with
                        | String "," r3 =>
                            match parse_members fuel' (skip_ws r3) with
                            | Some (ms, r4) => Some ((k, v) :: ms, r4)
                            | None => None
                            end
                        | String "}" r3 => Some ([(k, v)], r3)
                        | _ => None
                        end
                    | None => None
                    end
                | _ => None
                end
            | None => None
            end
          else None
      | EmptyString => None
      end
  end.

(** [json.loads(s)]: one value, white space allowed around it. *)
Definition loads (s : string) : result pyval :=
  match parse_value (S (String.length s)) (skip_ws s) with
  | Some (v, r) =>
      match skip_ws r with
      | EmptyString => Ok v
      | _ => Raise (Exn JSONDecodeError "Extra data")
      end
  | None => Raise (Exn JSONDecodeError "Expecting value")
  end.

End JsonParse.

(** ** The world of a save: files, clock and faults *)

(** A path, as its components; [p / name] appends one. *)
Abbreviation path := (list string).

Definition path_str (p : path) : string := PyStr.join "/" p.
Definition path_div (p : path) (name : string) : path := (p ++ [name])%list.
Definition path_name (p : path) : string := List.last p EmptyString.

(** [p.relative_to(base)]. *)
Fixpoint relative_to (p base : path) : result path :=
  match base, p with
  | [], _ => Ok p
  | b :: base', c :: p' =>
      if String.eqb b c then relative_to p' base'
      else Raise (Exn ValueError "path is not in the subpath of the base")
  | _ :: _, [] => Raise (Exn ValueError "path is not in the subpath of the base")
  end.

(** What a file holds: text, or the YAML document [yaml.dump] wrote for a
    value (its characters are not modelled). *)
Inductive file_data : Type :=
| Text (s : string)
| Yaml (v : pyval).

(** What the file system does with the next call: it succeeds, it fails
    with an [OSError], or it succeeds and the data that lands on the disk
    is not the data that was sent. *)
Inductive outcome : Type :=
| Succeed
| Fail (msg : string)
| Corrupt (data : string).

Record world : Type := World {
  files : gmap path file_data;   (* the regular files *)
  faults : list outcome;         (* the outcomes of the coming file-system calls *)
  clock : Z;                     (* [time.time()], in milliseconds *)
  slept : list Z;                (* the arguments of [time.sleep], latest first *)
  last_save_time : Z;            (* the attribute of the manager *)
  temp_count : nat;              (* directories [mkdtemp] has made *)
  today : string;                (* [datetime.now()] as [%Y-%m-%d] *)
  timestamp : string             (* [datetime.now()] as [%Y%m%d_%H%M%S] *)
}.

Definition with_files (f : gmap path file_data -> gmap path file_data) (w : world) : world :=
  World (f (files w)) (faults w) (clock w) (slept w) (last_save_time w)
        (temp_count w) (today w) (timestamp w).

(** A computation: it reads and changes the world, and returns or raises. *)
Definition M (A : Type) : Type := world -> result A * world.

#[global] Instance M_ret : MRet M := fun A a w => (Ok a, w).
#[global] Instance M_bind : MBind M := fun A B f m w =>
  match m w with
  | (Ok a, w') => f a w'
  | (Raise e, w') => (Raise e, w')
  end.

Definition raise {A} (e : exn) : M A := fun w => (Raise e, w).

Definition gets {A} (f : world -> A) : M A := fun w => (Ok (f w), w).
Definition modify (f : world -> world) : M unit := fun w => (Ok tt, f w).

(** A pure call inside a computation. *)
Definition lift {A} (r : result A) : M A := fun w => (r, w).

(** [try: body except Exception as e: handler e]. *)
Definition try_except {A} (body : M A) (handler : exn -> M A) : M A := fun w =>
  match body w with
  | (Ok a, w') => (Ok a, w')
  | (Raise e, w') => handler e w'
  end.

(** [try: body finally: cleanup], for a cleanup that does not raise: the
    outcome is the body's. *)
Definition finally {A} (body : M A) (cleanup : M unit) : M A := fun w =>
  let '(r, w1) := body w in
  let '(_, w2) := cleanup w1 in
  (r, w2).

Module Os.

(** The outcome of the next file-system call; calls beyond the plan succeed. *)
Definition next_outcome : M outcome := fun w =>
  match faults w with
  | [] => (Ok Succeed, w)
  | o :: rest =>
      (Ok o, World (files w) rest (clock w) (slept w) (last_save_time w)
                   (temp_count w) (today w) (timestamp w))
  end.

Definition put (p : path) (data : file_data) : M unit :=
  modify (with_files (insert p data)).

(** Open [p] for writing and write [data]. *)
Definition write (p : path) (data : file_data) : M unit :=
  o ← next_outcome;
  match o with
  | Succeed => put p data
  | Fail msg => raise (Exn OSError msg)
  | Corrupt garbage => put p (Text garbage)
  end.

(** [Path.mkdir(parents=True, exist_ok=True)]: directories hold no data
    here, the call can only fail. *)
Definition mkdir (p : path) : M unit :=
  o ← next_outcome;
  match o with
  | Fail msg => raise (Exn OSError msg)
  | _ => mret tt
  end.

Definition exists_ (p : path) : M bool :=
  gets (fun w => bool_decide (is_Some (files w !! p))).

Definition read (p : path) : M file_data := fun w =>
  match files w !! p with
  | Some data => (Ok data, w)
  | None => (Raise (Exn OSError ("No such file or directory: " ++ path_str p)), w)
  end.

(** [shutil.move(src, dst)]: the file leaves [src] and replaces [dst]. *)
Definition move (src dst : path) : M unit :=
  o ← next_outcome;
  match o with
  | Fail msg => raise (Exn OSError msg)
  | _ =>
      data ← read src;
      let landed := match o with Corrupt garbage => Text garbage | _ => data end in
      modify (with_files (fun fs => <[dst := landed]> (delete src fs)))
  end.

(** [shutil.copy2(src, dst)]. *)
Definition copy2 (src dst : path) : M unit :=
  o ← next_outcome;
  match o with
  | Fail msg => raise (Exn OSError msg)
  | _ =>
      data ← read src;
      let landed := match o with Corrupt garbage => Text garbage | _ => data end in
      put dst landed
  end.

(** [tempfile.mkdtemp()]: a directory no earlier call was given. *)
Definition mkdtemp : M path :=
  o ← next_outcome;
  match o with
  | Fail msg => raise (Exn OSError msg)
  | _ =>
      n ← gets temp_count;
      modify (fun w => World (files w) (faults w) (clock w) (slept w) (last_save_time w)
                             (S n) (today w) (timestamp w));;
      mret ["tmp"; "tmp" ++ PyStr.of_Z (Z.of_nat n)]
  end.

(** [p] lies under the directory [dir]. *)
Definition under (dir p : path) : bool := bool_decide (dir `prefix_of` p).

(** [shutil.rmtree(dir)]. *)
Definition rmtree (dir : path) : M unit :=
  o ← next_outcome;
  match o with
  | Fail msg => raise (Exn OSError msg)
  | _ => modify (with_files (filter (fun kv => under dir (fst kv) = false)))
  end.

(** [time.time()] and [time.sleep(d)], in milliseconds. *)
Definition time : M Z := gets clock.

Definition sleep (d : Z) : M unit :=
  modify (fun w => World (files w) (faults w) (clock w + d) (d :: slept w)
                         (last_save_time w) (temp_count w) (today w) (timestamp w)).

(** [Path.unlink()]. *)
Definition unlink (p : path) : M unit :=
  o ← next_outcome;
  match o with
  | Fail msg => raise (Exn OSError msg)
  | _ =>
      present ← exists_ p;
      if present : bool then modify (with_files (delete p))
      else raise (Exn OSError ("No such file or directory: " ++ path_str p))
  end.

(** [s] ends with [suffix]. *)
Fixpoint ends_with (suffix s : string) : bool :=
  String.eqb s suffix
  || match s with
     | EmptyString => false
     | String _ s' => ends_with suffix s'
     end.

(** [p] is strictly below the directory [dir]. *)
Definition inside (dir p : path) : bool :=
  under dir p && (length dir <? length p)%nat.

(** [dir.rglob("*" + suffix)]: the files below [dir] whose name ends
    with [suffix], in the order the file system lists them.  Directories
    are not listed, they hold no data here. *)
Definition rglob (dir : path) (suffix : string) : M (list path) :=
  gets (fun w =>
          List.filter (fun p => inside dir p && ends_with suffix (path_name p))
                      (map fst (map_to_list (files w)))).

End Os.

(** ** [OutputManager] *)

(** The configuration of a manager instance. *)
Record manager : Type := Manager {
  base_dir : path;
  backup_dir : option path
}.

(** The files of one save: artifact tag to path, in insertion order. *)
Abbreviation paths := (list (string * path)).

Module OutputManager.

Definition MAX_RETRIES : nat := 3.
Definition MAX_CONTENT_SIZE : Z := 10 * 1024 * 1024.
Definition RATE_LIMIT_INTERVAL : Z := 1000.

(** The instance table [self.FORMATTERS], read with [.get(content_type)]. *)
Definition FORMATTERS (content_type : string) : option callable :=
  if String.eqb content_type "text" then Some (BoundMethod ContentFormatter.text)
  else if String.eqb content_type "carousel" then Some (BoundMethod ContentFormatter.carousel)
  else if String.eqb content_type "poll" then Some (BoundMethod ContentFormatter.poll)
  else if String.eqb content_type "newsletter"
       then Some (BoundMethod ContentFormatter.newsletter)
  else if String.eqb content_type "video_script"
       then Some (BoundMethod ContentFormatter.video_script)
  else if String.eqb content_type "document" then Some (BoundMethod ContentFormatter.document)
  else None.

(** [safe_file_operation]: a scratch directory for the body, removed on
    every way out; a failure to remove it is only logged. *)
Definition safe_file_operation {A} (body : path -> M A) : M A :=
  temp_dir ← Os.mkdtemp;
  finally (body temp_dir)
          (try_except (Os.rmtree temp_dir) (fun _ => mret tt)).

Definition _get_content_dir (self : manager) (content_type : string) : M path :=
  try_except
    (date_dir ← gets (fun w => path_div (base_dir self) (today w));
     let content_dir := path_div date_dir (_sanitize_filename (PStr content_type)) in
     Os.mkdir content_dir;;
     mret content_dir)
    (fun e => raise (Exn FileError ("Failed to create content directory: " ++ exn_msg e))).

(** The loop of [_retry_operation] over its attempt numbers.  A loop
    that ends without returning yields [None]. *)
Fixpoint retry_loop {A} (operation : M A) (attempts : list nat) : M (option A) :=
  match attempts with
  | [] => mret None
  | attempt :: rest =>
      try_except
        (a ← operation; mret (Some a))
        (fun e =>
           if Nat.eqb attempt (MAX_RETRIES - 1) then raise e
           else
             let wait_time := 2 ^ Z.of_nat attempt in
             Os.sleep (1000 * wait_time);;
             retry_loop operation rest)
  end.

Definition _retry_operation {A} (operation : M A) : M (option A) :=
  retry_loop operation (seq 0 MAX_RETRIES).

Definition _save_json (content : pyval) (p : path) : M unit :=
  Os.write p (Text (Json.dump_indent 0 content)).

Definition _save_yaml (content : pyval) (p : path) : M unit :=
  Os.write p (Yaml content).

Definition _save_formatted (content : pyval) (content_type : string)
    (content_dir : path) (base_filename : string) : M path :=
  try_except
    (let formatter :=
       match FORMATTERS content_type with
       | Some formatter => formatter
       | None => ClassFunction "ContentFormatter.text" (fun _ => ContentFormatter.text)
       end in
     formatted_content ← lift (call1 formatter content);
     let ext := if negb (String.eqb content_type "text") then ".md" else ".txt" in
     let p := path_div content_dir (base_filename ++ ext) in
     Os.mkdir (removelast p);;
     _retry_operation (Os.write p (Text formatted_content));;
     mret p)
    (fun e => raise (Exn OutputError ("Content formatting failed: " ++ exn_msg e))).

Definition _save_all_formats (content : pyval) (content_type : string)
    (temp_dir : path) (base_filename : string) : M paths :=
  try_except
    (let json_path := path_div temp_dir (base_filename ++ ".json") in
     _retry_operation (_save_json content json_path);;
     let paths := [("json", json_path)] in
     formatted_path ← _save_formatted content content_type temp_dir base_filename;
     let paths := (paths ++ [("formatted", formatted_path)])%list in
     let metadata_path := path_div temp_dir (base_filename ++ "_meta.yaml") in
     metadata ← lift (Py.get content "metadata" (PDict []));
     _retry_operation (_save_yaml metadata metadata_path);;
     let paths := (paths ++ [("metadata", metadata_path)])%list in
     mret paths)
    (fun e => raise (Exn OutputError ("Failed to save content formats: " ++ exn_msg e))).

(** [json.load(f)] on what a file holds. *)
Definition json_load (data : file_data) : result pyval :=
  match data with
  | Text s => JsonParse.loads s
  | Yaml _ => Raise (Exn JSONDecodeError "Expecting value")
  end.

Fixpoint verify_loop (l : paths) (checksum : string) : M unit :=
  match l with
  | [] => mret tt
  | (path_type, p) :: rest =>
      present ← Os.exists_ p;
      (if negb present then raise (Exn FileError ("Missing file: " ++ path_str p))
       else mret tt);;
      (if String.eqb path_type "json" then
         data ← Os.read p;
         content ← lift (json_load data);
         let saved_checksum := _compute_checksum content in
         if negb (String.eqb saved_checksum checksum)
         then raise (Exn ValidationError "Content verification failed")
         else mret tt
       else mret tt);;
      verify_loop rest checksum
  end.

Definition _verify_saved_files (l : paths) (checksum : string) : M unit :=
  try_except (verify_loop l checksum) (fun e => raise e).

Fixpoint backup_loop (self : manager) (backup : path) (l : paths) : M unit :=
  match l with
  | [] => mret tt
  | (_, src) :: rest =>
      rel ← lift (relative_to src (base_dir self));
      let dst := (backup ++ rel)%list in
      Os.mkdir (removelast dst);;
      Os.copy2 src dst;;
      backup_loop self backup rest
  end.

(** [_create_backup]: called only when a backup directory is configured. *)
Definition _create_backup (self : manager) (backup : path) (l : paths) : M unit :=
  try_except (backup_loop self backup l) (fun e => mret tt).

Fixpoint move_loop (content_dir : path) (temp_paths final_paths : paths) : M paths :=
  match temp_paths with
  | [] => mret final_paths
  | (path_type, temp_path) :: rest =>
      let final_path := path_div content_dir (path_name temp_path) in
      _retry_operation (Os.move temp_path final_path);;
      move_loop content_dir rest (final_paths ++ [(path_type, final_path)])%list
  end.

Definition _move_to_final_location (temp_paths : paths) (content_dir : path)
    (base_filename : string) : M paths :=
  try_except
    (move_loop content_dir temp_paths [])
    (fun e => raise (Exn FileError ("Failed to move files to final location: " ++ exn_msg e))).

(** [content.get('metadata', {}).get('topic', 'untitled')]. *)
Definition topic_of (content : pyval) : result pyval :=
  metadata ← Py.get content "metadata" (PDict []);
  Py.get metadata "topic" (PStr "untitled").

Definition save_content (self : manager) (content : pyval) (content_type : string)
  : M paths :=
  try_except
    (let content_size := Z.of_nat (String.length (Json.dumps false content)) in
     (if content_size >? MAX_CONTENT_SIZE
      then raise (Exn ValidationError
                    ("Content size (" ++ PyStr.of_Z content_size ++ " bytes) exceeds limit"))
      else mret tt);;
     now ← Os.time;
     last ← gets last_save_time;
     (if now - last <? RATE_LIMIT_INTERVAL
      then Os.sleep (RATE_LIMIT_INTERVAL - (now - last))
      else mret tt);;
     now' ← Os.time;
     modify (fun w => World (files w) (faults w) (clock w) (slept w) now'
                            (temp_count w) (today w) (timestamp w));;
     lift (ContentValidator.validate_content content content_type);;
     let content_to_save := content in
     let checksum := _compute_checksum content_to_save in
     safe_file_operation (fun temp_dir =>
       content_dir ← _get_content_dir self content_type;
       stamp ← gets timestamp;
       topic ← lift (topic_of content);
       let base_filename := _sanitize_filename topic ++ "_" ++ stamp in
       temp_paths ← _save_all_formats content_to_save content_type temp_dir base_filename;
       _verify_saved_files temp_paths checksum;;
       final_paths ← _move_to_final_location temp_paths content_dir base_filename;
       match backup_dir self with
       | Some backup => _create_backup self backup final_paths
       | None => mret tt
       end;;
       mret final_paths))
    (fun e => raise (Exn OutputError ("Content save failed: " ++ exn_msg e))).

(** [_setup_directories]. *)
Definition _setup_directories (self : manager) : M unit :=
  try_except
    (Os.mkdir (base_dir self);;
     match backup_dir self with
     | Some backup => Os.mkdir backup
     | None => mret tt
     end)
    (fun e => raise (Exn FileError ("Failed to create directories: " ++ exn_msg e))).

Fixpoint unlink_loop (l : list path) : M unit :=
  match l with
  | [] => mret tt
  | temp_file :: rest => Os.unlink temp_file;; unlink_loop rest
  end.

(** [_cleanup_temp_files]: a failure is only logged. *)
Definition _cleanup_temp_files (self : manager) : M unit :=
  try_except
    (temp_files ← Os.rglob (base_dir self) ".tmp";
     unlink_loop temp_files)
    (fun e => mret tt).

(** [OutputManager(base_dir, backup_dir)]: the attributes are set, the
    directories made, the temporary files removed.  (The loggers and the
    helper objects are not modelled.) *)
Definition __init__ (base_dir : path) (backup_dir : option path) : M manager :=
  let self := Manager base_dir backup_dir in
  modify (fun w => World (files w) (faults w) (clock w) (slept w) 0
                         (temp_count w) (today w) (timestamp w));;
  _setup_directories self;;
  _cleanup_temp_files self;;
  mret self.

(** The dictionary [backup_data] of [safe_save]. *)
Record backup_data : Type := Backup { backup_content : pyval; backup_temp_dir : path }.

Definition _create_temp_backup (content : pyval) (temp_dir : path) : M unit :=
  try_except
    (let backup_file := path_div temp_dir "content_backup.json" in
     Os.write backup_file (Text (Json.dump_indent_as true 0 content)))
    (fun e => raise e).

(** [_restore_from_backup]: the backup is read and parsed, and nothing
    is done with the result. *)
Definition _restore_from_backup (data : backup_data) : M unit :=
  try_except
    (let backup_file := path_div (backup_temp_dir data) "content_backup.json" in
     text ← Os.read backup_file;
     content ← lift (json_load text);
     mret tt)
    (fun e => raise e).

(** [safe_save].  The locals [backup_data] and [temp_dir] are [None]
    until [mkdtemp] has returned: without a backup directory, and when
    [mkdtemp] fails, the handler only re-raises and the cleanup does
    nothing.  The scratch directory [mkdtemp] made is there when the
    cleanup looks for it. *)
Definition safe_save (self : manager) (content : pyval) (content_type : string)
  : M paths :=
  match backup_dir self with
  | None => try_except (save_content self content content_type) (fun e => raise e)
  | Some _ =>
      temp_dir ← Os.mkdtemp;
      let data := Backup content temp_dir in
      finally
        (try_except
           (_create_temp_backup content temp_dir;;
            save_content self content content_type)
           (fun e =>
              try_except (_restore_from_backup data) (fun restore_error => mret tt);;
              raise e))
        (try_except (Os.rmtree temp_dir) (fun e => mret tt))
  end.

Definition CHUNK_SIZE : Z := 1024 * 1024.

(** [iter(lambda: f.read(n), b'')]: the chunks of at most [n] bytes,
    up to the first empty one. *)
Fixpoint read_chunks (fuel n : nat) (data : list Z) : list (list Z) :=
  match fuel with
  | O => []
  | S fuel' =>
      match firstn n data with
      | [] => []
      | chunk => chunk :: read_chunks fuel' n (skipn n data)
      end
  end.

(** [_compute_file_checksum], on a file that holds the bytes
    [contents]: the digest of the chunks, in turn. *)
Definition _compute_file_checksum (contents : list Z) : string :=
  let chunks := read_chunks (S (length contents)) (Z.to_nat CHUNK_SIZE) contents in
  let sha256 := fold_left (fun buffer chunk => buffer ++ chunk)%list chunks [] in
  Sha256.hexdigest sha256.

(** The keys of the table [self.FORMATTERS]. *)
Definition FORMATTERS_keys : list string :=
  ["text"; "carousel"; "poll"; "newsletter"; "video_script"; "document"].

End OutputManager.

(** ** [linkedin_generator.py] *)

(** [class ContentType(Enum)]. *)
Module ContentType.

Inductive t : Type := TEXT | CAROUSEL | POLL | NEWSLETTER | VIDEO_SCRIPT | DOCUMENT.

Definition value (c : t) : string :=
  match c with
  | TEXT => "text"
  | CAROUSEL => "carousel"
  | POLL => "poll"
  | NEWSLETTER => "newsletter"
  | VIDEO_SCRIPT => "video_script"
  | DOCUMENT => "document"
  end.

Definition members : list t := [TEXT; CAROUSEL; POLL; NEWSLETTER; VIDEO_SCRIPT; DOCUMENT].

(** [ContentType(v)]: the member with the value [v]. *)
Definition of_value (v : pyval) : result t :=
  let found :=
    match v with
    | PStr s => List.find (fun c => String.eqb (value c) s) members
    | _ => None
    end in
  match found with
  | Some c => Ok c
  | None => Raise (Exn ValueError (PyRepr.repr v ++ " is not a valid ContentType"))
  end.

End ContentType.

(** [class ContentGoal(Enum)]. *)
Module ContentGoal.

Inductive t : Type :=
| THOUGHT_LEADERSHIP | ENGAGEMENT | LEAD_GENERATION | BRAND_AWARENESS | RECRUITMENT.

Definition value (g : t) : string :=
  match g with
  | THOUGHT_LEADERSHIP => "thought_leadership"
  | ENGAGEMENT => "engagement"
  | LEAD_GENERATION => "lead_generation"
  | BRAND_AWARENESS => "brand_awareness"
  | RECRUITMENT => "recruitment"
  end.

Definition members : list t :=
  [THOUGHT_LEADERSHIP; ENGAGEMENT; LEAD_GENERATION; BRAND_AWARENESS; RECRUITMENT].

(** [ContentGoal(v)]. *)
Definition of_value (v : pyval) : result t :=
  let found :=
    match v with
    | PStr s => List.find (fun g => String.eqb (value g) s) members
    | _ => None
    end in
  match found with
  | Some g => Ok g
  | None => Raise (Exn ValueError (PyRepr.repr v ++ " is not a valid ContentGoal"))
  end.

End ContentGoal.

(** The data classes [BrandVoice] and [ContentConfig]. *)
Module BrandVoice.

Record t : Type := Make {
  tone : pyval;
  style : pyval;
  personality : pyval;
  key_phrases : pyval;
  emoji_style : pyval;
  industry_hashtags : pyval
}.

End BrandVoice.

Module ContentConfig.

Record t : Type := Make {
  primary_goal : ContentGoal.t;
  target_audience : pyval;
  brand_voice : BrandVoice.t;
  industry_context : pyval;
  custom_parameters : pyval
}.

(** [ContentConfig.from_yaml], from the data [yaml.safe_load] returned. *)
Definition from_yaml (config_data : pyval) : result t :=
  content_config ← Py.get config_data "content_config" (PDict []);
  brand_voice_data ← Py.get config_data "brand_voice" (PDict []);
  tone ← Py.get brand_voice_data "tone" (PList []);
  style ← Py.get brand_voice_data "style" (PList []);
  personality ← Py.get brand_voice_data "personality" (PList []);
  key_phrases ← Py.get brand_voice_data "key_phrases" (PList []);
  emoji_style ← Py.get brand_voice_data "emoji_style" (PStr "minimal");
  industry_hashtags ← Py.get brand_voice_data "industry_hashtags" (PList []);
  let brand_voice :=
    BrandVoice.Make tone style personality key_phrases emoji_style industry_hashtags in
  goal ← Py.get content_config "primary_goal" PNone;
  primary_goal ← ContentGoal.of_value goal;
  target_audience ← Py.get content_config "target_audience" (PList []);
  industry_context ← Py.get content_config "industry_context" (PStr "");
  custom_parameters ← Py.get content_config "custom_parameters" (PDict []);
  Ok (Make primary_goal target_audience brand_voice industry_context custom_parameters).

(** [ContentConfig.validate]. *)
Definition validate (self : t) : result unit :=
  if negb (truthy (target_audience self))
  then Raise (Exn ValueError "Target audience cannot be empty")
  else if negb (truthy (industry_context self))
  then Raise (Exn ValueError "Industry context cannot be empty")
  else if negb (truthy (BrandVoice.tone (brand_voice self)))
  then Raise (Exn ValueError "Brand voice tone cannot be empty")
  else Ok tt.

End ContentConfig.

(** [ContentGenerator]: the generator saves with a manager of its own,
    [OutputManager()]. *)
Module ContentGenerator.

Definition output_manager : manager := Manager ["output"] None.

(** The paths of a save as the dictionary [saved_paths]. *)
Definition paths_value (saved_paths : paths) : pyval :=
  PDict (map (fun tp => (fst tp, PStr (path_str (snd tp)))) saved_paths).

Section Generate.

(** The six methods [_generate_text_post], ..., [_generate_document],
    which ask the language model: here any computations. *)
Variable _generate : ContentType.t -> string -> M pyval.

(** [generate(content_type, topic)], for a [content_type] that is a
    member of [ContentType] or a string. *)
Definition generate (content_type : ContentType.t + string) (topic : string) : M pyval :=
  try_except
    (content_type ←
       match content_type with
       | inr s => lift (ContentType.of_value (PStr s))
       | inl c => mret c
       end;
     content ← _generate content_type topic;
     try_except
       (saved_paths ← OutputManager.save_content output_manager content
                        (ContentType.value content_type);
        lift (Py.setitem content "output_paths" (paths_value saved_paths)))
       (fun e => raise e))
    (fun e => raise e).

End Generate.

End ContentGenerator.

(** ** [main.py] *)

Module LinkedInContentCLI.

Definition required_sections : list string :=
  ["content_config"; "brand_voice"; "templates"].

Fixpoint check_sections (config : pyval) (sections : list string) : result unit :=
  match sections with
  | [] => Ok tt
  | section :: rest =>
      present ← Py.contains config section;
      if negb present
      then Raise (Exn ValueError ("Missing required section: " ++ section))
      else check_sections config rest
  end.

Definition require (v : pyval) (message : string) : result unit :=
  if negb (truthy v) then Raise (Exn ValueError message) else Ok tt.

(** [validate_config]. *)
Definition validate_config (config : pyval) : result unit :=
  check_sections config required_sections;;
  content_config ← Py.get config "content_config" (PDict []);
  primary_goal ← Py.get content_config "primary_goal" PNone;
  require primary_goal "Missing primary_goal in content_config";;
  target_audience ← Py.get content_config "target_audience" PNone;
  require target_audience "Missing target_audience in content_config";;
  brand_voice ← Py.get config "brand_voice" (PDict []);
  tone ← Py.get brand_voice "tone" PNone;
  require tone "Missing tone in brand_voice";;
  style ← Py.get brand_voice "style" PNone;
  require style "Missing style in brand_voice".

(** [validate_components]: every member of [ContentType] has a
    formatter.  (A set prints its elements in no fixed order; the
    message lists them in the order of the members.) *)
Definition validate_components : result unit :=
  let generator_types := map ContentType.value ContentType.members in
  let output_types := OutputManager.FORMATTERS_keys in
  let missing :=
    List.filter (fun c => negb (existsb (String.eqb c) output_types)) generator_types in
  match missing with
  | [] => Ok tt
  | _ =>
      Raise (Exn ValueError
               ("Missing formatters for types: {"
                ++ PyStr.join ", " (map PyRepr.repr_str missing) ++ "}"))
  end.

End LinkedInContentCLI.

(** * Properties *)

(** ** Sanity checks of the string model *)

Example repr_record :
  PyRepr.str (PDict [("content", PStr "it's"); ("n", PInt (-12)); ("l", PList [PNone; PBool true])])
  = String "{" ("'content': " ++ String PyStr.dquote ("it's" ++ String PyStr.dquote (", 'n': -12, 'l': [None, True]}"))).
Proof. reflexivity. Qed.

Example sanitize_examples :
  _sanitize_filename (PStr "AI/ML 2024!") = "ai_ml 2024_"
  /\ _sanitize_filename (PStr "") = "untitled"
  /\ _sanitize_filename (PStr "AI Trends") = "ai trends"
  /\ _sanitize_filename (PStr "  Q&A  ") = "q_a"
  /\ _sanitize_filename (PInt 2024) = "2024"
  /\ _sanitize_filename PNone = "untitled".
Proof. repeat split. Qed.

(** ** File names: [_sanitize_filename] *)

Ltac each_ascii c := destruct c as [[] [] [] [] [] [] [] []]; vm_compute; reflexivity.

(** The sanitization policy in the words of the specification: lower-case,
    replace, fall back to [untitled]. *)
Definition sanitize_as_specified (s : string) : string :=
  let r := PyStr.smap safe_char (PyStr.lower s) in
  if PyStr.is_empty r then "untitled" else r.

(** Leading and trailing spaces removed. *)
Definition trim_spaces (s : string) : string :=
  PyStr.rdrop (Ascii.eqb " ") (PyStr.ldrop (Ascii.eqb " ") s).

(** The policy the code implements: as specified, with the surrounding
    spaces removed before the fallback. *)
Definition sanitize_stripped (s : string) : string :=
  let r := trim_spaces (PyStr.smap safe_char (PyStr.lower s)) in
  if PyStr.is_empty r then "untitled" else r.

(** A character of a sanitized name: a lower-case letter or a digit, a
    space, a hyphen or an underscore. *)
Definition filename_char (c : ascii) : bool :=
  (PyStr.isalnum c && negb (PyStr.isupper c))
  || Ascii.eqb c " " || Ascii.eqb c "-" || Ascii.eqb c "_".

Lemma safe_char_space c :
  PyStr.isspace (safe_char c) = Ascii.eqb " " (safe_char c).
Proof. each_ascii c. Qed.

Lemma safe_lower_filename_char c :
  filename_char (safe_char (PyStr.lower_char c)) = true.
Proof. each_ascii c. Qed.

Lemma sall_smap p f s :
  (forall c, p (f c) = true) -> PyStr.sall p (PyStr.smap f s) = true.
Proof. intros H. induction s as [|c s IH]; simpl; [done|]. by rewrite H, IH. Qed.

Lemma sall_ldrop p q s :
  PyStr.sall p s = true -> PyStr.sall p (PyStr.ldrop q s) = true.
Proof.
  induction s as [|c s IH]; simpl; [done|].
  intros [Hc Hs]%andb_prop. destruct (q c); [auto|]. simpl. by rewrite Hc, Hs.
Qed.

Lemma sall_rdrop p q s :
  PyStr.sall p s = true -> PyStr.sall p (PyStr.rdrop q s) = true.
Proof.
  induction s as [|c s IH]; simpl; [done|].
  intros [Hc Hs]%andb_prop. specialize (IH Hs).
  destruct (PyStr.rdrop q s) as [|c' r].
  - destruct (q c); simpl; [done|]. by rewrite Hc.
  - simpl in *. by rewrite Hc, IH.
Qed.

(** Two predicates that agree on the characters of [s] drop the same
    prefix and the same suffix. *)
Lemma ldrop_agree p q s :
  PyStr.sall (fun c => Bool.eqb (p c) (q c)) s = true ->
  PyStr.ldrop p s = PyStr.ldrop q s.
Proof.
  induction s as [|c s IH]; simpl; [done|].
  intros [Hc Hs]%andb_prop. apply eqb_prop in Hc. rewrite Hc.
  destruct (q c); auto.
Qed.

Lemma rdrop_agree p q s :
  PyStr.sall (fun c => Bool.eqb (p c) (q c)) s = true ->
  PyStr.rdrop p s = PyStr.rdrop q s.
Proof.
  induction s as [|c s IH]; simpl; [done|].
  intros [Hc Hs]%andb_prop. apply eqb_prop in Hc. rewrite (IH Hs), Hc. done.
Qed.

Lemma strip_sanitized s :
  PyStr.strip (PyStr.smap safe_char s) = trim_spaces (PyStr.smap safe_char s).
Proof.
  unfold PyStr.strip, trim_spaces.
  assert (Hs : PyStr.sall (fun c => Bool.eqb (PyStr.isspace c) (Ascii.eqb " " c))
                 (PyStr.smap safe_char s) = true).
  { apply sall_smap. intros c. rewrite safe_char_space. apply eqb_reflx. }
  rewrite (ldrop_agree _ _ _ Hs). apply rdrop_agree. by apply sall_ldrop.
Qed.

Lemma is_empty_smap f s : PyStr.is_empty (PyStr.smap f s) = PyStr.is_empty s.
Proof. by destruct s. Qed.

(** C6, as the code has it: [_sanitize_filename] lower-cases its input,
    replaces every character that is not alphanumeric, space, hyphen or
    underscore by an underscore, removes the spaces left at both ends and
    falls back to [untitled] when nothing remains; the result holds only
    lower-case alphanumerics, spaces, hyphens and underscores.  In
    particular [AI/ML 2024!] becomes [ai_ml 2024_] (the inner space is
    kept) and the empty string becomes [untitled]. *)
Theorem C6_sanitize_filename_stripped (s : string) :
  _sanitize_filename (PStr s) = sanitize_stripped s
  /\ PyStr.sall filename_char (_sanitize_filename (PStr s)) = true
  /\ _sanitize_filename (PStr "AI/ML 2024!") = "ai_ml 2024_"
  /\ _sanitize_filename (PStr "") = "untitled".
Proof.
  assert (Heq : _sanitize_filename (PStr s) = sanitize_stripped s).
  { unfold _sanitize_filename, sanitize_stripped. simpl.
    rewrite strip_sanitized.
    destruct s as [|c s]; [reflexivity|]. reflexivity. }
  split; [exact Heq|]. split; [|split; reflexivity].
  rewrite Heq. unfold sanitize_stripped, trim_spaces, PyStr.lower.
  match goal with |- context [PyStr.is_empty ?r] => destruct (PyStr.is_empty r) end;
    [reflexivity|].
  apply sall_rdrop, sall_ldrop. clear Heq.
  induction s as [|c s IH]; cbn [PyStr.sall PyStr.smap]; [reflexivity|].
  rewrite safe_lower_filename_char. exact IH.
Qed.

(** C6 as stated fails twice on the code: the inner space of
    [AI/ML 2024!] is kept, so the result is not [ai_ml_2024_]; and the
    spaces at the ends are removed, which lower-casing and replacing
    alone do not do. *)
Lemma C6_counterexample :
  _sanitize_filename (PStr "AI/ML 2024!") = "ai_ml 2024_"
  /\ String.eqb (_sanitize_filename (PStr "AI/ML 2024!")) "ai_ml_2024_" = false
  /\ _sanitize_filename (PStr " a") = "a"
  /\ sanitize_as_specified " a" = " a"
  /\ _sanitize_filename (PStr "   ") = "untitled"
  /\ sanitize_as_specified "   " = "   ".
Proof. repeat split. Qed.

(** ** Validation: [ContentValidator.validate_content] *)

(** The field each kind requires. *)
Definition required_field (kind : string) : option string :=
  if String.eqb kind "text" then Some "content"
  else if String.eqb kind "carousel" then Some "slides"
  else if String.eqb kind "poll" then Some "options"
  else if String.eqb kind "newsletter" then Some "sections"
  else if String.eqb kind "video_script" then Some "script"
  else if String.eqb kind "document" then Some "sections"
  else None.

Definition is_nonempty_str (v : pyval) : bool :=
  match v with PStr s => negb (PyStr.is_empty s) | _ => false end.

Definition is_nonempty_dict (v : pyval) : bool :=
  match v with PDict (_ :: _) => true | _ => false end.

(** The shape table of the specification: non-empty string, sequence,
    sequence, mapping, non-empty mapping, mapping. *)
Definition shape_as_specified (kind : string) (v : pyval) : bool :=
  if String.eqb kind "text" then is_nonempty_str v
  else if String.eqb kind "carousel" then is_list v
  else if String.eqb kind "poll" then is_list v
  else if String.eqb kind "newsletter" then is_dict v
  else if String.eqb kind "video_script" then is_nonempty_dict v
  else if String.eqb kind "document" then is_dict v
  else false.

(** The shapes the validators test: for [text] and [video_script] the
    field only has to be truthy, whatever its type. *)
Definition shape_as_checked (kind : string) (v : pyval) : bool :=
  if String.eqb kind "text" then truthy v
  else if String.eqb kind "carousel" then is_list v
  else if String.eqb kind "poll" then is_list v
  else if String.eqb kind "newsletter" then is_dict v
  else if String.eqb kind "video_script" then truthy v
  else if String.eqb kind "document" then is_dict v
  else false.

(** When a record has to be rejected for a kind, given a shape table:
    it is not a mapping, or is empty, or has no [metadata] key, or the
    kind is not registered, or the required field is absent or has the
    wrong shape. *)
Definition must_reject (shape : string -> pyval -> bool)
    (content : pyval) (kind : string) : bool :=
  match content with
  | PDict d =>
      match d with [] => true | _ => false end
      || negb (Dict.contains "metadata" d)
      || match required_field kind with
         | None => true
         | Some f =>
             match Dict.get f d with
             | None => true
             | Some v => negb (shape kind v)
             end
         end
  | _ => true
  end.

Lemma validators_cases kind :
  (kind = "text" /\ ContentValidator.validators kind = Some ContentValidator._validate_text)
  \/ (kind = "carousel" /\ ContentValidator.validators kind = Some ContentValidator._validate_carousel)
  \/ (kind = "poll" /\ ContentValidator.validators kind = Some ContentValidator._validate_poll)
  \/ (kind = "newsletter" /\ ContentValidator.validators kind = Some ContentValidator._validate_newsletter)
  \/ (kind = "video_script" /\ ContentValidator.validators kind = Some ContentValidator._validate_video_script)
  \/ (kind = "document" /\ ContentValidator.validators kind = Some ContentValidator._validate_document)
  \/ (~ In kind KINDS /\ ContentValidator.validators kind = None /\ required_field kind = None).
Proof.
  unfold ContentValidator.validators, required_field, KINDS.
  repeat match goal with
  | |- context [String.eqb kind ?s] =>
      destruct (String.eqb_spec kind s) as [->|?]; [simpl; tauto|]
  end.
  do 6 right. split; [|done]. simpl. intuition congruence.
Qed.

(** Every failure of the validator is a [ValidationError], and it fails
    exactly on the records [must_reject] names for the shapes it tests. *)
Lemma validate_content_spec content kind :
  match ContentValidator.validate_content content kind with
  | Ok _ => must_reject shape_as_checked content kind = false
  | Raise e => exn_cls e = ValidationError
               /\ must_reject shape_as_checked content kind = true
  end.
Proof.
  destruct content as [| | | | |d]; try (simpl; done).
  unfold ContentValidator.validate_content, must_reject.
  destruct d as [|kv d]; [simpl; done|].
  cbn [truthy negb orb].
  destruct (Dict.contains "metadata" (kv :: d)); [|simpl; done].
  cbn [negb orb].
  destruct (validators_cases kind) as
    [[-> ->]|[[-> ->]|[[-> ->]|[[-> ->]|[[-> ->]|[[-> ->]|(_ & -> & ->)]]]]]];
    try (simpl; done);
    cbv [ContentValidator._validate_text ContentValidator._validate_carousel
         ContentValidator._validate_poll ContentValidator._validate_newsletter
         ContentValidator._validate_video_script ContentValidator._validate_document];
    change (required_field _) with (Some "content") ||
    change (required_field _) with (Some "slides") ||
    change (required_field _) with (Some "options") ||
    change (required_field _) with (Some "sections") ||
    change (required_field _) with (Some "script");
    cbv iota beta;
    match goal with |- context [Dict.get ?f ?d] => destruct (Dict.get f d) as [v|] end;
    try (simpl; done);
    cbv [shape_as_checked]; simpl String.eqb;  cbv iota;
    match goal with |- context [negb ?b] => destruct b end; simpl; done.
Qed.

(** C4, as the code has it: for each of the six kinds
    [validate_content] raises, and then a [ValidationError], exactly when
    the record is not a mapping, or is empty, or lacks the [metadata]
    key, or its required field is absent or fails the test of its
    validator: a list for [slides] and [options], a mapping for
    [sections], and any truthy value for [content] and [script]; for a
    kind outside the six it always raises a [ValidationError].  The
    validator is a function of its two arguments and changes nothing. *)
Theorem C4_validate_content_rejects_exactly (content : pyval) (kind : string) :
  (raises (ContentValidator.validate_content content kind)
     = must_reject shape_as_checked content kind)
  /\ (raises (ContentValidator.validate_content content kind) = true <->
      raises_class ValidationError (ContentValidator.validate_content content kind))
  /\ (In kind KINDS \/
      raises_class ValidationError (ContentValidator.validate_content content kind)).
Proof.
  pose proof (validate_content_spec content kind) as H.
  split; [|split].
  - destruct (ContentValidator.validate_content content kind); simpl; [done|].
    by destruct H.
  - destruct (ContentValidator.validate_content content kind) as [?|[c m]]; simpl.
    + split; [done|]. intros [? ?]. done.
    + destruct H as [Hc _]. simpl in Hc. subst c. split; [|done].
      intros _. by exists m.
  - destruct (validators_cases kind) as
      [[-> _]|[[-> _]|[[-> _]|[[-> _]|[[-> _]|[[-> _]|(Hn & Hv & Hr)]]]]]];
      try (left; simpl; tauto).
    right.
    destruct (ContentValidator.validate_content content kind) as [?|[c m]] eqn:E.
    + unfold must_reject in H. rewrite Hr in H.
      destruct content; try done. by rewrite !orb_true_r in H.
    + destruct H as [Hc _]. simpl in Hc. subst c. by exists m.
Qed.

(** C4 as stated fails on the code: a [text] record whose [content] is
    the number 42, and a [video_script] record whose [script] is a
    string, have the wrong shape by the table of the specification, yet
    [validate_content] accepts both. *)
Lemma C4_counterexample :
  let text_record := PDict [("content", PInt 42); ("metadata", PDict [])] in
  let video_record := PDict [("script", PStr "intro"); ("metadata", PDict [])] in
  ContentValidator.validate_content text_record "text" = Ok tt
  /\ must_reject shape_as_specified text_record "text" = true
  /\ ContentValidator.validate_content video_record "video_script" = Ok tt
  /\ must_reject shape_as_specified video_record "video_script" = true.
Proof. repeat split. Qed.

(** ** SHA-256: the published test vectors *)

Example sha256_abc :
  Sha256.hexdigest (utf8_encode "abc")
  = "ba7816bf8f01cfea414140de5dae2223b00361a396177a9cb410ff61f20015ad".
Proof. vm_compute. reflexivity. Qed.

Example sha256_empty :
  Sha256.hexdigest (utf8_encode "")
  = "e3b0c44298fc1c149afbf4c8996fb92427ae41e4649b934ca495991b7852b855".
Proof. vm_compute. reflexivity. Qed.

Example sha256_two_blocks :
  Sha256.hexdigest (utf8_encode
    "aaaaaaaaaaaaaaaaaaaaaaaaaaaaaaaaaaaaaaaaaaaaaaaaaaaaaaaaaaaaaaaaaaaaaa")
  = "6bd5e5034855a11241f0dee8fc72850ffd9955b28347a86428b5fa19119f6ad0".
Proof. vm_compute. reflexivity. Qed.

(** ** JSON text: checks against the library's output *)

Example dumps_sorted :
  Json.dumps true (PDict [("b", PList [PInt 1; PDict [("z", PNone); ("a", PBool true)]]);
                          ("a", PDict []); ("c", PList [])])
  = String "{" (Json.encode_str true "a" ++ ": {}, " ++ Json.encode_str true "b"
      ++ ": [1, {" ++ Json.encode_str true "a" ++ ": true, "
      ++ Json.encode_str true "z" ++ ": null}], " ++ Json.encode_str true "c" ++ ": []}").
Proof. vm_compute. reflexivity. Qed.

Example dump_indent_nested :
  Json.dump_indent 0 (PDict [("b", PList [PInt 1; PDict []]); ("d", PStr "x")])
  = String "{" (String PyStr.nl ("  " ++ Json.encode_str false "b" ++ ": ["
      ++ String PyStr.nl ("    1," ++ String PyStr.nl ("    {}" ++ String PyStr.nl ("  ],"
      ++ String PyStr.nl ("  " ++ Json.encode_str false "d" ++ ": "
      ++ Json.encode_str false "x" ++ String PyStr.nl "}")))))).
Proof. vm_compute. reflexivity. Qed.

(** ** Sorted keys: the canonical order of [json.dumps(sort_keys=True)] *)

Section SortItems.
Context {A : Type}.
Implicit Types (l : list (string * A)) (kv : string * A).

(** The order of the sort: by key, as [String.leb] compares code points. *)
Definition key_le (a b : string * A) : Prop := String.leb (fst a) (fst b) = true.

Lemma string_leb_trans a b c :
  String.leb a b = true -> String.leb b c = true -> String.leb a c = true.
Proof.
  revert b c. unfold String.leb.
  induction a as [|x a IH]; intros [|y b] [|z c]; simpl; try done.
  unfold Ascii.compare.
  destruct (N.compare_spec (N_of_ascii x) (N_of_ascii y)) as [E1|L1|G1];
    destruct (N.compare_spec (N_of_ascii y) (N_of_ascii z)) as [E2|L2|G2];
    destruct (N.compare_spec (N_of_ascii x) (N_of_ascii z)) as [E3|L3|G3];
    try done; try lia.
  apply IH.
Qed.

#[local] Instance key_le_trans : Transitive key_le.
Proof. intros a b c. apply string_leb_trans. Qed.

Lemma insert_item_perm kv l : Json.insert_item kv l ≡ₚ kv :: l.
Proof.
  induction l as [|kv' l IH]; simpl; [done|].
  destruct (String.leb kv.1 kv'.1); [done|].
  rewrite IH. apply Permutation_swap.
Qed.

Lemma sort_items_perm l : Json.sort_items l ≡ₚ l.
Proof.
  induction l as [|kv l IH]; simpl; [done|].
  by rewrite insert_item_perm, IH.
Qed.

Lemma insert_item_sorted kv l :
  Sorted key_le l -> Sorted key_le (Json.insert_item kv l).
Proof.
  induction 1 as [|kv' l Hs IH Hhd]; simpl.
  { repeat constructor. }
  destruct (String.leb kv.1 kv'.1) eqn:E.
  - constructor; [by constructor|]. by constructor.
  - constructor; [done|].
    assert (Hle : key_le kv' kv).
    { unfold key_le. destruct (String.leb_total kv'.1 kv.1); congruence. }
    destruct Hhd as [|kv'' l Hle']; simpl.
    + by constructor.
    + destruct (String.leb kv.1 kv''.1); by constructor.
Qed.

Lemma sort_items_sorted l : Sorted key_le (Json.sort_items l).
Proof.
  induction l as [|kv l IH]; simpl; [constructor|]. by apply insert_item_sorted.
Qed.

(** Two item lists with the same items and distinct keys sort to the
    same list: the order of insertion is forgotten. *)
Lemma sort_items_canonical l1 l2 :
  NoDup (map fst l1) -> l1 ≡ₚ l2 -> Json.sort_items l1 = Json.sort_items l2.
Proof.
  intros Hnd Hp.
  apply (Sorted_unique_strong key_le); [|apply sort_items_sorted..|].
  - intros x1 x2 H1 H2 Hle1 Hle2.
    rewrite sort_items_perm in H1. rewrite sort_items_perm, <-Hp in H2.
    pose proof (String.leb_antisym _ _ Hle1 Hle2) as Hk.
    clear -Hnd H1 H2 Hk.
    induction l1 as [|kv l IH]; [by apply elem_of_nil in H1|].
    simpl in Hnd. apply NoDup_cons in Hnd as [Hnot Hnd].
    apply elem_of_cons in H1 as [->|H1]; apply elem_of_cons in H2 as [->|H2];
      [done| | |by apply IH].
    + destruct Hnot. rewrite Hk. by apply (list_elem_of_fmap_2 fst).
    + destruct Hnot. rewrite <-Hk. by apply (list_elem_of_fmap_2 fst).
  - by rewrite !sort_items_perm.
Qed.
End SortItems.

(** ** Dictionaries as association lists *)

Lemma get_pop k k' (d : pydict) :
  Dict.get k (Dict.pop k' d) = if String.eqb k k' then None else Dict.get k d.
Proof.
  induction d as [|[k0 v0] d IH]; simpl.
  { by destruct (String.eqb k k'). }
  destruct (String.eqb_spec k' k0); simpl; rewrite IH;
    destruct (String.eqb_spec k k0), (String.eqb_spec k k'); subst; congruence.
Qed.

Lemma pop_filter k (d : pydict) :
  Dict.pop k d = List.filter (fun kv => negb (String.eqb k (fst kv))) d.
Proof.
  induction d as [|[k0 v0] d IH]; simpl; [done|].
  destruct (String.eqb k k0); simpl; by rewrite IH.
Qed.

Lemma keys_pop_sub k (d : pydict) x : x ∈ Dict.keys (Dict.pop k d) -> x ∈ Dict.keys d.
Proof.
  induction d as [|[k0 v0] d IH]; simpl; [done|].
  destruct (String.eqb k k0); simpl; rewrite ?elem_of_cons; tauto.
Qed.

Lemma NoDup_keys_pop k (d : pydict) :
  NoDup (Dict.keys d) -> NoDup (Dict.keys (Dict.pop k d)).
Proof.
  induction d as [|[k0 v0] d IH]; simpl; [done|].
  intros [Hn Hd]%NoDup_cons. destruct (String.eqb k k0); simpl; [auto|].
  apply NoDup_cons. split; [|auto]. intros Hin. apply Hn. by eapply keys_pop_sub.
Qed.

(** With distinct keys, the items of a dictionary are what [get] finds. *)
Lemma elem_of_get (d : pydict) k v :
  NoDup (Dict.keys d) -> (k, v) ∈ d <-> Dict.get k d = Some v.
Proof.
  induction d as [|[k0 v0] d IH]; simpl.
  { intros _. split; [by intros ?%elem_of_nil|done]. }
  intros [Hn Hd]%NoDup_cons. rewrite elem_of_cons, (IH Hd).
  destruct (String.eqb_spec k k0) as [->|Hne].
  - split; [|intros [= ->]; by left].
    intros [[= ->]|Hg]; [done|]. destruct Hn.
    apply (IH Hd) in Hg. by apply (list_elem_of_fmap_2 fst) in Hg.
  - split; [intros [[= ? ?]|?]; [congruence|done]|by right].
Qed.

(** Two dictionaries that answer every lookup alike hold the same items. *)
Lemma dict_ext_perm (d1 d2 : pydict) :
  NoDup (Dict.keys d1) -> NoDup (Dict.keys d2) ->
  (forall k, Dict.get k d1 = Dict.get k d2) -> d1 ≡ₚ d2.
Proof.
  intros H1 H2 Hg. apply NoDup_Permutation.
  - by eapply NoDup_fmap_1.
  - by eapply NoDup_fmap_1.
  - intros [k v]. rewrite !elem_of_get by done. by rewrite Hg.
Qed.

(** The sorted serialization of a dictionary depends on its items only,
    not on the order they were inserted in. *)
Lemma dumps_sorted_perm (d1 d2 : pydict) :
  NoDup (Dict.keys d1) -> d1 ≡ₚ d2 ->
  Json.dumps true (PDict d1) = Json.dumps true (PDict d2).
Proof.
  intros Hn Hp. cbn [Json.dumps]. do 3 f_equal.
  apply (f_equal (map _)), sort_items_canonical.
  - rewrite map_map. simpl. exact Hn.
  - by apply Permutation_map.
Qed.

(** ** The shape of a digest *)

Definition is_hex_char (c : ascii) : bool :=
  PyStr.in_range 48 57 c || PyStr.in_range 97 102 c.

(** A hexadecimal digest of 256 bits: 64 lower-case hexadecimal digits. *)
Definition is_hex_digest (s : string) : Prop :=
  String.length s = 64%nat /\ PyStr.sall is_hex_char s = true.

Lemma hex_digit_land_is_hex (y : Z) :
  is_hex_char (PyStr.hex_digit (Z.to_N (Z.land y 15))) = true.
Proof.
  change 15 with (Z.ones 4). rewrite Z.land_ones by lia.
  pose proof (Z.mod_pos_bound y (2 ^ 4) ltac:(lia)) as Hb.
  remember (y mod 2 ^ 4) as m eqn:E. clear E.
  assert (Hm : m = 0 \/ m = 1 \/ m = 2 \/ m = 3 \/ m = 4 \/ m = 5 \/ m = 6 \/ m = 7
               \/ m = 8 \/ m = 9 \/ m = 10 \/ m = 11 \/ m = 12 \/ m = 13 \/ m = 14
               \/ m = 15) by lia.
  repeat (destruct Hm as [->|Hm]; [reflexivity|]). by subst.
Qed.

Lemma string_length_app (s1 s2 : string) :
  String.length (s1 ++ s2) = (String.length s1 + String.length s2)%nat.
Proof. induction s1 as [|c s1 IH]; simpl; [done|]. by rewrite IH. Qed.

Lemma sall_app p s1 s2 :
  PyStr.sall p (s1 ++ s2) = PyStr.sall p s1 && PyStr.sall p s2.
Proof. induction s1 as [|c s1 IH]; simpl; [done|]. by rewrite IH, andb_assoc. Qed.

Lemma hex8_is_hex (x : Z) :
  String.length (Sha256.hex8 x) = 8%nat /\ PyStr.sall is_hex_char (Sha256.hex8 x) = true.
Proof.
  split; [reflexivity|].
  unfold Sha256.hex8. cbn [seq rev app map string_of_list_ascii PyStr.sall].
  by rewrite !hex_digit_land_is_hex.
Qed.

(** Whatever the data, [hexdigest] is 64 hexadecimal digits. *)
Lemma hexdigest_is_hex_digest (data : list Z) : is_hex_digest (Sha256.hexdigest data).
Proof.
  unfold Sha256.hexdigest, Sha256.hex_of_state, is_hex_digest.
  generalize (Sha256.digest data). intros s.
  rewrite !string_length_app, !sall_app.
  destruct (hex8_is_hex (Sha256.sa s)) as [-> ->], (hex8_is_hex (Sha256.sb s)) as [-> ->],
    (hex8_is_hex (Sha256.sc s)) as [-> ->], (hex8_is_hex (Sha256.sd s)) as [-> ->],
    (hex8_is_hex (Sha256.se s)) as [-> ->], (hex8_is_hex (Sha256.sf s)) as [-> ->],
    (hex8_is_hex (Sha256.sg s)) as [-> ->], (hex8_is_hex (Sha256.sh s)) as [-> ->].
  done.
Qed.

(** ** The checksum engine *)

Lemma normalize_dict (d : pydict) :
  _normalize_content (PDict d) = PDict (Dict.pop "metadata" (Dict.pop "generation_time" d)).
Proof. reflexivity. Qed.

(** C3: two records (dictionaries, so with distinct keys) that hold the
    same value under every key other than [generation_time] and
    [metadata], whatever they hold under these two and in whatever order
    their keys were inserted, have the same checksum; and the checksum
    is the SHA-256 digest, 64 hexadecimal digits, of the sorted-key
    serialization of the normalized record. *)
Theorem C3_checksum_ignores_volatile_fields (d1 d2 : pydict) :
  NoDup (Dict.keys d1) -> NoDup (Dict.keys d2) ->
  (forall k, k <> "generation_time" -> k <> "metadata" ->
             Dict.get k d1 = Dict.get k d2) ->
  _compute_checksum (PDict d1) = _compute_checksum (PDict d2)
  /\ is_hex_digest (_compute_checksum (PDict d1))
  /\ _compute_checksum (PDict d1)
     = Sha256.hexdigest (utf8_encode (Json.dumps true (_normalize_content (PDict d1)))).
Proof.
  intros Hn1 Hn2 Hsame. split; [|split; [apply hexdigest_is_hex_digest|reflexivity]].
  unfold _compute_checksum. rewrite !normalize_dict. do 2 f_equal.
  apply dumps_sorted_perm; [by do 2 apply NoDup_keys_pop|].
  apply dict_ext_perm; [by do 2 apply NoDup_keys_pop..|].
  intros k. rewrite !get_pop.
  destruct (String.eqb_spec k "metadata"); [done|].
  destruct (String.eqb_spec k "generation_time"); [done|]. by apply Hsame.
Qed.

(** A text record saved twice: another topic and generation time, keys
    inserted in another order. *)
Definition record_a : pydict :=
  [("content", PStr "Hello world"); ("hook", PStr "Hi");
   ("metadata", PDict [("topic", PStr "AI Trends")]); ("generation_time", PStr "09:00")].
Definition record_b : pydict :=
  [("generation_time", PStr "17:30"); ("hook", PStr "Hi"); ("content", PStr "Hello world")].

Lemma C3_witness :
  NoDup (Dict.keys record_a) /\ NoDup (Dict.keys record_b)
  /\ _compute_checksum (PDict record_a) = _compute_checksum (PDict record_b)
  /\ is_hex_digest (_compute_checksum (PDict record_a)).
Proof.
  assert (Ha : NoDup (Dict.keys record_a)) by (apply (bool_decide_unpack _); vm_compute; exact I).
  assert (Hb : NoDup (Dict.keys record_b)) by (apply (bool_decide_unpack _); vm_compute; exact I).
  split; [exact Ha|]. split; [exact Hb|].
  refine (let H := C3_checksum_ignores_volatile_fields record_a record_b Ha Hb _ in
          conj (proj1 H) (proj1 (proj2 H))).
  intros k Hg Hm. simpl.
  destruct (String.eqb_spec k "content") as [->|?]; [reflexivity|].
  destruct (String.eqb_spec k "hook") as [->|?]; [reflexivity|].
  destruct (String.eqb_spec k "metadata"); [contradiction|].
  destruct (String.eqb_spec k "generation_time"); [contradiction|].
  reflexivity.
Defined.

Example checksum_hello :
  _compute_checksum (PDict [("content", PStr "Hello world");
                            ("metadata", PDict [("topic", PStr "AI Trends")])])
  = "24952c2bb2ae7a5e2969d6a4c8603c6ec278620423e1ea80e15e7e9ce64db93a".
Proof. vm_compute. reflexivity. Qed.

Definition is_volatile (k : string) : bool :=
  String.eqb k "generation_time" || String.eqb k "metadata".

(** Two records that differ only in a [metadata] value nested one level
    down. *)
Definition nested_1 : pyval :=
  PDict [("content", PStr "x"); ("extra", PDict [("metadata", PInt 1)])].
Definition nested_2 : pyval :=
  PDict [("content", PStr "x"); ("extra", PDict [("metadata", PInt 2)])].

Lemma fresh_not_in (h : Obj.store) : h !! fresh (dom h) = None.
Proof. apply not_elem_of_dom, is_fresh. Qed.

(** C10: [_normalize_content] removes [generation_time] and [metadata]
    at the top level only: every other key keeps its value, nested
    dictionaries included; an input that is not a mapping is returned as
    it is; the caller's dictionary object is not changed, the result is a
    new object; and two records that differ only in a nested [metadata]
    value have different checksums. *)
Theorem C10_normalize_top_level_only :
  (forall d k, Dict.get k (Dict.pop "metadata" (Dict.pop "generation_time" d))
               = if is_volatile k then None else Dict.get k d)
  /\ (forall d, _normalize_content (PDict d)
                = PDict (List.filter (fun kv => negb (is_volatile (fst kv))) d))
  /\ (forall v, is_dict v = true \/ _normalize_content v = v)
  /\ (forall (h : Obj.store) l d,
        let h0 := <[l := d]> h in
        exists l',
          Obj._normalize_content (Obj.Ref l) h0
          = (Obj.Ref l', <[l' := Dict.pop "metadata" (Dict.pop "generation_time" d)]> h0)
          /\ h0 !! l' = None
          /\ (<[l' := Dict.pop "metadata" (Dict.pop "generation_time" d)]> h0) !! l = Some d)
  /\ (forall (h : Obj.store) v,
        Obj._normalize_content (Obj.Imm v) h = (Obj.Imm v, h))
  /\ _normalize_content nested_1 = nested_1
  /\ _normalize_content nested_2 = nested_2
  /\ _compute_checksum nested_1
     = "d70f2ef641278917e57d6c67c55796f71abe226b16d6e907e2df8d38af421075"
  /\ _compute_checksum nested_2
     = "dcdce3e05a1e65e4495b3190b04958bc23e620388b585f7c224f0d73a8c7cd0d"
  /\ String.eqb (_compute_checksum nested_1) (_compute_checksum nested_2) = false.
Proof.
  split; [|split; [|split; [|split; [|split]]]].
  - intros d k. rewrite !get_pop. unfold is_volatile.
    destruct (String.eqb k "metadata"), (String.eqb k "generation_time"); done.
  - intros d. rewrite normalize_dict. f_equal.
    induction d as [|[k v] d IH]; [done|].
    unfold is_volatile in *. cbn [Dict.pop List.filter fst].
    rewrite (String.eqb_sym k "generation_time"), (String.eqb_sym k "metadata").
    destruct (String.eqb "generation_time" k); cbn [negb orb]; [exact IH|].
    cbn [Dict.pop]. destruct (String.eqb "metadata" k); cbn [negb]; [exact IH|].
    by rewrite IH.
  - intros [| | | | |d]; auto.
  - intros h l d h0. exists (fresh (dom h0)).
    assert (Hf : h0 !! fresh (dom h0) = None) by apply fresh_not_in.
    assert (Hl : h0 !! l = Some d) by apply lookup_insert_eq.
    split; [|split; [exact Hf|]].
    + unfold Obj._normalize_content, Obj.copy, Obj.pop. cbn [fold_left volatile_fields].
      rewrite Hl. cbn [default]. f_equal.
      by rewrite !alter_insert_eq.
    + rewrite lookup_insert_ne; [done|]. intros E. rewrite E in Hf. congruence.
  - done.
  - repeat split; vm_compute; reflexivity.
Qed.

(** ** Formatters: checks against the renderings of the program *)

Example text_hello :
  ContentFormatter.text (PDict [("content", PStr "Hello world");
                                ("metadata", PDict [("topic", PStr "AI Trends")])])
  = "Hello world".
Proof. reflexivity. Qed.

Example poll_rendering :
  ContentFormatter.poll (PDict [("hook", PStr "Q?"); ("context", PStr "ctx");
                                ("options", PList [PStr "a"; PInt 2; PNone])])
  = PyStr.join ContentFormatter.nl2
      ["# Q?"; "## Context"; "ctx"; "## Options";
       PyStr.join ContentFormatter.nl1 ["- a"; "- 2"; "- None"]].
Proof. vm_compute. reflexivity. Qed.

Example carousel_rendering :
  ContentFormatter.carousel
    (PDict [("slides", PList [PDict [("title", PStr "T"); ("content", PStr "c")]; PDict []]);
            ("cta", PStr "go")])
  = PyStr.join ContentFormatter.nl2
      ["# Carousel" ++ ContentFormatter.nl1;
       ContentFormatter.nl1 ++ "## Slide 1: T"; "c";
       ContentFormatter.nl1 ++ "## Slide 2: Slide 2"; "";
       ContentFormatter.nl1 ++ "## Call to Action"; "go"].
Proof. vm_compute. reflexivity. Qed.

Example carousel_fallback :
  ContentFormatter.carousel (PDict [("slides", PList [PInt 1])])
  = "# Error Formatting Content" ++ ContentFormatter.nl2 ++ "Original content:"
    ++ ContentFormatter.nl1 ++ "{'slides': [1]}".
Proof. vm_compute. reflexivity. Qed.

Example video_rendering :
  ContentFormatter.video_script
    (PDict [("script", PDict [("intro", PList [PInt 1; PStr "a"])]); ("duration", PNone)])
  = PyStr.join ContentFormatter.nl2
      ["# Video Script"; "Duration: None minutes";
       ContentFormatter.nl1 ++ "## intro"; "[1, 'a']"].
Proof. vm_compute. reflexivity. Qed.

(** ** Reading JSON text: checks *)

Example loads_dump_record :
  let v := PDict [("b", PList [PInt 1; PDict []; PInt (-20)]);
                  ("d", PStr ("x" ++ String PyStr.dquote (String PyStr.nl "y")));
                  ("e", PDict [("n", PNone); ("t", PBool true); ("f", PBool false)])] in
  JsonParse.loads (Json.dump_indent 0 v) = Ok v
  /\ JsonParse.loads (Json.dumps false v) = Ok v.
Proof. vm_compute. split; reflexivity. Qed.

Example loads_rejects :
  raises (JsonParse.loads "{") = true
  /\ raises (JsonParse.loads "[1,]") = true
  /\ raises (JsonParse.loads "01") = true
  /\ raises (JsonParse.loads "1.5") = true
  /\ raises (JsonParse.loads "nul") = true
  /\ JsonParse.loads " [ 1 , 2 ] " = Ok (PList [PInt 1; PInt 2])
  /\ JsonParse.loads "-0" = Ok (PInt 0).
Proof. vm_compute. repeat split. Qed.

(** ** The save pipeline on the scenario of the specification *)

Definition mgr : manager := Manager ["output"] None.
Definition mgr_backup : manager := Manager ["output"] (Some ["backup"]).

(** A world with no file, where every file-system call succeeds unless
    [plan] says otherwise. *)
Definition world0 (plan : list outcome) : world :=
  World ∅ plan 1700000000000 [] 0 0 "2024-01-15" "20240115_093000".

Definition hello : pyval :=
  PDict [("content", PStr "Hello world"); ("metadata", PDict [("topic", PStr "AI Trends")])].

Definition final_dir : path := ["output"; "2024-01-15"; "text"].

Definition hello_paths : paths :=
  [("json", path_div final_dir "ai trends_20240115_093000.json");
   ("formatted", path_div final_dir "ai trends_20240115_093000.txt");
   ("metadata", path_div final_dir "ai trends_20240115_093000_meta.yaml")].

Example save_hello :
  let '(r, w) := OutputManager.save_content mgr hello "text" (world0 []) in
  r = Ok hello_paths
  /\ files w !! path_div final_dir "ai trends_20240115_093000.json"
     = Some (Text (Json.dump_indent 0 hello))
  /\ files w !! path_div final_dir "ai trends_20240115_093000.txt"
     = Some (Text "Hello world")
  /\ files w !! path_div final_dir "ai trends_20240115_093000_meta.yaml"
     = Some (Yaml (PDict [("topic", PStr "AI Trends")]))
  /\ size (files w) = 3%nat
  /\ slept w = [] /\ last_save_time w = 1700000000000.
Proof. vm_compute. repeat split; reflexivity. Qed.

(** ** Bounded retries: [_retry_operation] *)

(** The world after [time.sleep(d)]. *)
Definition after_sleep (d : Z) (w : world) : world := snd (Os.sleep d w).

Lemma after_sleep_fields d w :
  slept (after_sleep d w) = d :: slept w
  /\ clock (after_sleep d w) = clock w + d
  /\ files (after_sleep d w) = files w
  /\ faults (after_sleep d w) = faults w.
Proof. done. Qed.

(** Running a computation: the equations of the monad. *)
Lemma run_bind {A B} (m : M A) (f : A -> M B) w :
  (m ≫= f) w = match m w with
               | (Ok a, w') => f a w'
               | (Raise e, w') => (Raise e, w')
               end.
Proof. reflexivity. Qed.

Lemma run_try {A} (body : M A) handler w :
  try_except body handler w = match body w with
                              | (Ok a, w') => (Ok a, w')
                              | (Raise e, w') => handler e w'
                              end.
Proof. reflexivity. Qed.

(** One turn of the retry loop. *)
Lemma retry_loop_cons {A} (operation : M A) attempt rest w :
  OutputManager.retry_loop operation (attempt :: rest) w
  = match operation w with
    | (Ok a, w1) => (Ok (Some a), w1)
    | (Raise e, w1) =>
        if Nat.eqb attempt 2 then (Raise e, w1)
        else OutputManager.retry_loop operation rest
               (after_sleep (1000 * 2 ^ Z.of_nat attempt) w1)
    end.
Proof.
  cbn [OutputManager.retry_loop]. rewrite run_try, run_bind.
  destruct (operation w) as [[a|e] w1]; [reflexivity|].
  change (OutputManager.MAX_RETRIES - 1)%nat with 2%nat.
  destruct (Nat.eqb attempt 2); reflexivity.
Qed.

(** A write that the file system refuses four times in a row. *)
Definition four_failures : list outcome :=
  [Fail "first"; Fail "second"; Fail "third"; Fail "fourth"].

(** C5: [_retry_operation] runs the operation at most three times.  A
    first success is returned at once, with no wait; after a first
    failure it waits 1 second (1000 ms) and tries again, after a second
    failure 2 seconds, and the exception of a third failure is raised as
    it is.  An operation that always fails is therefore run exactly three
    times, with waits of 1 and 2 seconds, 3 seconds in all: a write
    refused four times in a row consumes three of the refusals and raises
    the third. *)
Theorem C5_retry_operation_three_attempts {A} (operation : M A) (w : world) :
  (let '(r1, w1) := operation w in
   match r1 with
   | Ok a => OutputManager._retry_operation operation w = (Ok (Some a), w1)
   | Raise _ =>
       let '(r2, w2) := operation (after_sleep 1000 w1) in
       match r2 with
       | Ok a => OutputManager._retry_operation operation w = (Ok (Some a), w2)
       | Raise _ =>
           let '(r3, w3) := operation (after_sleep 2000 w2) in
           match r3 with
           | Ok a => OutputManager._retry_operation operation w = (Ok (Some a), w3)
           | Raise e3 => OutputManager._retry_operation operation w = (Raise e3, w3)
           end
       end
   end)
  /\ (let '(r, w') := OutputManager._retry_operation
                        (Os.write ["f"] (Text "data")) (world0 four_failures) in
      r = Raise (Exn OSError "third")
      /\ faults w' = [Fail "fourth"]
      /\ slept w' = [2000; 1000]
      /\ clock w' = clock (world0 four_failures) + 3000
      /\ files w' = ∅).
Proof.
  split; [|vm_compute; repeat split; reflexivity].
  unfold OutputManager._retry_operation, OutputManager.MAX_RETRIES.
  cbn [seq]. rewrite retry_loop_cons.
  destruct (operation w) as [[a|e1] w1]; [reflexivity|].
  cbn [Nat.eqb]. rewrite retry_loop_cons.
  change (after_sleep (1000 * 2 ^ Z.of_nat 0) w1) with (after_sleep 1000 w1).
  destruct (operation (after_sleep 1000 w1)) as [[a|e2] w2]; [reflexivity|].
  cbn [Nat.eqb]. rewrite retry_loop_cons.
  change (after_sleep (1000 * 2 ^ Z.of_nat 1) w2) with (after_sleep 2000 w2).
  destruct (operation (after_sleep 2000 w2)) as [[a|e3] w3]; reflexivity.
Qed.

(** ** Rendering: [format_safely] and [_save_formatted] *)

(** The fallback rendering: the error banner, then the record's string form. *)
Definition fallback (content : pyval) : string :=
  "# Error Formatting Content" ++ ContentFormatter.nl2 ++ "Original content:"
  ++ ContentFormatter.nl1 ++ PyRepr.str content.

(** [format_safely] never raises: it returns the rendering of the method
    when there is one and it is not empty, and the fallback otherwise. *)
Lemma format_safely_total content method :
  ContentFormatter.format_safely content method
  = match method content with
    | Ok rendering => if PyStr.is_empty rendering then fallback content else rendering
    | Raise _ => fallback content
    end.
Proof.
  unfold ContentFormatter.format_safely, fallback.
  destruct (method content) as [r|e]; [|reflexivity].
  cbn. by destruct r.
Qed.

(** Each registered kind is rendered by the method of the formatter
    instance, which returns a string whatever the record. *)
Lemma registered_formatters_bound kind :
  In kind KINDS -> exists f, OutputManager.FORMATTERS kind = Some (BoundMethod f).
Proof.
  unfold KINDS. simpl. intros [<-|[<-|[<-|[<-|[<-|[<-|[]]]]]]]; eexists; reflexivity.
Qed.


(** ** Atomicity of a save *)

(** The file-system calls of a save of [hello], in order: [mkdtemp], the
    [mkdir] of the final directory, the JSON write, the [mkdir] and the
    write of the formatted file, the YAML write, then the three moves.
    Here the first seven succeed and the move of the second file is
    refused three times. *)
Definition second_move_fails : list outcome :=
  [Succeed; Succeed; Succeed; Succeed; Succeed; Succeed; Succeed;
   Fail "disk full"; Fail "disk full"; Fail "disk full"].

(** The staged JSON is replaced by other text before the check: once by
    text that is not JSON, once by the JSON of another record. *)
Definition staged_json_garbled : list outcome := [Succeed; Succeed; Corrupt "@@"].
Definition staged_json_replaced : list outcome :=
  [Succeed; Succeed; Corrupt (Json.dump_indent 0 (PDict [("content", PStr "Bye")]))].

(** The files of a world under a directory. *)
Definition files_under (dir : path) (w : world) : list path :=
  List.filter (Os.under dir) (map fst (map_to_list (files w))).

(** C1 at the input where the code departs from it: the three files of
    [hello] are staged and verified, the JSON file is moved to the final
    directory, and the move of the formatted file fails three times.
    [save_content] raises, and the JSON file of this call stays under the
    final directory: the save is neither complete nor absent. *)
Theorem C1_failed_relocation_leaves_partial_files :
  let '(r, w) := OutputManager.save_content mgr hello "text" (world0 second_move_fails) in
  r = Raise (Exn OutputError
               ("Content save failed: Failed to move files to final location: disk full"))
  /\ files w !! path_div final_dir "ai trends_20240115_093000.json"
     = Some (Text (Json.dump_indent 0 hello))
  /\ files_under final_dir w = [path_div final_dir "ai trends_20240115_093000.json"]
  /\ size (files w) = 1%nat
  /\ slept w = [2000; 1000].
Proof. vm_compute. repeat split; reflexivity. Qed.

(** When the verification of step 7 fails, nothing of the call is left:
    neither text that is not JSON nor the JSON of another record gets past
    the check, and the scratch directory is removed. *)
Example verification_failure_leaves_nothing :
  (let '(r, w) := OutputManager.save_content mgr hello "text" (world0 staged_json_garbled) in
   r = Raise (Exn OutputError "Content save failed: Expecting value") /\ files w = ∅)
  /\ (let '(r, w) :=
        OutputManager.save_content mgr hello "text" (world0 staged_json_replaced) in
      r = Raise (Exn OutputError "Content save failed: Content verification failed")
      /\ files w = ∅).
Proof. vm_compute. repeat split; reflexivity. Qed.

(** ** Best-effort backups *)

(** The returned value or raised exception of a run. *)
Definition outcome_of {A} (m : M A) (w : world) : result A := fst (m w).

Lemma outcome_bind_ext {A B} (m : M A) (f g : A -> M B) w :
  (forall a w1, outcome_of (f a) w1 = outcome_of (g a) w1) ->
  outcome_of (m ≫= f) w = outcome_of (m ≫= g) w.
Proof.
  intros H. unfold outcome_of. rewrite !run_bind.
  destruct (m w) as [[a|e] w1]; [apply H|reflexivity].
Qed.

Lemma outcome_try_wrap_ext {A} (b1 b2 : M A) (wrap : exn -> exn) w :
  outcome_of b1 w = outcome_of b2 w ->
  outcome_of (try_except b1 (fun e => raise (wrap e))) w
  = outcome_of (try_except b2 (fun e => raise (wrap e))) w.
Proof.
  unfold outcome_of. rewrite !run_try.
  destruct (b1 w) as [[a1|e1] w1], (b2 w) as [[a2|e2] w2]; simpl; congruence.
Qed.

Lemma outcome_finally {A} (body : M A) cleanup w :
  outcome_of (finally body cleanup) w = outcome_of body w.
Proof.
  unfold outcome_of, finally. destruct (body w) as [r w1].
  by destruct (cleanup w1).
Qed.

(** [_create_backup] never raises, whatever the file system does. *)
Lemma create_backup_never_raises self backup l w :
  outcome_of (OutputManager._create_backup self backup l) w = Ok tt.
Proof.
  unfold outcome_of, OutputManager._create_backup. rewrite run_try.
  by destruct (OutputManager.backup_loop self backup l w) as [[[]|e] w1].
Qed.

(** Every backup copy of the save of [hello] is refused. *)
Definition backup_copies_fail : list outcome :=
  [Succeed; Succeed; Succeed; Succeed; Succeed; Succeed; Succeed; Succeed; Succeed;
   Succeed; Fail "backup volume is read-only"].

(** C8: with a backup directory configured, [save_content] returns or
    raises exactly what it does without one, in every world, so whatever
    happens to the backup copies: a save whose validation, staging,
    verification and relocation succeed returns its final paths.
    [_create_backup] itself never raises.  When the first copy of the
    save of [hello] is refused, the save still returns the three final
    paths, and the backup directory stays empty. *)
Theorem C8_backup_failure_never_fails_the_save
    (base backup : path) (content : pyval) (kind : string) (w : world) :
  outcome_of (OutputManager.save_content (Manager base (Some backup)) content kind) w
  = outcome_of (OutputManager.save_content (Manager base None) content kind) w
  /\ (forall l, outcome_of
                  (OutputManager._create_backup (Manager base (Some backup)) backup l) w
                = Ok tt)
  /\ (let '(r, w') :=
        OutputManager.save_content mgr_backup hello "text" (world0 backup_copies_fail) in
      r = Ok hello_paths /\ files_under ["backup"] w' = [] /\ size (files w') = 3%nat).
Proof.
  split; [|split; [intros l; apply create_backup_never_raises|
                   vm_compute; repeat split; reflexivity]].
  unfold OutputManager.save_content.
  apply outcome_try_wrap_ext.
  do 7 (apply outcome_bind_ext; intros).
  unfold OutputManager.safe_file_operation.
  apply outcome_bind_ext; intros temp_dir w8.
  rewrite !outcome_finally.
  do 6 (apply outcome_bind_ext; intros).
  cbn [backup_dir].
  match goal with
  | |- outcome_of (OutputManager._create_backup ?s ?b ?l ≫= _) ?w0 = _ =>
      pose proof (create_backup_never_raises s b l w0) as Hb;
      unfold outcome_of in *; rewrite !run_bind;
      destruct (OutputManager._create_backup s b l w0) as [[[]|e] w'];
      [reflexivity|discriminate]
  end.
Qed.

(** ** What a successful run went through *)

Lemma bind_ok_inv {A B} (m : M A) (f : A -> M B) w b w' :
  (m ≫= f) w = (Ok b, w') -> exists a w1, m w = (Ok a, w1) /\ f a w1 = (Ok b, w').
Proof.
  rewrite run_bind. destruct (m w) as [[a|e] w1]; [|discriminate]. eauto.
Qed.

Lemma try_wrap_ok_inv {A} (body : M A) (wrap : exn -> exn) w a w' :
  try_except body (fun e => raise (wrap e)) w = (Ok a, w') -> body w = (Ok a, w').
Proof. rewrite run_try. destruct (body w) as [[a1|e] w1]; [done|discriminate]. Qed.

Lemma ret_ok_inv {A} (a b : A) w w' : (mret a : M A) w = (Ok b, w') -> a = b /\ w = w'.
Proof. intros [= -> ->]. done. Qed.

Lemma lift_ok_inv {A} (r : result A) w a w' : lift r w = (Ok a, w') -> r = Ok a /\ w = w'.
Proof. intros [= -> ->]. done. Qed.

Lemma finally_ok_inv {A} (body : M A) cleanup w a w' :
  finally body cleanup w = (Ok a, w') -> exists w1, body w = (Ok a, w1).
Proof.
  unfold finally. destruct (body w) as [r w1]. destruct (cleanup w1).
  intros [= -> ->]. eauto.
Qed.

(** Peel the steps of a run that returned: each bind gives the value of
    its first part. *)
Ltac peel H :=
  repeat first
    [ apply try_wrap_ok_inv in H
    | let a := fresh "a" in let w := fresh "w" in let E := fresh "E" in
      apply bind_ok_inv in H as (a & w & E & H) ].

Lemma path_name_div (p : path) (name : string) : path_name (path_div p name) = name.
Proof. unfold path_name, path_div. apply last_last. Qed.

(** A staging that returns names its three files after [base_filename]. *)
Lemma save_all_formats_paths content kind temp_dir base_filename w ps w' :
  OutputManager._save_all_formats content kind temp_dir base_filename w = (Ok ps, w') ->
  ps = [("json", path_div temp_dir (base_filename ++ ".json"));
        ("formatted", path_div temp_dir
           (base_filename ++ (if negb (String.eqb kind "text") then ".md" else ".txt")));
        ("metadata", path_div temp_dir (base_filename ++ "_meta.yaml"))].
Proof.
  unfold OutputManager._save_all_formats. intros H. peel H.
  apply ret_ok_inv in H as [<- _].
  unfold OutputManager._save_formatted in E0. peel E0.
  apply ret_ok_inv in E0 as [<- _]. reflexivity.
Qed.

(** A relocation that returns gives each file its name in the final directory. *)
Lemma move_loop_paths content_dir temp_paths acc w ps w' :
  OutputManager.move_loop content_dir temp_paths acc w = (Ok ps, w') ->
  ps = (acc ++ map (fun tp => (fst tp, path_div content_dir (path_name (snd tp))))
                   temp_paths)%list.
Proof.
  revert acc w. induction temp_paths as [|[tag p] l IH]; intros acc w; simpl.
  - intros [-> _]%ret_ok_inv. by rewrite app_nil_r.
  - intros H. peel H. apply IH in H. by rewrite H, <-app_assoc.
Qed.

(** ** The [metadata] field *)

Lemma get_set f k v (d : pydict) :
  Dict.get f (Dict.set k v d) = if String.eqb f k then Some v else Dict.get f d.
Proof.
  induction d as [|[k0 v0] d IH]; simpl.
  { by destruct (String.eqb f k). }
  destruct (String.eqb_spec k k0) as [->|Hne]; simpl.
  - by destruct (String.eqb f k0).
  - rewrite IH. destruct (String.eqb_spec f k0) as [->|?]; [|done].
    destruct (String.eqb_spec k0 k); [congruence|done].
Qed.

Lemma set_nonempty k v (d : pydict) : Dict.set k v d <> [].
Proof. destruct d as [|[k0 v0] d]; simpl; [done|]. by destruct (String.eqb k k0). Qed.

Lemma required_field_not_metadata kind f :
  required_field kind = Some f -> String.eqb f "metadata" = false.
Proof.
  unfold required_field.
  repeat match goal with
  | |- context [String.eqb kind ?s] => destruct (String.eqb kind s); [by intros [= <-]|]
  end. done.
Qed.

(** What the validator answers for a record that has a [metadata] key:
    only the test of the kind's field is left. *)
Lemma validate_with_metadata (d : pydict) (v : pyval) (kind : string) :
  ContentValidator.validate_content (PDict (Dict.set "metadata" v d)) kind
  = match ContentValidator.validators kind with
    | Some validator => validator (Dict.set "metadata" v d)
    | None => Raise (Exn ValidationError ("No validator found for content type: " ++ kind))
    end.
Proof.
  unfold ContentValidator.validate_content.
  pose proof (set_nonempty "metadata" v d) as Hne.
  destruct (Dict.set "metadata" v d) as [|kv l] eqn:E; [done|].
  cbn [truthy negb]. rewrite <-E. unfold Dict.contains. rewrite get_set.
  reflexivity.
Qed.

Lemma validators_ignore_metadata (d : pydict) (v v' : pyval) (kind : string) validator :
  ContentValidator.validators kind = Some validator ->
  validator (Dict.set "metadata" v d) = validator (Dict.set "metadata" v' d).
Proof.
  intros Hv.
  destruct (validators_cases kind) as
    [[-> E]|[[-> E]|[[-> E]|[[-> E]|[[-> E]|[[-> E]|(_ & E & _)]]]]]];
    rewrite E in Hv; [..|discriminate]; injection Hv as <-;
    cbv [ContentValidator._validate_text ContentValidator._validate_carousel
         ContentValidator._validate_poll ContentValidator._validate_newsletter
         ContentValidator._validate_video_script ContentValidator._validate_document];
    rewrite !get_set; reflexivity.
Qed.

(** The three final paths of a save whose topic is [untitled]. *)
Definition untitled_paths (content_dir : path) (stamp kind : string) : paths :=
  [("json", path_div content_dir ("untitled_" ++ stamp ++ ".json"));
   ("formatted", path_div content_dir
      ("untitled_" ++ stamp ++ (if negb (String.eqb kind "text") then ".md" else ".txt")));
   ("metadata", path_div content_dir ("untitled_" ++ stamp ++ "_meta.yaml"))].

(** C9: [validate_content] never looks at the value stored under
    [metadata]: its answer is the same whatever that value is, and for a
    record that has the key it raises exactly when the kind is not
    registered or the kind's own field is absent or fails its test.  When
    [metadata] is a mapping without [topic], a save that returns has
    named its three files [untitled_<timestamp>...]. *)
Theorem C9_metadata_value_not_inspected
    (self : manager) (d m : pydict) (v v' : pyval) (kind : string)
    (w w' : world) (ps : paths) :
  ContentValidator.validate_content (PDict (Dict.set "metadata" v d)) kind
  = ContentValidator.validate_content (PDict (Dict.set "metadata" v' d)) kind
  /\ raises (ContentValidator.validate_content (PDict (Dict.set "metadata" v d)) kind)
     = match required_field kind with
       | None => true
       | Some f => match Dict.get f d with
                   | None => true
                   | Some x => negb (shape_as_checked kind x)
                   end
       end
  /\ (Dict.get "topic" m = None ->
      OutputManager.save_content self (PDict (Dict.set "metadata" (PDict m) d)) kind w
      = (Ok ps, w') ->
      exists content_dir stamp, ps = untitled_paths content_dir stamp kind).
Proof.
  split; [|split].
  - rewrite !validate_with_metadata.
    destruct (ContentValidator.validators kind) as [validator|] eqn:E; [|done].
    by apply (validators_ignore_metadata d v v' kind).
  - pose proof (validate_content_spec (PDict (Dict.set "metadata" v d)) kind) as H.
    assert (Hm : must_reject shape_as_checked (PDict (Dict.set "metadata" v d)) kind
                 = match required_field kind with
                   | None => true
                   | Some f => match Dict.get f d with
                               | None => true
                               | Some x => negb (shape_as_checked kind x)
                               end
                   end).
    { unfold must_reject. pose proof (set_nonempty "metadata" v d) as Hne.
      destruct (Dict.set "metadata" v d) as [|kv l] eqn:E; [done|]. rewrite <-E.
      unfold Dict.contains. rewrite get_set.
      change (String.eqb "metadata" "metadata") with true. cbn [negb orb].
      destruct (required_field kind) as [f|] eqn:Ef; [|done].
      by rewrite get_set, (required_field_not_metadata _ _ Ef). }
    rewrite <-Hm.
    destruct (ContentValidator.validate_content _ kind); simpl; [done|]. by destruct H.
  - intros Htopic H. unfold OutputManager.save_content in H. cbv zeta in H. peel H.
    unfold OutputManager.safe_file_operation in H. peel H.
    apply finally_ok_inv in H as [wz H]. peel H.
    apply ret_ok_inv in H as [<- _].
    match goal with
    | Ht : lift (OutputManager.topic_of _) _ = _ |- _ =>
        apply lift_ok_inv in Ht as [Ht _]; unfold OutputManager.topic_of, Py.get in Ht;
        cbn [mbind result_bind] in Ht; unfold Dict.get_default in Ht;
        rewrite get_set in Ht; change (String.eqb "metadata" "metadata") with true in Ht;
        cbn iota in Ht; rewrite Htopic in Ht; injection Ht as <-
    end.
    match goal with
    | Hs : OutputManager._save_all_formats _ _ _ _ _ = _ |- _ =>
        apply save_all_formats_paths in Hs; subst
    end.
    match goal with
    | Hm : OutputManager._move_to_final_location _ ?dir _ _ = _,
      Hg : gets timestamp _ = (Ok ?stamp, _) |- _ =>
        unfold OutputManager._move_to_final_location in Hm;
        apply try_wrap_ok_inv, move_loop_paths in Hm; subst;
        exists dir, stamp
    end.
    cbn [map app fst snd]. rewrite !path_name_div. reflexivity.
Qed.

(** A text record whose [metadata] is an empty mapping. *)
Definition no_topic : pydict := [("content", PStr "Hi")].

Lemma no_topic_result :
  fst (OutputManager.save_content mgr (PDict (Dict.set "metadata" (PDict []) no_topic))
         "text" (world0 []))
  = Ok (untitled_paths final_dir "20240115_093000" "text").
Proof. vm_compute. reflexivity. Qed.

Lemma no_topic_run :
  OutputManager.save_content mgr (PDict (Dict.set "metadata" (PDict []) no_topic))
    "text" (world0 [])
  = (Ok (untitled_paths final_dir "20240115_093000" "text"),
     snd (OutputManager.save_content mgr
            (PDict (Dict.set "metadata" (PDict []) no_topic)) "text" (world0 []))).
Proof. rewrite <-no_topic_result. apply surjective_pairing. Qed.

Lemma C9_witness :
  Dict.get "topic" [] = None
  /\ OutputManager.save_content mgr (PDict (Dict.set "metadata" (PDict []) no_topic))
       "text" (world0 [])
     = (Ok (untitled_paths final_dir "20240115_093000" "text"),
        snd (OutputManager.save_content mgr
               (PDict (Dict.set "metadata" (PDict []) no_topic)) "text" (world0 [])))
  /\ exists content_dir stamp,
       untitled_paths final_dir "20240115_093000" "text"
       = untitled_paths content_dir stamp "text".
Proof.
  split; [reflexivity|]. split; [exact no_topic_run|].
  exact (proj2 (proj2 (C9_metadata_value_not_inspected mgr no_topic [] PNone PNone "text"
                         (world0 []) _ _))
               eq_refl no_topic_run).
Defined.

(** ** JSON round trip: what [json.load] reads back from [json.dump] *)

Lemma string_app_assoc (a b c : string) : (a ++ b) ++ c = a ++ (b ++ c).
Proof.
  induction a as [|x a IH]; [reflexivity|].
  change (String x ((a ++ b) ++ c) = String x (a ++ b ++ c)). by rewrite IH.
Qed.

(** What can follow a value in the text [dump_indent] writes: the end, a
    comma, or a line break. *)
Definition ends_value (rest : string) : bool :=
  match rest with
  | EmptyString => true
  | String c _ => Ascii.eqb c "," || Ascii.eqb c PyStr.nl
  end.

Lemma ends_value_not_digit c rest :
  ends_value (String c rest) = true ->
  JsonParse.is_digit c = false /\ JsonParse.starts_fraction (String c rest) = false.
Proof.
  unfold ends_value. intros [H|H]%orb_prop; apply Ascii.eqb_eq in H; subst; done.
Qed.

(** *** Integers *)

Lemma string_of_uint_digits d :
  PyStr.sall JsonParse.is_digit (NilEmpty.string_of_uint d) = true.
Proof. induction d; simpl; try done; by rewrite IHd. Qed.

Lemma span_digits_app ds rest :
  PyStr.sall JsonParse.is_digit ds = true ->
  match rest with EmptyString => True | String c _ => JsonParse.is_digit c = false end ->
  JsonParse.span_digits (ds ++ rest) = (ds, rest).
Proof.
  intros Hd Hr. induction ds as [|c ds IH]; simpl.
  - destruct rest as [|c r]; [done|]. simpl. by rewrite Hr.
  - simpl in Hd. apply andb_prop in Hd as [Hc Hd]. by rewrite Hc, (IH Hd).
Qed.

Lemma nzhead_not_D0 d d' : Decimal.nzhead d <> Decimal.D0 d'.
Proof. induction d; simpl; try discriminate. exact IHd. Qed.

(** The decimal digits of a positive number do not start with a zero. *)
Lemma to_uint_head p :
  match Pos.to_uint p with
  | Decimal.Nil | Decimal.D0 _ => False
  | _ => True
  end.
Proof.
  pose proof (DecimalPos.Unsigned.to_of (Pos.to_uint p)) as H.
  rewrite DecimalPos.Unsigned.of_to in H. simpl in H.
  pose proof (DecimalPos.Unsigned.to_uint_nonnil p) as Hn.
  destruct (Pos.to_uint p) as [|d| | | | | | | | |] eqn:E; try done.
  unfold Decimal.unorm in H. simpl in H.
  destruct (Decimal.nzhead d) eqn:En; try discriminate H.
  - injection H as ->. exact (DecimalPos.Unsigned.to_uint_nonzero p E).
  - exact (nzhead_not_D0 _ _ En).
Qed.

Lemma parse_digits_of_pos p rest :
  match rest with
  | EmptyString => True
  | String c _ => JsonParse.is_digit c = false
  end ->
  JsonParse.starts_fraction rest = false ->
  forall s, s = NilEmpty.string_of_uint (Pos.to_uint p) ->
  (match s ++ rest with
   | String "0" r => ("0", r)
   | _ => JsonParse.span_digits (s ++ rest)
   end) = (s, rest)
  /\ PyStr.is_empty s = false
  /\ NilEmpty.uint_of_string s = Some (Pos.to_uint p)
  /\ match s with String "-" _ => False | _ => True end.
Proof.
  intros Hr Hf s ->. pose proof (to_uint_head p) as Hh.
  pose proof (string_of_uint_digits (Pos.to_uint p)) as Hd.
  split; [|split; [|split; [apply NilEmpty.usu|]]].
  - rewrite (span_digits_app _ _ Hd Hr).
    destruct (Pos.to_uint p); try done.
  - destruct (Pos.to_uint p); done.
  - destruct (Pos.to_uint p); done.
Qed.

Lemma of_uint_to_uint p : Z.of_uint (Pos.to_uint p) = Z.pos p.
Proof. unfold Z.of_uint. by rewrite DecimalPos.Unsigned.of_to. Qed.

(** The part of [parse_int] after the sign. *)
Definition int_tail (negative : bool) (s1 : string) : option (Z * string) :=
  let '(digits, r) :=
    match s1 with
    | String "0" r => ("0", r)
    | _ => JsonParse.span_digits s1
    end in
  if PyStr.is_empty digits || JsonParse.starts_fraction r then None
  else
    match NilEmpty.uint_of_string digits with
    | Some u => Some (if negative then - Z.of_uint u else Z.of_uint u, r)
    | None => None
    end.

Lemma parse_int_unsigned s :
  match s with String "-" _ => False | _ => True end ->
  JsonParse.parse_int s = int_tail false s.
Proof.
  destruct s as [|c s]; [done|].
  destruct c as [[] [] [] [] [] [] [] []]; done.
Qed.

Lemma int_tail_pos negative p rest :
  ends_value rest = true ->
  int_tail negative (NilEmpty.string_of_uint (Pos.to_uint p) ++ rest)
  = Some (if negative then Z.neg p else Z.pos p, rest).
Proof.
  intros He.
  assert (Hr : match rest with
               | EmptyString => True
               | String c _ => JsonParse.is_digit c = false
               end).
  { destruct rest; [done|]. by apply ends_value_not_digit in He as []. }
  assert (Hf : JsonParse.starts_fraction rest = false).
  { destruct rest; [done|]. by apply ends_value_not_digit in He as []. }
  destruct (parse_digits_of_pos p rest Hr Hf _ eq_refl) as (H1 & H2 & H3 & _).
  unfold int_tail. rewrite H1, H2, Hf. cbn [orb]. rewrite H3, of_uint_to_uint.
  by destruct negative.
Qed.

Lemma nilzero_of_pos p :
  NilZero.string_of_uint (Pos.to_uint p) = NilEmpty.string_of_uint (Pos.to_uint p).
Proof.
  unfold NilZero.string_of_uint.
  pose proof (DecimalPos.Unsigned.to_uint_nonnil p). by destruct (Pos.to_uint p).
Qed.

(** An integer is read back as written, when what follows cannot
    continue the number. *)
Lemma parse_int_of_Z z rest :
  ends_value rest = true ->
  JsonParse.parse_int (PyStr.of_Z z ++ rest) = Some (z, rest).
Proof.
  intros He. unfold PyStr.of_Z. destruct z as [|p|p].
  - change (NilZero.string_of_int (Z.to_int 0) ++ rest) with (String "0" rest).
    unfold JsonParse.parse_int. cbv beta iota zeta.
    assert (Hf : JsonParse.starts_fraction rest = false).
    { destruct rest; [done|]. by apply ends_value_not_digit in He as []. }
    cbn [PyStr.is_empty orb]. rewrite Hf. reflexivity.
  - cbn [Z.to_int NilZero.string_of_int]. rewrite nilzero_of_pos.
    rewrite parse_int_unsigned; [by apply int_tail_pos|].
    pose proof (to_uint_head p) as Hh. by destruct (Pos.to_uint p).
  - cbn [Z.to_int NilZero.string_of_int]. rewrite nilzero_of_pos.
    change (JsonParse.parse_int
              (String "-" (NilEmpty.string_of_uint (Pos.to_uint p)) ++ rest))
      with (int_tail true (NilEmpty.string_of_uint (Pos.to_uint p) ++ rest)).
    by apply int_tail_pos.
Qed.

(** *** Strings *)

(** One character, escaped or not, is read back as itself. *)
Lemma parse_chars_escape_char ensure_ascii c t :
  JsonParse.parse_chars (Json.escape_char ensure_ascii c ++ t)
  = match JsonParse.parse_chars t with
    | Some (u, r) => Some (String c u, r)
    | None => None
    end.
Proof.
  destruct ensure_ascii; destruct c as [[] [] [] [] [] [] [] []]; reflexivity.
Qed.

Lemma parse_chars_escape ensure_ascii s rest :
  JsonParse.parse_chars (Json.escape ensure_ascii s ++ String PyStr.dquote rest)
  = Some (s, rest).
Proof.
  induction s as [|c s IH]; [reflexivity|].
  cbn [Json.escape]. rewrite string_app_assoc, parse_chars_escape_char, IH.
  reflexivity.
Qed.

(** A string literal followed by more text: the opening quote, the
    escaped characters, the closing quote, the text. *)
Lemma encode_str_app ensure_ascii s rest :
  Json.encode_str ensure_ascii s ++ rest
  = String PyStr.dquote (Json.escape ensure_ascii s ++ String PyStr.dquote rest).
Proof.
  unfold Json.encode_str.
  change (String PyStr.dquote (Json.escape ensure_ascii s ++ String PyStr.dquote "") ++ rest)
    with (String PyStr.dquote ((Json.escape ensure_ascii s ++ String PyStr.dquote "") ++ rest)).
  by rewrite string_app_assoc.
Qed.

(** *** White space and the first character of a value *)

Lemma skip_ws_spaces n s : JsonParse.skip_ws (Json.spaces n ++ s) = JsonParse.skip_ws s.
Proof. induction n as [|n IH]; [reflexivity|]. exact IH. Qed.

Lemma skip_ws_newline_indent lvl s :
  JsonParse.skip_ws (Json.newline_indent lvl ++ s) = JsonParse.skip_ws s.
Proof. unfold Json.newline_indent. cbn [append JsonParse.skip_ws]. apply skip_ws_spaces. Qed.

(** The text starts with a character that is neither white space nor a
    closing bracket: the decoder takes it for the start of a value. *)
Definition value_head (s : string) : bool :=
  match s with
  | String c _ =>
      negb (JsonParse.is_ws c) && negb (Ascii.eqb c "]") && negb (Ascii.eqb c "}")
  | EmptyString => false
  end.

Lemma skip_ws_value_head s : value_head s = true -> JsonParse.skip_ws s = s.
Proof.
  destruct s as [|c s]; [done|]. cbn [value_head JsonParse.skip_ws].
  by destruct (JsonParse.is_ws c).
Qed.

Lemma of_Z_head z rest : value_head (PyStr.of_Z z ++ rest) = true.
Proof.
  unfold PyStr.of_Z. destruct z as [|p|p]; [reflexivity| |reflexivity].
  cbn [Z.to_int NilZero.string_of_int]. rewrite nilzero_of_pos.
  pose proof (to_uint_head p). by destruct (Pos.to_uint p).
Qed.

Lemma dump_indent_head lvl v rest : value_head (Json.dump_indent lvl v ++ rest) = true.
Proof.
  destruct v as [|[]|z|s|[|x l]|[|kv d]]; try reflexivity.
  apply of_Z_head.
Qed.

(** After the opening bracket of a list that is not empty. *)
Lemma parse_value_list fuel s' X :
  JsonParse.skip_ws s' = X -> value_head X = true ->
  JsonParse.parse_value (S fuel) (String "[" s')
  = match JsonParse.parse_elements fuel X with
    | Some (l, r) => Some (PList l, r)
    | None => None
    end.
Proof.
  intros HX Hh. cbn [JsonParse.parse_value]. cbn [Ascii.eqb Bool.eqb]. cbv iota.
  rewrite HX. destruct X as [|c t]; [done|].
  destruct c as [[] [] [] [] [] [] [] []]; try reflexivity; discriminate.
Qed.

(** After the opening brace of a dictionary that is not empty. *)
Lemma parse_value_dict fuel s' X :
  JsonParse.skip_ws s' = X -> value_head X = true ->
  JsonParse.parse_value (S fuel) (String "{" s')
  = match JsonParse.parse_members fuel X with
    | Some (pairs, r) => Some (PDict (JsonParse.dict_of_pairs pairs), r)
    | None => None
    end.
Proof.
  intros HX Hh. cbn [JsonParse.parse_value]. cbn [Ascii.eqb Bool.eqb]. cbv iota.
  rewrite HX. destruct X as [|c t]; [done|].
  destruct c as [[] [] [] [] [] [] [] []]; try reflexivity; discriminate.
Qed.

(** *** Lists and dictionaries *)

Lemma parse_elements_last fuel s v r r' :
  JsonParse.parse_value fuel s = Some (v, r) ->
  JsonParse.skip_ws r = String "]" r' ->
  JsonParse.parse_elements (S fuel) s = Some ([v], r').
Proof. intros H1 H2. cbn [JsonParse.parse_elements]. by rewrite H1, H2. Qed.

Lemma parse_elements_more fuel s v r r' :
  JsonParse.parse_value fuel s = Some (v, r) ->
  JsonParse.skip_ws r = String "," r' ->
  JsonParse.parse_elements (S fuel) s
  = match JsonParse.parse_elements fuel (JsonParse.skip_ws r') with
    | Some (vs, r'') => Some (v :: vs, r'')
    | None => None
    end.
Proof. intros H1 H2. cbn [JsonParse.parse_elements]. by rewrite H1, H2. Qed.

Lemma parse_members_last fuel body k r r1 v r2 r3 :
  JsonParse.parse_chars body = Some (k, r) ->
  JsonParse.skip_ws r = String ":" r1 ->
  JsonParse.parse_value fuel (JsonParse.skip_ws r1) = Some (v, r2) ->
  JsonParse.skip_ws r2 = String "}" r3 ->
  JsonParse.parse_members (S fuel) (String PyStr.dquote body) = Some ([(k, v)], r3).
Proof.
  intros H1 H2 H3 H4. cbn [JsonParse.parse_members].
  change (Ascii.eqb PyStr.dquote PyStr.dquote) with true. cbv iota.
  by rewrite H1, H2, H3, H4.
Qed.

Lemma parse_members_more fuel body k r r1 v r2 r3 :
  JsonParse.parse_chars body = Some (k, r) ->
  JsonParse.skip_ws r = String ":" r1 ->
  JsonParse.parse_value fuel (JsonParse.skip_ws r1) = Some (v, r2) ->
  JsonParse.skip_ws r2 = String "," r3 ->
  JsonParse.parse_members (S fuel) (String PyStr.dquote body)
  = match JsonParse.parse_members fuel (JsonParse.skip_ws r3) with
    | Some (ms, r4) => Some ((k, v) :: ms, r4)
    | None => None
    end.
Proof.
  intros H1 H2 H3 H4. cbn [JsonParse.parse_members].
  change (Ascii.eqb PyStr.dquote PyStr.dquote) with true. cbv iota.
  by rewrite H1, H2, H3, H4.
Qed.

(** The calls the decoder needs for a value: each value, each element
    and each member takes one. *)
Fixpoint size (v : pyval) : nat :=
  match v with
  | PList l => S (list_sum (map (fun x => S (size x)) l))
  | PDict d => S (list_sum (map (fun kv => S (size (snd kv))) d))
  | _ => 1
  end.

(** A value is read back from its text, whatever follows it in a
    container, given the calls it needs. *)
Definition reads_back (v : pyval) : Prop :=
  forall lvl fuel rest,
    (size v <= fuel)%nat -> ends_value rest = true ->
    JsonParse.parse_value fuel (Json.dump_indent lvl v ++ rest) = Some (v, rest).

Lemma parse_elements_dump (l : list pyval) :
  Forall reads_back l -> l <> [] ->
  forall lvl lvl' fuel rest,
    (list_sum (map (fun x => S (size x)) l) <= fuel)%nat ->
    JsonParse.parse_elements fuel
      (PyStr.join ("," ++ Json.newline_indent lvl') (map (Json.dump_indent lvl') l)
       ++ Json.newline_indent lvl ++ String "]" rest)
    = Some (l, rest).
Proof.
  induction 1 as [|x l Hx Hl IH]; [done|]. intros _ lvl lvl' fuel rest Hfuel.
  change (list_sum (map (fun x => S (size x)) (x :: l)))
    with (S (size x) + list_sum (map (fun x => S (size x)) l))%nat in Hfuel.
  destruct fuel as [|fuel]; [lia|].
  destruct l as [|y l].
  - cbn [map PyStr.join].
    eapply parse_elements_last.
    + apply Hx; [lia|reflexivity].
    + rewrite skip_ws_newline_indent. reflexivity.
  - change (PyStr.join ("," ++ Json.newline_indent lvl')
              (map (Json.dump_indent lvl') (x :: y :: l)))
      with (Json.dump_indent lvl' x ++ ("," ++ Json.newline_indent lvl')
            ++ PyStr.join ("," ++ Json.newline_indent lvl')
                 (map (Json.dump_indent lvl') (y :: l))).
    rewrite !string_app_assoc.
    erewrite parse_elements_more.
    + rewrite skip_ws_newline_indent, skip_ws_value_head.
      * rewrite IH; [reflexivity|done|]. lia.
      * destruct l; cbn [map PyStr.join]; rewrite ?string_app_assoc;
          apply dump_indent_head.
    + apply Hx; [lia|reflexivity].
    + reflexivity.
Qed.

(** The text of one member: the key, a colon and a space, the value. *)
Definition member_text (lvl : nat) (kv : string * pyval) : string :=
  Json.encode_str false (fst kv) ++ ": " ++ Json.dump_indent lvl (snd kv).

Lemma skip_ws_space_value lvl v rest :
  JsonParse.skip_ws (String " " (Json.dump_indent lvl v ++ rest))
  = Json.dump_indent lvl v ++ rest.
Proof.
  change (JsonParse.skip_ws (String " " (Json.dump_indent lvl v ++ rest)))
    with (JsonParse.skip_ws (Json.dump_indent lvl v ++ rest)).
  apply skip_ws_value_head, dump_indent_head.
Qed.

Lemma member_text_app lvl kv rest :
  member_text lvl kv ++ rest
  = String PyStr.dquote
      (Json.escape false (fst kv)
       ++ String PyStr.dquote (String ":" (String " " (Json.dump_indent lvl (snd kv) ++ rest)))).
Proof.
  unfold member_text. rewrite string_app_assoc, encode_str_app.
  by rewrite string_app_assoc.
Qed.

Lemma parse_members_dump (d : pydict) :
  Forall (fun kv => reads_back (snd kv)) d -> d <> [] ->
  forall lvl lvl' fuel rest,
    (list_sum (map (fun kv => S (size (snd kv))) d) <= fuel)%nat ->
    JsonParse.parse_members fuel
      (PyStr.join ("," ++ Json.newline_indent lvl') (map (member_text lvl') d)
       ++ Json.newline_indent lvl ++ String "}" rest)
    = Some (d, rest).
Proof.
  induction 1 as [|[k v] d Hx Hd IH]; [done|]. intros _ lvl lvl' fuel rest Hfuel.
  change (list_sum (map (fun kv => S (size (snd kv))) ((k, v) :: d)))
    with (S (size v) + list_sum (map (fun kv => S (size (snd kv))) d))%nat in Hfuel.
  destruct fuel as [|fuel]; [lia|]. simpl in Hx.
  destruct d as [|kv' d].
  - cbn [map PyStr.join]. rewrite member_text_app.
    eapply parse_members_last.
    + apply parse_chars_escape.
    + reflexivity.
    + rewrite skip_ws_space_value. apply Hx; [lia|reflexivity].
    + rewrite skip_ws_newline_indent. reflexivity.
  - change (PyStr.join ("," ++ Json.newline_indent lvl')
              (map (member_text lvl') ((k, v) :: kv' :: d)))
      with (member_text lvl' (k, v) ++ ("," ++ Json.newline_indent lvl')
            ++ PyStr.join ("," ++ Json.newline_indent lvl')
                 (map (member_text lvl') (kv' :: d))).
    rewrite !string_app_assoc, member_text_app.
    erewrite parse_members_more.
    + rewrite skip_ws_newline_indent, skip_ws_value_head.
      * rewrite IH; [reflexivity|done|]. lia.
      * destruct d; cbn [map PyStr.join]; rewrite ?string_app_assoc, member_text_app;
          reflexivity.
    + apply parse_chars_escape.
    + reflexivity.
    + rewrite skip_ws_space_value. apply Hx; [lia|reflexivity].
    + reflexivity.
Qed.

Lemma set_fresh k v (acc : pydict) :
  k ∉ Dict.keys acc -> Dict.set k v acc = (acc ++ [(k, v)])%list.
Proof.
  induction acc as [|[k0 v0] acc IH]; simpl; [done|].
  rewrite not_elem_of_cons. intros [Hne Hin].
  destruct (String.eqb_spec k k0); [done|]. by rewrite IH.
Qed.

Lemma dict_of_pairs_acc (d acc : pydict) :
  NoDup (Dict.keys (acc ++ d)%list) ->
  fold_left (fun a kv => Dict.set (fst kv) (snd kv) a) d acc = (acc ++ d)%list.
Proof.
  revert acc. induction d as [|[k v] d IH]; intros acc Hn; simpl.
  { by rewrite app_nil_r. }
  rewrite set_fresh.
  - rewrite IH; rewrite <-app_assoc; done.
  - unfold Dict.keys in *. rewrite map_app in Hn. apply NoDup_app in Hn as (_ & Hd & _).
    intros Hin. apply (Hd k Hin). simpl. by left.
Qed.

(** Pairs with distinct keys build the dictionary that lists them. *)
Lemma dict_of_pairs_nodup (d : pydict) :
  NoDup (Dict.keys d) -> JsonParse.dict_of_pairs d = d.
Proof. intros Hn. unfold JsonParse.dict_of_pairs. by rewrite dict_of_pairs_acc. Qed.

Lemma wf_list l : wf (PList l) <-> Forall wf l.
Proof.
  induction l as [|x l IH]; [by split|].
  rewrite Forall_cons. change (wf (PList (x :: l))) with (wf x /\ wf (PList l)). tauto.
Qed.

Lemma wf_dict d : wf (PDict d) <-> NoDup (Dict.keys d) /\ Forall (fun kv => wf (snd kv)) d.
Proof.
  assert (H : (fix all (d : pydict) : Prop :=
                 match d with [] => True | kv :: d' => wf (snd kv) /\ all d' end) d
              <-> Forall (fun kv => wf (snd kv)) d).
  { induction d as [|kv d IH]; [by split|]. rewrite Forall_cons. tauto. }
  change (wf (PDict d))
    with (NoDup (Dict.keys d)
          /\ (fix all (d : pydict) : Prop :=
                match d with [] => True | kv :: d' => wf (snd kv) /\ all d' end) d).
  tauto.
Qed.

(** Every value Python can build is read back from the text
    [dump_indent] writes for it. *)
Lemma wf_reads_back (v : pyval) : wf v -> reads_back v.
Proof.
  induction v as [|b|z|s|l IH|d IH] using pyval_nested_ind; intros Hwf lvl fuel rest Hf He;
    (destruct fuel as [|fuel]; [simpl in Hf; lia|]).
  - reflexivity.
  - by destruct b.
  - change (Json.dump_indent lvl (PInt z)) with (PyStr.of_Z z).
    pose proof (of_Z_head z rest) as Hh. pose proof (parse_int_of_Z z rest He) as Hp.
    destruct (PyStr.of_Z z ++ rest) as [|c t]; [done|].
    cbn [JsonParse.parse_value]. rewrite Hp.
    destruct c as [[] [] [] [] [] [] [] []]; try reflexivity;
      exfalso; revert Hp; clear; vm_compute; discriminate.
  - change (Json.dump_indent lvl (PStr s)) with (Json.encode_str false s).
    rewrite encode_str_app. cbn [JsonParse.parse_value].
    change (Ascii.eqb PyStr.dquote PyStr.dquote) with true. cbv iota.
    by rewrite parse_chars_escape.
  - apply wf_list in Hwf.
    assert (Hl : Forall reads_back l).
    { rewrite Forall_forall in *. intros x Hx. apply IH; auto. }
    destruct l as [|x l]; [reflexivity|].
    change (Json.dump_indent lvl (PList (x :: l)))
      with ("[" ++ Json.newline_indent (S lvl)
            ++ PyStr.join ("," ++ Json.newline_indent (S lvl))
                 (map (Json.dump_indent (S lvl)) (x :: l))
            ++ Json.newline_indent lvl ++ "]").
    rewrite !string_app_assoc.
    change ("[" ++ ?t) with (String "[" t).
    erewrite parse_value_list;
      [|rewrite skip_ws_newline_indent; apply skip_ws_value_head|].
    + change ("]" ++ rest) with (String "]" rest).
      rewrite (parse_elements_dump (x :: l) Hl); [reflexivity|done|].
      simpl in Hf. simpl. lia.
    + destruct l; cbn [map PyStr.join]; rewrite ?string_app_assoc; apply dump_indent_head.
    + destruct l; cbn [map PyStr.join]; rewrite ?string_app_assoc; apply dump_indent_head.
  - apply wf_dict in Hwf as [Hn Hwf].
    assert (Hl : Forall (fun kv => reads_back (snd kv)) d).
    { rewrite Forall_forall in *. intros x Hx. apply IH; auto. }
    destruct d as [|kv d]; [reflexivity|].
    change (Json.dump_indent lvl (PDict (kv :: d)))
      with ("{" ++ Json.newline_indent (S lvl)
            ++ PyStr.join ("," ++ Json.newline_indent (S lvl))
                 (map (member_text (S lvl)) (kv :: d))
            ++ Json.newline_indent lvl ++ "}").
    rewrite !string_app_assoc.
    change ("{" ++ ?t) with (String "{" t).
    erewrite parse_value_dict;
      [|rewrite skip_ws_newline_indent; apply skip_ws_value_head|].
    + change ("}" ++ rest) with (String "}" rest).
      rewrite (parse_members_dump (kv :: d) Hl); [|done|simpl in Hf; simpl; lia].
      by rewrite dict_of_pairs_nodup.
    + destruct d; cbn [map PyStr.join]; rewrite ?string_app_assoc, member_text_app;
        reflexivity.
    + destruct d; cbn [map PyStr.join]; rewrite ?string_app_assoc, member_text_app;
        reflexivity.
Qed.

(** *** The text is long enough for the calls it takes *)

Lemma join_bound {A} (f : A -> string) (g : A -> nat) (sep : string) (l : list A) :
  Forall (fun x => (g x <= String.length (f x))%nat) l ->
  (1 <= String.length sep)%nat ->
  (list_sum (map (fun x => S (g x)) l) <= S (String.length (PyStr.join sep (map f l))))%nat.
Proof.
  intros Hl Hs. induction Hl as [|x l Hx Hl IH]; [simpl; lia|].
  change (list_sum (map (fun x => S (g x)) (x :: l)))
    with (S (g x) + list_sum (map (fun x => S (g x)) l))%nat.
  destruct l as [|y l]; [simpl; lia|].
  change (PyStr.join sep (map f (x :: y :: l)))
    with (f x ++ sep ++ PyStr.join sep (map f (y :: l))).
  rewrite !string_length_app. lia.
Qed.

Lemma size_le_length (v : pyval) :
  forall lvl, (size v <= String.length (Json.dump_indent lvl v))%nat.
Proof.
  induction v as [|b|z|s|l IH|d IH] using pyval_nested_ind; intros lvl.
  - simpl. lia.
  - destruct b; simpl; lia.
  - change (Json.dump_indent lvl (PInt z)) with (PyStr.of_Z z).
    pose proof (of_Z_head z "") as H. destruct (PyStr.of_Z z); [done|]. simpl. lia.
  - simpl. lia.
  - destruct l as [|x l]; [simpl; lia|].
    change (Json.dump_indent lvl (PList (x :: l)))
      with ("[" ++ Json.newline_indent (S lvl)
            ++ PyStr.join ("," ++ Json.newline_indent (S lvl))
                 (map (Json.dump_indent (S lvl)) (x :: l))
            ++ Json.newline_indent lvl ++ "]").
    change (size (PList (x :: l)))
      with (S (list_sum (map (fun x => S (size x)) (x :: l)))).
    rewrite !string_length_app.
    pose proof (join_bound (Json.dump_indent (S lvl)) size
                  ("," ++ Json.newline_indent (S lvl)) (x :: l)) as Hb.
    assert (Hnl : forall n, (1 <= String.length (Json.newline_indent n))%nat)
      by (intros n; simpl; lia).
    pose proof (Hnl (S lvl)). pose proof (Hnl lvl).
    assert (HA : Forall (fun x => (size x <= String.length (Json.dump_indent (S lvl) x))%nat)
                   (x :: l)).
    { rewrite Forall_forall in *. intros y Hy. by apply IH. }
    assert (HB : (1 <= String.length ("," ++ Json.newline_indent (S lvl)))%nat).
    { rewrite string_length_app. simpl. lia. }
    specialize (Hb HA HB).
    simpl String.length at 1. simpl (String.length "]"). lia.
  - destruct d as [|kv d]; [simpl; lia|].
    change (Json.dump_indent lvl (PDict (kv :: d)))
      with ("{" ++ Json.newline_indent (S lvl)
            ++ PyStr.join ("," ++ Json.newline_indent (S lvl))
                 (map (member_text (S lvl)) (kv :: d))
            ++ Json.newline_indent lvl ++ "}").
    change (size (PDict (kv :: d)))
      with (S (list_sum (map (fun kv => S (size (snd kv))) (kv :: d)))).
    rewrite !string_length_app.
    pose proof (join_bound (member_text (S lvl)) (fun kv => size (snd kv))
                  ("," ++ Json.newline_indent (S lvl)) (kv :: d)) as Hb.
    assert (Hnl : forall n, (1 <= String.length (Json.newline_indent n))%nat)
      by (intros n; simpl; lia).
    pose proof (Hnl (S lvl)). pose proof (Hnl lvl).
    assert (HA : Forall (fun kv => (size (snd kv)
                                    <= String.length (member_text (S lvl) kv))%nat)
                   (kv :: d)).
    { rewrite Forall_forall in *. intros y Hy. unfold member_text.
      rewrite !string_length_app. specialize (IH y Hy (S lvl)). simpl in IH. lia. }
    assert (HB : (1 <= String.length ("," ++ Json.newline_indent (S lvl)))%nat).
    { rewrite string_length_app. simpl. lia. }
    specialize (Hb HA HB).
    simpl String.length at 1. simpl (String.length "}"). lia.
Qed.

Lemma string_app_nil_r (s : string) : s ++ "" = s.
Proof.
  induction s as [|c s IH]; [reflexivity|].
  change (String c (s ++ "") = String c s). by rewrite IH.
Qed.

(** The round trip of the staged JSON file: [json.load] reads back the
    value [json.dump] wrote, for every value Python can build. *)
Lemma loads_dump_indent (v : pyval) :
  wf v -> JsonParse.loads (Json.dump_indent 0 v) = Ok v.
Proof.
  intros Hwf. unfold JsonParse.loads.
  pose proof (dump_indent_head 0 v "") as Hh. rewrite string_app_nil_r in Hh.
  rewrite (skip_ws_value_head _ Hh).
  pose proof (wf_reads_back v Hwf 0%nat (S (String.length (Json.dump_indent 0 v))) "") as H.
  rewrite string_app_nil_r in H. rewrite H; [reflexivity| |reflexivity].
  pose proof (size_le_length v 0). lia.
Qed.

(** ** Runs in which the file system does not fail *)

(** [returns P m Q]: from every world that satisfies [P], the
    computation [m] returns a value, in a world, that satisfy [Q]. *)
Definition returns {A} (P : world -> Prop) (m : M A) (Q : A -> world -> Prop) : Prop :=
  forall w, P w -> exists a w', m w = (Ok a, w') /\ Q a w'.

(** No failure is scheduled, and the files are [fs]. *)
Definition calm (fs : gmap path file_data) (w : world) : Prop :=
  faults w = [] /\ files w = fs.

Section Returns.
Context {A B : Type}.

Lemma returns_bind P (m : M A) Q (f : A -> M B) R :
  returns P m Q -> (forall a, returns (Q a) (f a) R) -> returns P (m ≫= f) R.
Proof.
  intros Hm Hf w HP. destruct (Hm w HP) as (a & w1 & E & HQ).
  destruct (Hf a w1 HQ) as (b & w2 & E2 & HR).
  exists b, w2. by rewrite run_bind, E.
Qed.

Lemma returns_ret P (a : A) (Q : A -> world -> Prop) :
  (forall w, P w -> Q a w) -> returns P (mret a) Q.
Proof. intros H w HP. exists a, w. auto. Qed.

Lemma returns_try P (body : M A) handler Q :
  returns P body Q -> returns P (try_except body handler) Q.
Proof.
  intros Hb w HP. destruct (Hb w HP) as (a & w1 & E & HQ).
  exists a, w1. by rewrite run_try, E.
Qed.

Lemma returns_finally P (body : M A) cleanup (Q : A -> world -> Prop) :
  returns P body Q -> returns P (finally body cleanup) (fun a _ => exists w1, Q a w1).
Proof.
  intros Hb w HP. destruct (Hb w HP) as (a & w1 & E & HQ).
  unfold finally. rewrite E. destruct (cleanup w1) as [r w2]. eauto.
Qed.

Lemma returns_weaken (P P' : world -> Prop) (m : M A) (Q Q' : A -> world -> Prop) :
  returns P m Q -> (forall w, P' w -> P w) -> (forall a w, Q a w -> Q' a w) ->
  returns P' m Q'.
Proof.
  intros Hm HP HQ w Hw. destruct (Hm w (HP w Hw)) as (a & w1 & E & Ha). eauto.
Qed.

Lemma returns_lift P (r : result A) a :
  r = Ok a -> returns P (lift r) (fun x w => x = a /\ P w).
Proof. intros -> w HP. exists a, w. auto. Qed.

Lemma returns_gets P (f : world -> A) :
  returns P (gets f) (fun _ w => P w).
Proof. intros w HP. exists (f w), w. auto. Qed.
End Returns.

Lemma returns_retry {A} P (operation : M A) Q :
  returns P operation Q ->
  returns P (OutputManager._retry_operation operation) (fun _ w => exists a, Q a w).
Proof.
  intros Hop w HP. destruct (Hop w HP) as (a & w1 & E & HQ).
  exists (Some a), w1. split; [|eauto].
  unfold OutputManager._retry_operation. cbn [seq OutputManager.MAX_RETRIES].
  by rewrite retry_loop_cons, E.
Qed.

(** The file-system calls in a calm world. *)
Lemma returns_write fs p data :
  returns (calm fs) (Os.write p data) (fun _ => calm (<[p := data]> fs)).
Proof.
  intros w [Hf <-]. exists tt, (with_files (insert p data) w).
  unfold Os.write, Os.next_outcome. rewrite run_bind, Hf. done.
Qed.

Lemma returns_mkdir fs p : returns (calm fs) (Os.mkdir p) (fun _ => calm fs).
Proof.
  intros w [Hf <-]. exists tt, w. unfold Os.mkdir, Os.next_outcome.
  rewrite run_bind, Hf. done.
Qed.

Lemma returns_mkdtemp fs : returns (calm fs) Os.mkdtemp (fun _ => calm fs).
Proof.
  intros w [Hf <-]. unfold Os.mkdtemp, Os.next_outcome. rewrite run_bind, Hf.
  eexists _, _. split; [reflexivity|]. done.
Qed.

Lemma returns_move fs src dst data :
  fs !! src = Some data ->
  returns (calm fs) (Os.move src dst) (fun _ => calm (<[dst := data]> (delete src fs))).
Proof.
  intros Hs w [Hf <-]. unfold Os.move, Os.next_outcome. rewrite run_bind, Hf.
  cbv iota beta. unfold Os.read. rewrite run_bind, Hs. eexists _, _.
  split; [reflexivity|]. done.
Qed.

Lemma returns_exists fs p :
  returns (calm fs) (Os.exists_ p)
          (fun b w => b = bool_decide (is_Some (fs !! p)) /\ calm fs w).
Proof. intros w [Hf <-]. exists (bool_decide (is_Some (files w !! p))), w. done. Qed.

Lemma returns_read fs p data :
  fs !! p = Some data ->
  returns (calm fs) (Os.read p) (fun x w => x = data /\ calm fs w).
Proof.
  intros Hp w [Hf <-]. exists data, w. unfold Os.read. by rewrite Hp.
Qed.

Lemma returns_sleep fs d : returns (calm fs) (Os.sleep d) (fun _ => calm fs).
Proof. intros w [Hf <-]. eexists tt, _. split; [reflexivity|]. done. Qed.

Lemma returns_retry_calm {A} P (operation : M A) (Q : world -> Prop) :
  returns P operation (fun _ => Q) ->
  returns P (OutputManager._retry_operation operation) (fun _ => Q).
Proof.
  intros H. eapply returns_weaken; [apply returns_retry, H|auto|].
  by intros _ w [_ HQ].
Qed.

Lemma returns_backup P self l :
  returns P
    (match backup_dir self with
     | Some backup => OutputManager._create_backup self backup l
     | None => mret tt
     end)
    (fun _ _ => True).
Proof.
  intros w _. destruct (backup_dir self) as [backup|]; [|by exists tt, w].
  pose proof (create_backup_never_raises self backup l w) as H.
  unfold outcome_of in H.
  destruct (OutputManager._create_backup self backup l w) as [r w1]. simpl in H.
  subst r. by exists tt, w1.
Qed.

(** The three staged files of a save. *)
Definition staged_paths (temp_dir : path) (base_filename kind : string) : paths :=
  [("json", path_div temp_dir (base_filename ++ ".json"));
   ("formatted", path_div temp_dir
      (base_filename ++ (if negb (String.eqb kind "text") then ".md" else ".txt")));
   ("metadata", path_div temp_dir (base_filename ++ "_meta.yaml"))].

Definition staged_files (content : pyval) (rendered : string) (metadata : pyval)
    (temp_dir : path) (base_filename kind : string) (fs : gmap path file_data)
  : gmap path file_data :=
  <[path_div temp_dir (base_filename ++ "_meta.yaml") := Yaml metadata]>
    (<[path_div temp_dir
         (base_filename ++ (if negb (String.eqb kind "text") then ".md" else ".txt"))
       := Text rendered]>
       (<[path_div temp_dir (base_filename ++ ".json")
          := Text (Json.dump_indent 0 content)]> fs)).

Lemma returns_assume {A} (H : Prop) P (m : M A) Q :
  (H -> returns P m Q) -> returns (fun w => H /\ P w) m Q.
Proof. intros Hm w [HH HP]. by apply Hm. Qed.

Lemma returns_save_formatted fs content kind f content_dir base_filename :
  OutputManager.FORMATTERS kind = Some (BoundMethod f) ->
  returns (calm fs)
    (OutputManager._save_formatted content kind content_dir base_filename)
    (fun p w =>
       p = path_div content_dir
             (base_filename ++ (if negb (String.eqb kind "text") then ".md" else ".txt"))
       /\ calm (<[p := Text (f content)]> fs) w).
Proof.
  intros Hf. unfold OutputManager._save_formatted. rewrite Hf. apply returns_try.
  eapply returns_bind; [by apply (returns_lift _ _ (f content))|]. intros x.
  apply returns_assume. intros ->.
  eapply returns_bind; [apply returns_mkdir|]. intros ?.
  eapply returns_bind; [apply returns_retry_calm, returns_write|]. intros ?.
  apply returns_ret. intros w Hw. by split.
Qed.

Lemma returns_save_all_formats fs content kind f metadata temp_dir base_filename :
  OutputManager.FORMATTERS kind = Some (BoundMethod f) ->
  Py.get content "metadata" (PDict []) = Ok metadata ->
  returns (calm fs)
    (OutputManager._save_all_formats content kind temp_dir base_filename)
    (fun ps w => ps = staged_paths temp_dir base_filename kind
                 /\ calm (staged_files content (f content) metadata temp_dir
                                       base_filename kind fs) w).
Proof.
  intros Hf Hm. unfold OutputManager._save_all_formats. apply returns_try.
  eapply returns_bind; [apply returns_retry_calm, returns_write|]. intros ?.
  eapply returns_bind; [by apply returns_save_formatted|]. intros p.
  apply returns_assume. intros ->.
  eapply returns_bind; [apply returns_lift, Hm|]. intros md.
  apply returns_assume. intros ->.
  eapply returns_bind; [apply returns_retry_calm, returns_write|]. intros ?.
  apply returns_ret. intros w Hw. by split.
Qed.

Lemma string_app_inv_head (b x y : string) : b ++ x = b ++ y -> x = y.
Proof. induction b as [|c b IH]; simpl; [done|]. intros [= H]. auto. Qed.

Lemma staged_name_inj (temp_dir : path) (b x y : string) :
  path_div temp_dir (b ++ x) = path_div temp_dir (b ++ y) -> x = y.
Proof.
  unfold path_div. intros H. apply app_inv_head in H. injection H as H.
  by apply string_app_inv_head in H.
Qed.

(** The three staged files have three names. *)
Lemma staged_paths_NoDup temp_dir base_filename kind :
  NoDup (staged_paths temp_dir base_filename kind).*2.
Proof.
  unfold staged_paths. cbn [fmap list_fmap snd].
  repeat constructor; rewrite ?elem_of_cons, ?elem_of_nil;
    intros H; repeat destruct H as [H|H]; try done;
    apply staged_name_inj in H; by destruct (negb (String.eqb kind "text")).
Qed.

Lemma staged_files_json content rendered metadata temp_dir base_filename kind fs :
  staged_files content rendered metadata temp_dir base_filename kind fs
    !! path_div temp_dir (base_filename ++ ".json")
  = Some (Text (Json.dump_indent 0 content)).
Proof.
  unfold staged_files.
  rewrite lookup_insert_ne; [rewrite lookup_insert_ne; [by rewrite lookup_insert_eq|]|];
    intros H; apply staged_name_inj in H;
    by destruct (negb (String.eqb kind "text")).
Qed.

Lemma staged_files_present content rendered metadata temp_dir base_filename kind fs p :
  p ∈ (staged_paths temp_dir base_filename kind).*2 ->
  is_Some (staged_files content rendered metadata temp_dir base_filename kind fs !! p).
Proof.
  unfold staged_paths, staged_files. cbn [fmap list_fmap snd].
  rewrite !elem_of_cons, elem_of_nil, !lookup_insert_is_Some. intros [->|[->|[->|[]]]]; auto.
  - right. split; [|right; split; [|by left]]; intros H; apply staged_name_inj in H;
      by destruct (negb (String.eqb kind "text")).
  - right. split; [|by left]. intros H. apply staged_name_inj in H.
    by destruct (negb (String.eqb kind "text")).
Qed.

Lemma returns_pass {A} P (a : A) : returns P (mret a) (fun _ => P).
Proof. by apply returns_ret. Qed.

(** Files that are all present pass the presence test of the
    verification; the one tagged [json] must read back with the expected
    checksum. *)
Lemma returns_verify_loop fs l checksum :
  (forall p, p ∈ l.*2 -> is_Some (fs !! p)) ->
  (forall p, ("json", p) ∈ l ->
     exists s v, fs !! p = Some (Text s) /\ JsonParse.loads s = Ok v
                 /\ _compute_checksum v = checksum) ->
  returns (calm fs) (OutputManager.verify_loop l checksum) (fun _ => calm fs).
Proof.
  induction l as [|[tag p] l IH]; intros Hp Hj.
  { apply returns_ret. auto. }
  cbn [OutputManager.verify_loop].
  eapply returns_bind; [apply returns_exists|]. intros present.
  apply returns_assume. intros ->.
  rewrite bool_decide_eq_true_2 by (apply Hp; cbn; left). cbn [negb].
  eapply returns_bind; [apply returns_pass|]. intros ?.
  eapply returns_bind.
  { destruct (String.eqb_spec tag "json") as [->|?].
    - destruct (Hj p) as (s & v & Hs & Hv & Hc); [left|].
      eapply returns_bind; [apply returns_read, Hs|]. intros data.
      apply returns_assume. intros ->.
      eapply returns_bind; [apply (returns_lift _ _ v), Hv|]. intros content.
      apply returns_assume. intros ->. rewrite Hc, String.eqb_refl. cbn [negb].
      apply returns_pass.
    - apply returns_pass. }
  intros ?. apply IH.
  - intros q Hq. apply Hp. cbn. by right.
  - intros q Hq. apply Hj. by right.
Qed.

(** A relocation whose sources are present, each once, returns. *)
Lemma returns_move_loop content_dir l acc fs :
  NoDup l.*2 -> (forall p, p ∈ l.*2 -> is_Some (fs !! p)) ->
  returns (calm fs) (OutputManager.move_loop content_dir l acc) (fun _ _ => True).
Proof.
  revert acc fs. induction l as [|[tag src] l IH]; intros acc fs Hn Hp.
  { apply returns_ret. auto. }
  cbn [OutputManager.move_loop]. cbn in Hn. apply NoDup_cons in Hn as [Hsrc Hn].
  destruct (Hp src) as [data Hd]; [cbn; left|].
  eapply returns_bind; [apply returns_retry_calm, returns_move, Hd|]. intros ?.
  apply IH; [done|]. intros q Hq.
  rewrite lookup_insert_is_Some. 
  destruct (decide (path_div content_dir (path_name src) = q)) as [|Hne]; [by left|].
  right. split; [done|]. rewrite lookup_delete_ne by (intros ->; done).
  apply Hp. cbn. by right.
Qed.

Lemma returns_modify P (g : world -> world) (Q : world -> Prop) :
  (forall w, P w -> Q (g w)) -> returns P (modify g) (fun _ => Q).
Proof. intros H w HP. exists tt, (g w). auto. Qed.

Lemma returns_get_content_dir fs self kind :
  returns (calm fs) (OutputManager._get_content_dir self kind) (fun _ => calm fs).
Proof.
  unfold OutputManager._get_content_dir. apply returns_try.
  eapply returns_bind; [apply returns_gets|]. intros date_dir.
  eapply returns_bind; [apply returns_mkdir|]. intros ?.
  apply returns_pass.
Qed.

(** A record that passes the validation names a registered kind. *)
Lemma valid_kind_registered content kind :
  ContentValidator.validate_content content kind = Ok tt -> In kind KINDS.
Proof.
  unfold ContentValidator.validate_content. destruct content; try discriminate.
  destruct (negb _); [discriminate|]. destruct (negb _); [discriminate|].
  destruct (validators_cases kind) as [[-> _]|[[-> _]|[[-> _]|[[-> _]|[[-> _]|[[-> _]|H]]]]]];
    unfold KINDS; simpl; try tauto.
  destruct H as (_ & -> & _). discriminate.
Qed.

(** In a world where no file-system call fails, the save of a valid
    record whose [metadata] is a mapping returns. *)
Lemma returns_save_content fs self (d m : pydict) kind :
  wf (PDict d) ->
  ContentValidator.validate_content (PDict d) kind = Ok tt ->
  Dict.get "metadata" d = Some (PDict m) ->
  (Z.of_nat (String.length (Json.dumps false (PDict d))) <= OutputManager.MAX_CONTENT_SIZE)%Z ->
  returns (calm fs) (OutputManager.save_content self (PDict d) kind) (fun _ _ => True).
Proof.
  intros Hwf Hv Hm Hsize.
  destruct (registered_formatters_bound kind (valid_kind_registered _ _ Hv)) as [f Hf].
  unfold OutputManager.save_content. apply returns_try. cbv zeta.
  replace (_ >? _)%Z with false by (symmetry; rewrite Z.gtb_ltb; apply Z.ltb_ge, Hsize).
  eapply returns_bind; [apply returns_pass|]. intros ?.
  eapply returns_bind; [apply returns_gets|]. intros now.
  eapply returns_bind; [apply returns_gets|]. intros last.
  eapply returns_bind.
  { destruct (_ <? _)%Z; [apply returns_sleep|apply returns_pass]. }
  intros ?.
  eapply returns_bind; [apply returns_gets|]. intros now'.
  eapply returns_bind.
  { apply (returns_modify _ _ (calm fs)). by intros w [? ?]. }
  intros ?.
  eapply returns_bind; [apply (returns_lift _ _ tt), Hv|]. intros ?.
  apply returns_assume. intros _.
  unfold OutputManager.safe_file_operation.
  eapply returns_bind; [apply returns_mkdtemp|]. intros temp_dir.
  apply (returns_weaken (calm fs) _ _ (fun _ _ => exists _ : world, True));
    [apply returns_finally|done|done].
  eapply returns_bind; [apply returns_get_content_dir|]. intros content_dir.
  eapply returns_bind; [apply returns_gets|]. intros stamp.
  eapply returns_bind.
  { eapply returns_lift. unfold OutputManager.topic_of, Py.get, Dict.get_default.
    rewrite Hm. reflexivity. }
  intros topic. apply returns_assume. intros ->.
  eapply returns_bind.
  { apply returns_save_all_formats with (metadata := PDict m); [exact Hf|].
    unfold Py.get, Dict.get_default. by rewrite Hm. }
  intros temp_paths. apply returns_assume. intros ->.
  eapply returns_bind.
  { unfold OutputManager._verify_saved_files. apply returns_try.
    apply returns_verify_loop.
    - apply staged_files_present.
    - intros p Hp. exists (Json.dump_indent 0 (PDict d)), (PDict d).
      unfold staged_paths in Hp. rewrite !elem_of_cons, elem_of_nil in Hp.
      destruct Hp as [[= ->]|[[=]|[[=]|[]]]].
      split; [apply staged_files_json|]. split; [by apply loads_dump_indent|done]. }
  intros ?.
  eapply returns_bind.
  { unfold OutputManager._move_to_final_location. apply returns_try.
    apply returns_move_loop; [apply staged_paths_NoDup|apply staged_files_present]. }
  intros final_paths.
  eapply returns_bind; [apply returns_backup|]. intros ?.
  by apply (returns_ret _ _ (fun _ _ => True)).
Qed.

(** ** Saving a valid record *)

(** A text record whose [metadata] is a string: the validation looks
    for the field and not at its value. *)
Definition metadata_text : pyval :=
  PDict [("content", PStr "hi"); ("metadata", PStr "x")].




(** * The save pipeline when the file system does not fail *)

(** The scratch directory [mkdtemp] makes next, the final directory of
    a kind, and the base name of the files of a record. *)
Definition scratch_dir (w : world) : path :=
  ["tmp"; "tmp" ++ PyStr.of_Z (Z.of_nat (temp_count w))].

Definition content_dir (self : manager) (kind : string) (w : world) : path :=
  path_div (path_div (base_dir self) (today w)) (_sanitize_filename (PStr kind)).

Definition base_filename (topic : pyval) (w : world) : string :=
  _sanitize_filename topic ++ "_" ++ timestamp w.

(** The files after [shutil.move] and [shutil.copy2] of a file that exists. *)
Definition move_file (src dst : path) (fs : gmap path file_data) : gmap path file_data :=
  match fs !! src with
  | Some data => <[dst := data]> (delete src fs)
  | None => fs
  end.

Definition copy_file (src dst : path) (fs : gmap path file_data) : gmap path file_data :=
  match fs !! src with
  | Some data => <[dst := data]> fs
  | None => fs
  end.

(** The files after the relocation of [l] to [dir], and after the
    backup of [l] from under [base] to under [backup]. *)
Definition relocated (dir : path) (l : paths) (fs : gmap path file_data)
  : gmap path file_data :=
  foldl (fun fs tp => move_file (snd tp) (path_div dir (path_name (snd tp))) fs) fs l.

Definition backed_up (base backup : path) (l : paths) (fs : gmap path file_data)
  : gmap path file_data :=
  foldl (fun fs tp =>
           match relative_to (snd tp) base with
           | Ok rel => copy_file (snd tp) (backup ++ rel)%list fs
           | Raise _ => fs
           end) fs l.

(** The files after a save of [record], rendered as [rendered], from
    the world [w], when no file-system call fails. *)
Definition saved_files (self : manager) (record metadata : pyval) (rendered : string)
    (topic : pyval) (kind : string) (w : world) : gmap path file_data :=
  let staged :=
    staged_files record rendered metadata (scratch_dir w) (base_filename topic w) kind
                 (files w) in
  let moved :=
    relocated (content_dir self kind w)
              (staged_paths (scratch_dir w) (base_filename topic w) kind) staged in
  let copied :=
    match backup_dir self with
    | Some backup =>
        backed_up (base_dir self) backup
                  (staged_paths (content_dir self kind w) (base_filename topic w) kind) moved
    | None => moved
    end in
  filter (fun kv => Os.under (scratch_dir w) (fst kv) = false) copied.

(** No failure is scheduled, the files are [fs], and the date, the
    time stamp and the count of scratch directories are those of [w0]. *)
Definition calm_at (w0 : world) (fs : gmap path file_data) (w : world) : Prop :=
  calm fs w /\ today w = today w0 /\ timestamp w = timestamp w0
  /\ temp_count w = temp_count w0.

Lemma returns_finally_run {A} P (body : M A) cleanup (Q R : A -> world -> Prop) :
  returns P body Q -> (forall a, returns (Q a) cleanup (fun _ => R a)) ->
  returns P (finally body cleanup) R.
Proof.
  intros Hb Hc w HP. destruct (Hb w HP) as (a & w1 & E & HQ).
  destruct (Hc a w1 HQ) as ([] & w2 & E2 & HR).
  exists a, w2. unfold finally. by rewrite E, E2.
Qed.

Lemma returns_known {A} P (f : world -> A) x :
  (forall w, P w -> f w = x) -> returns P (gets f) (fun a w => a = x /\ P w).
Proof. intros H w HP. exists (f w), w. split; [done|]. split; [by apply H|done]. Qed.

Lemma returns_rmtree fs dir :
  returns (calm fs) (Os.rmtree dir)
          (fun _ => calm (filter (fun kv => Os.under dir (fst kv) = false) fs)).
Proof.
  intros w [Hf <-]. unfold Os.rmtree, Os.next_outcome. rewrite run_bind, Hf.
  eexists tt, _. split; [reflexivity|]. done.
Qed.

Lemma returns_copy2 fs src dst data :
  fs !! src = Some data ->
  returns (calm fs) (Os.copy2 src dst) (fun _ => calm (<[dst := data]> fs)).
Proof.
  intros Hs w [Hf <-]. unfold Os.copy2, Os.next_outcome. rewrite run_bind, Hf.
  cbv iota beta. unfold Os.read. rewrite run_bind, Hs. eexists _, _.
  split; [reflexivity|]. done.
Qed.

(** A relocation whose sources are present, each once: the paths it
    returns and the files it leaves. *)
Lemma returns_move_loop_files dir l acc fs :
  NoDup l.*2 -> (forall p, p ∈ l.*2 -> is_Some (fs !! p)) ->
  returns (calm fs) (OutputManager.move_loop dir l acc)
    (fun ps w =>
       ps = (acc ++ map (fun tp => (fst tp, path_div dir (path_name (snd tp)))) l)%list
       /\ calm (relocated dir l fs) w).
Proof.
  revert acc fs. induction l as [|[tag src] l IH]; intros acc fs Hn Hp.
  { apply returns_ret. intros w Hw. by rewrite app_nil_r. }
  cbn [OutputManager.move_loop]. cbn in Hn. apply NoDup_cons in Hn as [Hsrc Hn].
  destruct (Hp src) as [data Hd]; [cbn; left|].
  eapply returns_bind; [apply returns_retry_calm, returns_move, Hd|]. intros ?.
  eapply returns_weaken; [apply IH; [exact Hn|]|done|].
  - intros q Hq. rewrite lookup_insert_is_Some.
    destruct (decide (path_div dir (path_name src) = q)) as [|Hne]; [by left|].
    right. split; [done|]. rewrite lookup_delete_ne by (intros ->; done).
    apply Hp. cbn. by right.
  - intros ps w [-> Hw]. split.
    + by rewrite <-app_assoc.
    + unfold relocated. cbn [foldl snd]. unfold move_file at 2. by rewrite Hd.
Qed.

(** A backup of files that are present under the base directory. *)
Lemma returns_backup_loop_files self backup l fs :
  (forall p, p ∈ l.*2 ->
     is_Some (fs !! p) /\ exists rel, relative_to p (base_dir self) = Ok rel) ->
  returns (calm fs) (OutputManager.backup_loop self backup l)
          (fun _ => calm (backed_up (base_dir self) backup l fs)).
Proof.
  revert fs. induction l as [|[tag src] l IH]; intros fs Hp.
  { apply returns_pass. }
  cbn [OutputManager.backup_loop].
  destruct (Hp src) as [[data Hd] [rel Hrel]]; [cbn; left|].
  eapply returns_bind; [apply (returns_lift _ _ rel), Hrel|]. intros x.
  apply returns_assume. intros ->.
  eapply returns_bind; [apply returns_mkdir|]. intros ?.
  eapply returns_bind; [apply returns_copy2, Hd|]. intros ?.
  eapply returns_weaken; [apply IH|done|].
  - intros q Hq. destruct (Hp q) as [Hq1 Hq2]; [cbn; by right|].
    split; [|done]. rewrite lookup_insert_is_Some.
    destruct (decide ((backup ++ rel)%list = q)); [by left|by right].
  - intros ? w Hw. unfold backed_up. cbn [foldl snd]. rewrite Hrel.
    unfold copy_file at 2. by rewrite Hd.
Qed.

Lemma path_div_inj (p q : path) (a b : string) :
  path_div p a = path_div q b -> p = q /\ a = b.
Proof. apply app_inj_tail. Qed.

Lemma lookup_insert_same {K A} `{Countable K} (m : gmap K A) (k k' : K) (v : A) :
  m !! k = Some v -> <[k' := v]> m !! k = Some v.
Proof.
  intros Hk. destruct (decide (k' = k)) as [->|?].
  - by rewrite lookup_insert_eq.
  - by rewrite lookup_insert_ne.
Qed.

Lemma relative_to_app (base rel : path) : relative_to (base ++ rel)%list base = Ok rel.
Proof.
  induction base as [|c base IH]; [by destruct rel|].
  cbn. by rewrite String.eqb_refl.
Qed.

(** Three files with three names, staged in [T], relocated to [D] and
    copied to [B]: where each file is afterwards. *)
Section ThreeFiles.
Variables (T D B : path) (n1 n2 n3 : string) (J F Y : file_data).
Variable fs : gmap path file_data.
Hypothesis H12 : n1 <> n2.
Hypothesis H13 : n1 <> n3.
Hypothesis H23 : n2 <> n3.
Hypothesis HTD : T <> D.

Definition three_staged : gmap path file_data :=
  <[path_div T n3 := Y]> (<[path_div T n2 := F]> (<[path_div T n1 := J]> fs)).

Definition three_moved : gmap path file_data :=
  <[path_div D n3 := Y]> (delete (path_div T n3)
    (<[path_div D n2 := F]> (delete (path_div T n2)
       (<[path_div D n1 := J]> (delete (path_div T n1) three_staged))))).

Definition three_copied : gmap path file_data :=
  <[path_div B n3 := Y]> (<[path_div B n2 := F]> (<[path_div B n1 := J]> three_moved)).

#[local] Ltac path_ne :=
  let E := fresh in
  intros E; apply path_div_inj in E as [? ?]; congruence.

#[local] Ltac look :=
  repeat first
    [ rewrite lookup_insert_eq
    | rewrite lookup_insert_ne by path_ne
    | rewrite lookup_delete_ne by path_ne
    | rewrite lookup_delete_eq ].

Lemma three_moved_eq tag1 tag2 tag3 :
  relocated D [(tag1, path_div T n1); (tag2, path_div T n2); (tag3, path_div T n3)]
            three_staged
  = three_moved.
Proof.
  unfold relocated, three_moved. cbn [foldl snd]. rewrite !path_name_div.
  unfold move_file at 3. unfold three_staged at 1. look.
  unfold move_file at 2. unfold three_staged at 1. look.
  unfold move_file at 1. unfold three_staged at 1. look.
  reflexivity.
Qed.

Lemma three_moved_1 : three_moved !! path_div D n1 = Some J.
Proof. unfold three_moved. by look. Qed.

Lemma three_moved_2 : three_moved !! path_div D n2 = Some F.
Proof. unfold three_moved. by look. Qed.

Lemma three_moved_3 : three_moved !! path_div D n3 = Some Y.
Proof. unfold three_moved. by look. Qed.

Lemma three_moved_scratch n : three_moved !! path_div T n = fs !! path_div T n
                              \/ three_moved !! path_div T n = None.
Proof.
  unfold three_moved, three_staged.
  destruct (decide (n = n3)) as [->|?]; [right; by look|].
  destruct (decide (n = n2)) as [->|?]; [right; by look|].
  destruct (decide (n = n1)) as [->|?]; [right; by look|].
  left. by look.
Qed.

Lemma three_copied_final_1 : three_copied !! path_div D n1 = Some J.
Proof. unfold three_copied. look. apply lookup_insert_same, three_moved_1. Qed.

Lemma three_copied_final_2 : three_copied !! path_div D n2 = Some F.
Proof.
  unfold three_copied. look. apply lookup_insert_same. look. apply three_moved_2.
Qed.

Lemma three_copied_final_3 : three_copied !! path_div D n3 = Some Y.
Proof.
  unfold three_copied. apply lookup_insert_same. look. apply three_moved_3.
Qed.

Lemma three_copied_1 : three_copied !! path_div B n1 = Some J.
Proof. unfold three_copied. by look. Qed.

Lemma three_copied_2 : three_copied !! path_div B n2 = Some F.
Proof. unfold three_copied. by look. Qed.

Lemma three_copied_3 : three_copied !! path_div B n3 = Some Y.
Proof. unfold three_copied. by look. Qed.

End ThreeFiles.

Lemma backed_up_three (base backup T : path) (day k n1 n2 n3 tag1 tag2 tag3 : string)
    (J F Y : file_data) (fs : gmap path file_data) :
  n1 <> n2 -> n1 <> n3 -> n2 <> n3 -> T <> path_div (path_div base day) k ->
  let D := path_div (path_div base day) k in
  backed_up base backup
            [(tag1, path_div D n1); (tag2, path_div D n2); (tag3, path_div D n3)]
            (three_moved T D n1 n2 n3 J F Y fs)
  = three_copied T D (path_div (path_div backup day) k) n1 n2 n3 J F Y fs.
Proof.
  intros H12 H13 H23 HTD D.
  assert (Hrel : forall n, relative_to (path_div D n) base = Ok [day; k; n]).
  { intros n. unfold D, path_div. rewrite <-!app_assoc. apply relative_to_app. }
  assert (Hdst : forall n, (backup ++ [day; k; n])%list
                           = path_div (path_div (path_div backup day) k) n).
  { intros n. unfold path_div. by rewrite <-!app_assoc. }
  unfold backed_up, three_copied. cbn [foldl snd]. rewrite !Hrel, !Hdst.
  unfold copy_file at 3. rewrite three_moved_1 by done.
  unfold copy_file at 2. rewrite lookup_insert_ne, three_moved_2 by
    (done || (intros E; apply path_div_inj in E as [? ?]; congruence)).
  unfold copy_file at 1. rewrite !lookup_insert_ne, three_moved_3 by
    (done || (intros E; apply path_div_inj in E as [? ?]; congruence)).
  reflexivity.
Qed.

(** The date and the time stamp of a world. *)
Definition stamped (w0 w : world) : Prop :=
  today w = today w0 /\ timestamp w = timestamp w0.

Lemma returns_stamped {A} w0 P (m : M A) Q :
  returns P m Q ->
  (forall w, today (snd (m w)) = today w /\ timestamp (snd (m w)) = timestamp w) ->
  returns (fun w => P w /\ stamped w0 w) m (fun a w => Q a w /\ stamped w0 w).
Proof.
  intros Hm Hs w [HP [H1 H2]]. destruct (Hm w HP) as (a & w1 & E & HQ).
  exists a, w1. split; [done|]. split; [done|].
  destruct (Hs w) as [E1 E2]. rewrite E in E1, E2. cbn in E1, E2.
  split; congruence.
Qed.

Lemma mkdir_stamps p w :
  today (snd (Os.mkdir p w)) = today w /\ timestamp (snd (Os.mkdir p w)) = timestamp w.
Proof. by destruct w as [fs [|[| |] fl] c s l t d ts]. Qed.

Lemma sleep_stamps d w :
  today (snd (Os.sleep d w)) = today w /\ timestamp (snd (Os.sleep d w)) = timestamp w.
Proof. done. Qed.

Lemma mkdtemp_stamps w :
  today (snd (Os.mkdtemp w)) = today w /\ timestamp (snd (Os.mkdtemp w)) = timestamp w.
Proof. by destruct w as [fs [|[| |] fl] c s l t d ts]. Qed.

Lemma returns_mkdtemp_at w0 fs :
  returns (fun w => calm_at w0 fs w) Os.mkdtemp
          (fun t w => t = scratch_dir w0 /\ calm fs w /\ stamped w0 w).
Proof.
  intros w ([Hf <-] & Hd & Hts & Hn). unfold Os.mkdtemp, Os.next_outcome.
  rewrite run_bind, Hf. eexists _, _. split; [reflexivity|].
  cbn. unfold scratch_dir. rewrite Hn. done.
Qed.

Lemma returns_get_content_dir_at w0 fs self kind :
  returns (fun w => calm fs w /\ stamped w0 w)
          (OutputManager._get_content_dir self kind)
          (fun dir w => dir = content_dir self kind w0 /\ calm fs w /\ stamped w0 w).
Proof.
  unfold OutputManager._get_content_dir. apply returns_try.
  eapply returns_bind.
  { apply (returns_known _ _ (path_div (base_dir self) (today w0))).
    intros w [_ [-> _]]. reflexivity. }
  intros date_dir. apply returns_assume. intros ->.
  eapply returns_bind; [apply returns_stamped; [apply returns_mkdir|apply mkdir_stamps]|].
  intros ?. apply returns_ret. intros w Hw. done.
Qed.

(** The output directory is not in the directory of the scratch
    directories. *)
Definition outside_tmp (p : path) : bool :=
  match p with
  | c :: _ => negb (String.eqb c "tmp")
  | [] => false
  end.

Lemma scratch_not_under (dir : path) (day k : string) w :
  outside_tmp dir = true -> scratch_dir w <> path_div (path_div dir day) k.
Proof.
  destruct dir as [|c dir]; [done|]. cbn. intros Hc [= <- _].
  by rewrite String.eqb_refl in Hc.
Qed.

Lemma staged_names_distinct (b kind : string) :
  let ext := if negb (String.eqb kind "text") then ".md" else ".txt" in
  b ++ ".json" <> b ++ ext /\ b ++ ".json" <> b ++ "_meta.yaml"
  /\ b ++ ext <> b ++ "_meta.yaml".
Proof.
  cbv zeta. repeat split; intros E; apply string_app_inv_head in E;
    by destruct (negb (String.eqb kind "text")).
Qed.

Lemma relocated_paths (T D : path) (b kind : string) :
  map (fun tp => (fst tp, path_div D (path_name (snd tp)))) (staged_paths T b kind)
  = staged_paths D b kind.
Proof. unfold staged_paths. cbn [map fst snd]. by rewrite !path_name_div. Qed.

Lemma relocated_staged content rendered metadata (T D : path) (b kind : string) fs :
  relocated D (staged_paths T b kind) (staged_files content rendered metadata T b kind fs)
  = three_moved T D (b ++ ".json")
      (b ++ (if negb (String.eqb kind "text") then ".md" else ".txt")) (b ++ "_meta.yaml")
      (Text (Json.dump_indent 0 content)) (Text rendered) (Yaml metadata) fs.
Proof.
  pose proof (staged_names_distinct b kind) as (N12 & N13 & N23).
  by apply three_moved_eq.
Qed.

(** The run of a save when no file-system call fails: the paths it
    returns and the files it leaves. *)
Lemma returns_save_content_files w0 self (d m : pydict) kind f :
  wf (PDict d) ->
  ContentValidator.validate_content (PDict d) kind = Ok tt ->
  Dict.get "metadata" d = Some (PDict m) ->
  (Z.of_nat (String.length (Json.dumps false (PDict d))) <= OutputManager.MAX_CONTENT_SIZE)%Z ->
  OutputManager.FORMATTERS kind = Some (BoundMethod f) ->
  outside_tmp (base_dir self) = true ->
  let topic := Dict.get_default "topic" (PStr "untitled") m in
  returns (calm_at w0 (files w0)) (OutputManager.save_content self (PDict d) kind)
    (fun ps w =>
       ps = staged_paths (content_dir self kind w0) (base_filename topic w0) kind
       /\ files w = saved_files self (PDict d) (PDict m) (f (PDict d)) topic kind w0).
Proof.
  intros Hwf Hv Hm Hsize Hf Hout topic.
  pose proof (staged_names_distinct (base_filename topic w0) kind) as (N12 & N13 & N23).
  cbv zeta in N12, N13, N23.
  pose proof (scratch_not_under (base_dir self) (today w0)
                (_sanitize_filename (PStr kind)) w0 Hout) as HTD.
  unfold OutputManager.save_content. apply returns_try. cbv zeta.
  replace (_ >? _)%Z with false by (symmetry; rewrite Z.gtb_ltb; apply Z.ltb_ge, Hsize).
  eapply returns_bind; [apply returns_pass|]. intros ?.
  eapply returns_bind; [apply returns_gets|]. intros now.
  eapply returns_bind; [apply returns_gets|]. intros last.
  eapply returns_bind.
  { destruct (_ <? _)%Z; [|apply returns_pass].
    apply (returns_modify _ _ (calm_at w0 (files w0))).
    intros w ([? ?] & ? & ? & ?). done. }
  intros ?.
  eapply returns_bind; [apply returns_gets|]. intros now'.
  eapply returns_bind.
  { apply (returns_modify _ _ (calm_at w0 (files w0))).
    intros w ([? ?] & ? & ? & ?). done. }
  intros ?.
  eapply returns_bind; [apply (returns_lift _ _ tt), Hv|]. intros ?.
  apply returns_assume. intros _.
  unfold OutputManager.safe_file_operation.
  eapply returns_bind; [apply returns_mkdtemp_at|]. intros temp_dir.
  apply returns_assume. intros ->.
  eapply (returns_finally_run _ _ _
            (fun ps w =>
               ps = staged_paths (content_dir self kind w0) (base_filename topic w0) kind
               /\ calm (match backup_dir self with
                        | Some backup =>
                            backed_up (base_dir self) backup
                              (staged_paths (content_dir self kind w0)
                                            (base_filename topic w0) kind)
                        | None => fun fs => fs
                        end
                          (relocated (content_dir self kind w0)
                             (staged_paths (scratch_dir w0) (base_filename topic w0) kind)
                             (staged_files (PDict d) (f (PDict d)) (PDict m) (scratch_dir w0)
                                (base_filename topic w0) kind (files w0)))) w)).
  2:{ intros ps. apply returns_assume. intros ->. apply returns_try.
      eapply returns_weaken; [apply returns_rmtree|done|].
      intros ? w [Hfaults Hfiles]. split; [done|]. rewrite Hfiles.
      unfold saved_files. by destruct (backup_dir self). }
  eapply returns_bind; [apply returns_get_content_dir_at|]. intros dir.
  apply returns_assume. intros ->.
  eapply returns_bind.
  { apply (returns_known _ _ (timestamp w0)). by intros w [_ [_ ->]]. }
  intros stamp. apply returns_assume. intros ->.
  eapply returns_bind.
  { apply (returns_lift _ _ topic). unfold OutputManager.topic_of, Py.get, Dict.get_default.
    rewrite Hm. reflexivity. }
  intros topic'. apply returns_assume. intros ->.
  fold (base_filename topic w0).
  eapply returns_bind.
  { eapply returns_weaken;
      [apply returns_save_all_formats with (metadata := PDict m) (fs := files w0);
       [exact Hf|]|by intros w [? _]|intros ps w H; exact H].
    unfold Py.get, Dict.get_default. by rewrite Hm. }
  intros temp_paths. apply returns_assume. intros ->.
  eapply returns_bind.
  { unfold OutputManager._verify_saved_files. apply returns_try.
    apply returns_verify_loop.
    - apply staged_files_present.
    - intros p Hp. exists (Json.dump_indent 0 (PDict d)), (PDict d).
      unfold staged_paths in Hp. rewrite !elem_of_cons, elem_of_nil in Hp.
      destruct Hp as [[= ->]|[[=]|[[=]|[]]]].
      split; [apply staged_files_json|]. split; [by apply loads_dump_indent|done]. }
  intros ?.
  eapply returns_bind.
  { unfold OutputManager._move_to_final_location. apply returns_try.
    apply returns_move_loop_files; [apply staged_paths_NoDup|apply staged_files_present]. }
  intros final_paths. apply returns_assume. intros ->.
  cbn [app]. rewrite relocated_paths.
  eapply returns_bind.
  { instantiate (1 := fun _ w =>
      calm (match backup_dir self with
            | Some backup =>
                backed_up (base_dir self) backup
                  (staged_paths (content_dir self kind w0) (base_filename topic w0) kind)
            | None => fun fs => fs
            end
              (relocated (content_dir self kind w0)
                 (staged_paths (scratch_dir w0) (base_filename topic w0) kind)
                 (staged_files (PDict d) (f (PDict d)) (PDict m) (scratch_dir w0)
                    (base_filename topic w0) kind (files w0)))) w).
    destruct (backup_dir self) as [backup|]; [|apply returns_pass].
    unfold OutputManager._create_backup. apply returns_try.
    apply returns_backup_loop_files. intros p Hp. split.
    - rewrite relocated_staged.
      unfold staged_paths in Hp. cbn [fmap list_fmap snd] in Hp.
      rewrite !elem_of_cons, elem_of_nil in Hp.
      destruct Hp as [->|[->|[->|[]]]]; eexists;
        [apply three_moved_1|apply three_moved_2|apply three_moved_3]; done.
    - unfold staged_paths in Hp. cbn [fmap list_fmap snd] in Hp.
      rewrite !elem_of_cons, elem_of_nil in Hp.
      destruct Hp as [->|[->|[->|[]]]]; eexists;
        unfold content_dir, path_div; rewrite <-!app_assoc; apply relative_to_app. }
  intros ?. apply returns_ret. intros w Hw. done.
Qed.

Lemma outside_not_under (dir : path) (day k n : string) w :
  outside_tmp dir = true ->
  Os.under (scratch_dir w) (path_div (path_div (path_div dir day) k) n) = false.
Proof.
  destruct dir as [|c dir]; [done|]. cbn. intros Hc.
  apply bool_decide_eq_false. intros [rest E]. cbn in E. injection E as -> _.
  by rewrite String.eqb_refl in Hc.
Qed.

Lemma calm_at_start w : faults w = [] -> calm_at w (files w) w.
Proof. intros Hf. by repeat split. Qed.

Lemma backed_up_staged self backup (b kind : string) (J F Y : file_data) fs w :
  outside_tmp (base_dir self) = true ->
  let ext := if negb (String.eqb kind "text") then ".md" else ".txt" in
  backed_up (base_dir self) backup (staged_paths (content_dir self kind w) b kind)
    (three_moved (scratch_dir w) (content_dir self kind w)
       (b ++ ".json") (b ++ ext) (b ++ "_meta.yaml") J F Y fs)
  = three_copied (scratch_dir w) (content_dir self kind w)
      (content_dir (Manager backup None) kind w)
      (b ++ ".json") (b ++ ext) (b ++ "_meta.yaml") J F Y fs.
Proof.
  intros Hout ext. pose proof (staged_names_distinct b kind) as (N12 & N13 & N23).
  apply backed_up_three; try done. by apply scratch_not_under.
Qed.

(** The files of a fault-free save, when the output directory is
    outside the scratch area. *)
Definition kept_files (self : manager) (record metadata : pyval) (rendered : string)
    (topic : pyval) (kind : string) (w : world) : gmap path file_data :=
  let b := base_filename topic w in
  let ext := if negb (String.eqb kind "text") then ".md" else ".txt" in
  let J := Text (Json.dump_indent 0 record) in
  match backup_dir self with
  | Some backup =>
      three_copied (scratch_dir w) (content_dir self kind w)
        (content_dir (Manager backup None) kind w)
        (b ++ ".json") (b ++ ext) (b ++ "_meta.yaml") J (Text rendered) (Yaml metadata)
        (files w)
  | None =>
      three_moved (scratch_dir w) (content_dir self kind w)
        (b ++ ".json") (b ++ ext) (b ++ "_meta.yaml") J (Text rendered) (Yaml metadata)
        (files w)
  end.

Lemma saved_files_kept self record metadata rendered topic kind w :
  outside_tmp (base_dir self) = true ->
  saved_files self record metadata rendered topic kind w
  = filter (fun kv => Os.under (scratch_dir w) (fst kv) = false)
           (kept_files self record metadata rendered topic kind w).
Proof.
  intros Hout. unfold saved_files, kept_files. cbv zeta. rewrite relocated_staged.
  destruct (backup_dir self) as [backup|]; [|done].
  by rewrite backed_up_staged.
Qed.

Lemma kept_files_final self record metadata rendered topic kind w :
  outside_tmp (base_dir self) = true ->
  let dir := content_dir self kind w in
  let b := base_filename topic w in
  let ext := if negb (String.eqb kind "text") then ".md" else ".txt" in
  let fs := kept_files self record metadata rendered topic kind w in
  fs !! path_div dir (b ++ ".json") = Some (Text (Json.dump_indent 0 record))
  /\ fs !! path_div dir (b ++ ext) = Some (Text rendered)
  /\ fs !! path_div dir (b ++ "_meta.yaml") = Some (Yaml metadata).
Proof.
  intros Hout. cbv zeta.
  pose proof (staged_names_distinct (base_filename topic w) kind) as (N12 & N13 & N23).
  pose proof (scratch_not_under (base_dir self) (today w)
                (_sanitize_filename (PStr kind)) w Hout) as HTD.
  unfold kept_files. cbv zeta. destruct (backup_dir self) as [backup|].
  - split; [by apply three_copied_final_1|].
    split; [by apply three_copied_final_2|by apply three_copied_final_3].
  - split; [by apply three_moved_1|]. split; [by apply three_moved_2|by apply three_moved_3].
Qed.



Lemma kept_files_backup self backup record metadata rendered topic kind w :
  backup_dir self = Some backup ->
  let dir := content_dir (Manager backup None) kind w in
  let b := base_filename topic w in
  let ext := if negb (String.eqb kind "text") then ".md" else ".txt" in
  let fs := kept_files self record metadata rendered topic kind w in
  fs !! path_div dir (b ++ ".json") = Some (Text (Json.dump_indent 0 record))
  /\ fs !! path_div dir (b ++ ext) = Some (Text rendered)
  /\ fs !! path_div dir (b ++ "_meta.yaml") = Some (Yaml metadata).
Proof.
  intros Hb. cbv zeta.
  pose proof (staged_names_distinct (base_filename topic w) kind) as (N12 & N13 & N23).
  unfold kept_files. cbv zeta. rewrite Hb.
  split; [by apply three_copied_1|]. split; [by apply three_copied_2|by apply three_copied_3].
Qed.



(** * What a save leaves alone *)

(** [preserves obs m]: whatever [m] does, returning or raising, the
    observation [obs] of the world is afterwards what it was before. *)
Definition preserves {X A} (obs : world -> X) (m : M A) : Prop :=
  forall w, obs (snd (m w)) = obs w.

Section Preserves.
Context {X : Type} (obs : world -> X).

Lemma preserves_ret {A} (a : A) : preserves obs (mret a).
Proof. by intros w. Qed.

Lemma preserves_raise {A} e : preserves obs (raise e : M A).
Proof. by intros w. Qed.

Lemma preserves_lift {A} (r : result A) : preserves obs (lift r).
Proof. by intros w. Qed.

Lemma preserves_gets {A} (f : world -> A) : preserves obs (gets f).
Proof. by intros w. Qed.

Lemma preserves_modify g : (forall w, obs (g w) = obs w) -> preserves obs (modify g).
Proof. intros H w. apply H. Qed.

(** Sequencing, when the values the first part returns satisfy [V]. *)
Lemma preserves_bind_when {A B} (V : A -> Prop) (m : M A) (f : A -> M B) :
  (forall w a w', m w = (Ok a, w') -> V a) ->
  preserves obs m -> (forall a, V a -> preserves obs (f a)) ->
  preserves obs (m ≫= f).
Proof.
  intros HV Hm Hf w. rewrite run_bind. specialize (Hm w). specialize (HV w).
  destruct (m w) as [[a|e] w1]; [|exact Hm].
  cbn in Hm. rewrite <-Hm. apply Hf. by eapply HV.
Qed.

Lemma preserves_bind {A B} (m : M A) (f : A -> M B) :
  preserves obs m -> (forall a, preserves obs (f a)) -> preserves obs (m ≫= f).
Proof. intros Hm Hf. apply (preserves_bind_when (fun _ => True)); auto. Qed.

Lemma preserves_try {A} (body : M A) handler :
  preserves obs body -> (forall e, preserves obs (handler e)) ->
  preserves obs (try_except body handler).
Proof.
  intros Hb Hh w. rewrite run_try. specialize (Hb w).
  destruct (body w) as [[a|e] w1]; [exact Hb|].
  cbn in Hb. rewrite <-Hb. apply Hh.
Qed.

Lemma preserves_finally {A} (body : M A) cleanup :
  preserves obs body -> preserves obs cleanup -> preserves obs (finally body cleanup).
Proof.
  intros Hb Hc w. unfold finally. specialize (Hb w).
  destruct (body w) as [r w1]. specialize (Hc w1).
  destruct (cleanup w1) as [r2 w2]. cbn in *. congruence.
Qed.

Hypothesis sleep_preserves : forall d, preserves obs (Os.sleep d).

Lemma preserves_retry_loop {A} (operation : M A) attempts :
  preserves obs operation -> preserves obs (OutputManager.retry_loop operation attempts).
Proof.
  intros Hop. induction attempts as [|attempt rest IH]; [apply preserves_ret|].
  cbn [OutputManager.retry_loop]. apply preserves_try.
  - apply preserves_bind; [exact Hop|]. intros a. apply preserves_ret.
  - intros e. destruct (Nat.eqb _ _); [apply preserves_raise|].
    apply preserves_bind; [apply sleep_preserves|]. intros _. exact IH.
Qed.

Lemma preserves_retry {A} (operation : M A) :
  preserves obs operation -> preserves obs (OutputManager._retry_operation operation).
Proof. apply preserves_retry_loop. Qed.

End Preserves.

(** The file-system calls and the file at the path [p]. *)
Section FileAt.
Variable p : path.

Definition file_at (w : world) : option file_data := files w !! p.

Lemma sleep_file_at d : preserves file_at (Os.sleep d).
Proof. by intros w. Qed.

Lemma next_outcome_file_at : preserves file_at Os.next_outcome.
Proof. intros w. unfold Os.next_outcome. by destruct (faults w). Qed.

Lemma mkdir_file_at q : preserves file_at (Os.mkdir q).
Proof.
  unfold Os.mkdir. apply preserves_bind; [apply next_outcome_file_at|].
  intros [| |]; first [apply preserves_ret|apply preserves_raise].
Qed.

Lemma mkdtemp_file_at : preserves file_at Os.mkdtemp.
Proof.
  unfold Os.mkdtemp. apply preserves_bind; [apply next_outcome_file_at|].
  intros [| |]; try apply preserves_raise;
    (apply preserves_bind; [apply preserves_gets|]; intros n;
     apply preserves_bind; [by apply preserves_modify|]; intros _; apply preserves_ret).
Qed.

Lemma put_file_at q data : q <> p -> preserves file_at (Os.put q data).
Proof.
  intros Hq. apply preserves_modify. intros w. unfold file_at. cbn.
  by rewrite lookup_insert_ne.
Qed.

Lemma write_file_at q data : q <> p -> preserves file_at (Os.write q data).
Proof.
  intros Hq. unfold Os.write. apply preserves_bind; [apply next_outcome_file_at|].
  intros [| |]; first [by apply put_file_at|apply preserves_raise].
Qed.

Lemma read_file_at q : preserves file_at (Os.read q).
Proof. intros w. unfold Os.read. by destruct (files w !! q). Qed.

Lemma exists_file_at q : preserves file_at (Os.exists_ q).
Proof. apply preserves_gets. Qed.

Lemma move_file_at src dst : src <> p -> dst <> p -> preserves file_at (Os.move src dst).
Proof.
  intros Hs Hd. unfold Os.move. apply preserves_bind; [apply next_outcome_file_at|].
  intros o.
  assert (H : forall landed : file_data -> file_data,
             preserves file_at
               (data ← Os.read src;
                modify (with_files (fun fs => <[dst := landed data]> (delete src fs))))).
  { intros landed. apply preserves_bind; [apply read_file_at|]. intros data.
    apply preserves_modify. intros w. unfold file_at. cbn.
    by rewrite lookup_insert_ne, lookup_delete_ne. }
  destruct o; [apply (H (fun data => data))|apply preserves_raise|
               apply (H (fun _ => Text data))].
Qed.

Lemma copy2_file_at src dst : dst <> p -> preserves file_at (Os.copy2 src dst).
Proof.
  intros Hd. unfold Os.copy2. apply preserves_bind; [apply next_outcome_file_at|].
  intros o.
  assert (H : forall landed : file_data -> file_data,
             preserves file_at (data ← Os.read src; Os.put dst (landed data))).
  { intros landed. apply preserves_bind; [apply read_file_at|]. intros data.
    by apply put_file_at. }
  destruct o; [apply (H (fun data => data))|apply preserves_raise|
               apply (H (fun _ => Text data))].
Qed.

Lemma rmtree_file_at dir : Os.under dir p = false -> preserves file_at (Os.rmtree dir).
Proof.
  intros Hu. unfold Os.rmtree. apply preserves_bind; [apply next_outcome_file_at|].
  assert (H : preserves file_at
                (modify (with_files (filter (fun kv => Os.under dir (fst kv) = false))))).
  { apply preserves_modify. intros w. unfold file_at. cbn.
    rewrite map_lookup_filter. destruct (files w !! p) as [data|]; [|done].
    cbn. by rewrite option_guard_True. }
  intros [| |]; first [apply H|apply preserves_raise].
Qed.

End FileAt.

Lemma under_app (dir rel p : path) : Os.under dir p = false -> (dir ++ rel)%list <> p.
Proof.
  intros Hu <-. apply bool_decide_eq_false in Hu. apply Hu. by exists rel.
Qed.

Lemma under_div (dir : path) (name : string) (p : path) :
  Os.under dir p = false -> path_div dir name <> p.
Proof. apply under_app. Qed.

Lemma under_below (dir sub p : path) :
  dir `prefix_of` sub -> Os.under dir p = false -> Os.under sub p = false.
Proof.
  intros Hsub Hu. apply bool_decide_eq_false. apply bool_decide_eq_false in Hu.
  intros Hp. apply Hu. by etrans.
Qed.

Section Frame.
Variable p : path.

#[local] Abbreviation keeps := (preserves (file_at p)).

Lemma retry_file_at {A} (operation : M A) :
  keeps operation -> keeps (OutputManager._retry_operation operation).
Proof. apply preserves_retry, sleep_file_at. Qed.

Lemma get_content_dir_file_at self kind : keeps (OutputManager._get_content_dir self kind).
Proof.
  unfold OutputManager._get_content_dir. apply preserves_try.
  - apply preserves_bind; [apply preserves_gets|]. intros date_dir.
    apply preserves_bind; [apply mkdir_file_at|]. intros _. apply preserves_ret.
  - intros e. apply preserves_raise.
Qed.

Lemma save_formatted_file_at content kind dir b :
  Os.under dir p = false -> keeps (OutputManager._save_formatted content kind dir b).
Proof.
  intros Hu. unfold OutputManager._save_formatted. apply preserves_try.
  - cbv zeta. apply preserves_bind; [apply preserves_lift|]. intros formatted_content.
    apply preserves_bind; [apply mkdir_file_at|]. intros _.
    apply preserves_bind; [|intros _; apply preserves_ret].
    by apply retry_file_at, write_file_at, under_div.
  - intros e. apply preserves_raise.
Qed.

Lemma save_all_formats_file_at content kind dir b :
  Os.under dir p = false -> keeps (OutputManager._save_all_formats content kind dir b).
Proof.
  intros Hu. unfold OutputManager._save_all_formats. apply preserves_try.
  - cbv zeta. apply preserves_bind.
    { by apply retry_file_at, write_file_at, under_div. }
    intros _. apply preserves_bind; [by apply save_formatted_file_at|]. intros formatted_path.
    apply preserves_bind; [apply preserves_lift|]. intros metadata.
    apply preserves_bind; [|intros _; apply preserves_ret].
    by apply retry_file_at, write_file_at, under_div.
  - intros e. apply preserves_raise.
Qed.

Lemma verify_saved_files_file_at l checksum :
  keeps (OutputManager._verify_saved_files l checksum).
Proof.
  unfold OutputManager._verify_saved_files.
  apply preserves_try; [|intros e; apply preserves_raise].
  induction l as [|[tag q] l IH]; [apply preserves_ret|].
  cbn [OutputManager.verify_loop].
  apply preserves_bind; [apply exists_file_at|]. intros present.
  apply preserves_bind.
  { destruct (negb present); [apply preserves_raise|apply preserves_ret]. }
  intros _. apply preserves_bind; [|intros _; exact IH].
  destruct (String.eqb tag "json"); [|apply preserves_ret].
  apply preserves_bind; [apply read_file_at|]. intros data.
  apply preserves_bind; [apply preserves_lift|]. intros content.
  cbv zeta. destruct (negb _); [apply preserves_raise|apply preserves_ret].
Qed.

Lemma move_loop_file_at dir l acc :
  (forall src, src ∈ l.*2 -> src <> p) -> Os.under dir p = false ->
  keeps (OutputManager.move_loop dir l acc).
Proof.
  intros Hsrc Hu. revert acc. induction l as [|[tag src] l IH]; intros acc.
  { apply preserves_ret. }
  cbn [OutputManager.move_loop]. cbv zeta. apply preserves_bind.
  { apply retry_file_at, move_file_at; [apply Hsrc; cbn; left|by apply under_div]. }
  intros _. apply IH. intros q Hq. apply Hsrc. cbn. by right.
Qed.

Lemma create_backup_file_at self backup l :
  Os.under backup p = false -> keeps (OutputManager._create_backup self backup l).
Proof.
  intros Hu. unfold OutputManager._create_backup.
  apply preserves_try; [|intros e; apply preserves_ret].
  induction l as [|[tag src] l IH]; [apply preserves_ret|].
  cbn [OutputManager.backup_loop].
  apply preserves_bind; [apply preserves_lift|]. intros rel. cbv zeta.
  apply preserves_bind; [apply mkdir_file_at|]. intros _.
  apply preserves_bind; [by apply copy2_file_at, under_app|]. intros _. exact IH.
Qed.

Lemma mkdtemp_under_tmp w temp_dir w' :
  Os.mkdtemp w = (Ok temp_dir, w') -> ["tmp"] `prefix_of` temp_dir.
Proof.
  unfold Os.mkdtemp, Os.next_outcome. rewrite run_bind.
  destruct (faults w) as [|[| |] rest]; try discriminate;
    intros [= <- _]; by eexists [_].
Qed.

Lemma safe_file_operation_file_at {A} (body : path -> M A) :
  Os.under ["tmp"] p = false ->
  (forall temp_dir, ["tmp"] `prefix_of` temp_dir -> keeps (body temp_dir)) ->
  keeps (OutputManager.safe_file_operation body).
Proof.
  intros Hu Hbody. unfold OutputManager.safe_file_operation.
  apply (preserves_bind_when _ (fun temp_dir => ["tmp"] `prefix_of` temp_dir)).
  - apply mkdtemp_under_tmp.
  - apply mkdtemp_file_at.
  - intros temp_dir Ht. apply preserves_finally; [by apply Hbody|].
    apply preserves_try; [|intros e; apply preserves_ret].
    apply rmtree_file_at. by apply (under_below ["tmp"]).
Qed.

Lemma save_content_file_at self content kind :
  Os.under ["tmp"] p = false ->
  Os.under (base_dir self) p = false ->
  match backup_dir self with
  | Some backup => Os.under backup p = false
  | None => True
  end ->
  keeps (OutputManager.save_content self content kind).
Proof.
  intros Htmp Hbase Hbackup. unfold OutputManager.save_content.
  apply preserves_try; [|intros e; apply preserves_raise]. cbv zeta.
  apply preserves_bind.
  { destruct (_ >? _)%Z; [apply preserves_raise|apply preserves_ret]. }
  intros _. apply preserves_bind; [apply preserves_gets|]. intros now.
  apply preserves_bind; [apply preserves_gets|]. intros last.
  apply preserves_bind.
  { destruct (_ <? _)%Z; [apply sleep_file_at|apply preserves_ret]. }
  intros _. apply preserves_bind; [apply preserves_gets|]. intros now'.
  apply preserves_bind; [by apply preserves_modify|]. intros _.
  apply preserves_bind; [apply preserves_lift|]. intros _.
  apply safe_file_operation_file_at; [exact Htmp|]. intros temp_dir Ht.
  assert (Hu : Os.under temp_dir p = false) by by apply (under_below ["tmp"]).
  apply (preserves_bind_when _
           (fun dir => exists day k, dir = path_div (path_div (base_dir self) day) k)).
  { intros w dir w' E. unfold OutputManager._get_content_dir in E.
    apply try_wrap_ok_inv in E. peel E. apply ret_ok_inv in E as [<- _].
    match goal with H : gets _ _ = _ |- _ => injection H as <- _ end. eauto. }
  { apply get_content_dir_file_at. }
  intros dir (day & k & ->).
  apply preserves_bind; [apply preserves_gets|]. intros stamp.
  apply preserves_bind; [apply preserves_lift|]. intros topic.
  apply (preserves_bind_when _
           (fun ps => exists b, ps = staged_paths temp_dir b kind)).
  { intros w ps w' E. apply save_all_formats_paths in E. eauto. }
  { by apply save_all_formats_file_at. }
  intros temp_paths (b & ->).
  apply preserves_bind; [apply verify_saved_files_file_at|]. intros _.
  apply preserves_bind.
  { unfold OutputManager._move_to_final_location.
    apply preserves_try; [|intros e; apply preserves_raise].
    apply move_loop_file_at.
    - intros src Hsrc. unfold staged_paths in Hsrc. cbn [fmap list_fmap snd] in Hsrc.
      rewrite !elem_of_cons, elem_of_nil in Hsrc.
      destruct Hsrc as [->|[->|[->|[]]]]; by apply under_div.
    - apply (under_below (base_dir self)); [|exact Hbase].
      exists [day; k]. unfold path_div. by rewrite <-app_assoc. }
  intros final_paths. apply preserves_bind; [|intros _; apply preserves_ret].
  destruct (backup_dir self) as [backup|]; [|apply preserves_ret].
  by apply create_backup_file_at.
Qed.

End Frame.

(** A world with a file of the user next to the output directory. *)
Definition world_with_notes (plan : list outcome) : world :=
  World {[ ["home"; "notes.txt"] := Text "keep" ]} plan 1700000000000 [] 0 0
        "2024-01-15" "20240115_093000".



(** ** Before the relocation *)

(** The outcomes of a computation that got as far as the relocation:
    it returned, or it raised what [_move_to_final_location] raises. *)
Definition relocation_outcome {A} (prefix : string) (r : result A) : Prop :=
  match r with
  | Ok _ => True
  | Raise e =>
      exists msg, exn_msg e = prefix ++ "Failed to move files to final location: " ++ msg
  end.

Section BeforeRelocation.
Variable p : path.

(** [m] leaves the file at [p] as it was, unless it got as far as the
    relocation. *)
Definition keeps_unless_relocating {A} (prefix : string) (m : M A) : Prop :=
  forall w, file_at p (snd (m w)) = file_at p w \/ relocation_outcome prefix (fst (m w)).

Lemma keeps_unless_relocating_bind {A B} (V : A -> Prop) prefix (m : M A) (f : A -> M B) :
  (forall w a w', m w = (Ok a, w') -> V a) ->
  preserves (file_at p) m ->
  (forall a, V a -> keeps_unless_relocating prefix (f a)) ->
  keeps_unless_relocating prefix (m ≫= f).
Proof.
  intros HV Hm Hf w. rewrite run_bind. specialize (Hm w). specialize (HV w).
  destruct (m w) as [[a|e] w1]; [|by left].
  cbn in Hm. rewrite <-Hm. apply Hf. by eapply HV.
Qed.

Lemma keeps_unless_relocating_finally {A} prefix (body : M A) cleanup :
  keeps_unless_relocating prefix body -> preserves (file_at p) cleanup ->
  keeps_unless_relocating prefix (finally body cleanup).
Proof.
  intros Hb Hc w. unfold finally. specialize (Hb w).
  destruct (body w) as [r w1]. specialize (Hc w1).
  destruct (cleanup w1) as [r2 w2]. cbn in *.
  destruct Hb as [Hb|Hb]; [left; congruence|by right].
Qed.

(** From the relocation on, a save returns or raises the error of the
    relocation. *)
Lemma relocation_and_backup self temp_paths dir b w :
  relocation_outcome ""
    (fst ((final_paths ← OutputManager._move_to_final_location temp_paths dir b;
           match backup_dir self with
           | Some backup => OutputManager._create_backup self backup final_paths
           | None => mret tt
           end;;
           mret final_paths) w)).
Proof.
  rewrite run_bind. unfold OutputManager._move_to_final_location at 1. rewrite run_try.
  destruct (OutputManager.move_loop dir temp_paths [] w) as [[ps|e] w1].
  - rewrite run_bind. destruct (backup_dir self) as [backup|]; [|done].
    pose proof (create_backup_never_raises self backup ps w1) as Hb.
    unfold outcome_of in Hb.
    destruct (OutputManager._create_backup self backup ps w1) as [[[]|e] w2]; [done|].
    discriminate.
  - cbn. by eexists.
Qed.

Lemma save_content_keeps_unless_relocating self content kind :
  Os.under ["tmp"] p = false ->
  keeps_unless_relocating "Content save failed: "
    (OutputManager.save_content self content kind).
Proof.
  intros Htmp.
  assert (Hbody : keeps_unless_relocating ""
            (let content_size := Z.of_nat (String.length (Json.dumps false content)) in
             (if (content_size >? OutputManager.MAX_CONTENT_SIZE)%Z
              then raise (Exn ValidationError
                            ("Content size (" ++ PyStr.of_Z content_size
                             ++ " bytes) exceeds limit"))
              else mret tt);;
             now ← Os.time;
             last ← gets last_save_time;
             (if (now - last <? OutputManager.RATE_LIMIT_INTERVAL)%Z
              then Os.sleep (OutputManager.RATE_LIMIT_INTERVAL - (now - last))
              else mret tt);;
             now' ← Os.time;
             modify (fun w => World (files w) (faults w) (clock w) (slept w) now'
                                    (temp_count w) (today w) (timestamp w));;
             lift (ContentValidator.validate_content content kind);;
             let content_to_save := content in
             let checksum := _compute_checksum content_to_save in
             OutputManager.safe_file_operation (fun temp_dir =>
               content_dir ← OutputManager._get_content_dir self kind;
               stamp ← gets timestamp;
               topic ← lift (OutputManager.topic_of content);
               let base_filename := _sanitize_filename topic ++ "_" ++ stamp in
               temp_paths ← OutputManager._save_all_formats content_to_save kind temp_dir
                              base_filename;
               OutputManager._verify_saved_files temp_paths checksum;;
               final_paths ← OutputManager._move_to_final_location temp_paths content_dir
                               base_filename;
               match backup_dir self with
               | Some backup => OutputManager._create_backup self backup final_paths
               | None => mret tt
               end;;
               mret final_paths))).
  { cbv zeta.
    apply (keeps_unless_relocating_bind (fun _ => True)); [done| |intros _ _].
    { destruct (_ >? _)%Z; [apply preserves_raise|apply preserves_ret]. }
    apply (keeps_unless_relocating_bind (fun _ => True));
      [done|apply preserves_gets|intros now _].
    apply (keeps_unless_relocating_bind (fun _ => True));
      [done|apply preserves_gets|intros last _].
    apply (keeps_unless_relocating_bind (fun _ => True)); [done| |intros _ _].
    { destruct (_ <? _)%Z; [apply sleep_file_at|apply preserves_ret]. }
    apply (keeps_unless_relocating_bind (fun _ => True));
      [done|apply preserves_gets|intros now' _].
    apply (keeps_unless_relocating_bind (fun _ => True));
      [done|by apply preserves_modify|intros _ _].
    apply (keeps_unless_relocating_bind (fun _ => True));
      [done|apply preserves_lift|intros _ _].
    unfold OutputManager.safe_file_operation.
    apply (keeps_unless_relocating_bind (fun temp_dir => ["tmp"] `prefix_of` temp_dir));
      [apply mkdtemp_under_tmp|apply mkdtemp_file_at|intros temp_dir Ht].
    assert (Hu : Os.under temp_dir p = false) by by apply (under_below ["tmp"]).
    apply keeps_unless_relocating_finally.
    2:{ apply preserves_try; [|intros e; apply preserves_ret]. by apply rmtree_file_at. }
    apply (keeps_unless_relocating_bind (fun _ => True));
      [done|apply get_content_dir_file_at|intros dir _].
    apply (keeps_unless_relocating_bind (fun _ => True));
      [done|apply preserves_gets|intros stamp _].
    apply (keeps_unless_relocating_bind (fun _ => True));
      [done|apply preserves_lift|intros topic _].
    apply (keeps_unless_relocating_bind (fun _ => True));
      [done|by apply save_all_formats_file_at|intros temp_paths _].
    apply (keeps_unless_relocating_bind (fun _ => True));
      [done|apply verify_saved_files_file_at|intros _ _].
    intros w. right. apply relocation_and_backup. }
  intros w. unfold OutputManager.save_content. rewrite run_try.
  specialize (Hbody w). cbv zeta in Hbody.
  match goal with
  | |- context [match ?body w with _ => _ end] => destruct (body w) as [[ps|e] w1]
  end; [exact Hbody|].
  cbn in *. destruct Hbody as [Hb|[msg Hb]]; [by left|].
  right. exists msg. by rewrite Hb.
Qed.

End BeforeRelocation.

Lemma prefix_app (s rest : string) : String.prefix s (s ++ rest) = true.
Proof.
  induction s as [|c s IH]; simpl; [by destruct rest|].
  destruct (ascii_dec c c); [exact IH|done].
Qed.


(** The save of [hello] when the staged JSON is replaced by the JSON
    of another record. *)
Lemma replaced_json_result :
  fst (OutputManager.save_content mgr hello "text" (world_with_notes staged_json_replaced))
  = Raise (Exn OutputError "Content save failed: Content verification failed").
Proof. vm_compute. reflexivity. Qed.

Lemma replaced_json_run :
  OutputManager.save_content mgr hello "text" (world_with_notes staged_json_replaced)
  = (Raise (Exn OutputError "Content save failed: Content verification failed"),
     snd (OutputManager.save_content mgr hello "text"
            (world_with_notes staged_json_replaced))).
Proof. rewrite <-replaced_json_result. apply surjective_pairing. Qed.


(** * The size limit *)

Lemma escape_char_length ensure_ascii c :
  (1 <= String.length (Json.escape_char ensure_ascii c))%nat.
Proof.
  unfold Json.escape_char.
  repeat match goal with |- context [if ?b then _ else _] => destruct b end;
    cbn [String.length]; lia.
Qed.

Lemma escape_length ensure_ascii s :
  (String.length s <= String.length (Json.escape ensure_ascii s))%nat.
Proof.
  induction s as [|c s IH]; [done|].
  cbn [Json.escape String.length]. rewrite string_length_app.
  pose proof (escape_char_length ensure_ascii c). lia.
Qed.

Lemma dumps_str_length sort_keys s :
  (String.length s <= String.length (Json.dumps sort_keys (PStr s)))%nat.
Proof.
  cbn [Json.dumps]. unfold Json.encode_str. cbn [String.length].
  rewrite string_length_app. pose proof (escape_length true s). lia.
Qed.

Lemma spaces_length n : String.length (Json.spaces n) = n.
Proof. induction n as [|n IH]; [done|]. cbn. by rewrite IH. Qed.


(** A string of eleven million spaces. *)
Definition eleven_million_spaces : pyval := PStr (Json.spaces (Z.to_nat 11000000)).


(** * The scratch directory *)

(** The next file-system call is not refused. *)
Definition next_call_succeeds (w : world) : bool :=
  match faults w with
  | Fail _ :: _ => false
  | _ => true
  end.

Lemma filter_under_lookup (dir : path) (fs : gmap path file_data) (p : path) :
  filter (fun kv => Os.under dir (fst kv) = false) fs !! p
  = if Os.under dir p then None else fs !! p.
Proof.
  destruct (Os.under dir p) eqn:Hu.
  - apply map_lookup_filter_None. right. intros x _. cbn. by rewrite Hu.
  - rewrite map_lookup_filter. destruct (fs !! p) as [x|]; [|done].
    cbn. by rewrite option_guard_True.
Qed.

(** X6: [safe_file_operation].  When [mkdtemp] fails the body does
    not run and the failure is raised.  Otherwise the body runs with the
    new directory under the directory of the scratch directories, and
    what the body returns or raises is what the context manager returns
    or raises, whether the removal of the directory succeeds or not;
    when the removal is not refused, no file is left under the scratch
    directory and the files outside it are those the body left. *)
Theorem safe_file_operation_cleans_up
    {A} (body : path -> M A) (w : world) :
  match Os.mkdtemp w with
  | (Raise e, w0) => OutputManager.safe_file_operation body w = (Raise e, w0)
  | (Ok temp_dir, w0) =>
      ["tmp"] `prefix_of` temp_dir
      /\ fst (OutputManager.safe_file_operation body w) = fst (body temp_dir w0)
      /\ (next_call_succeeds (snd (body temp_dir w0)) = true ->
          forall p,
            files (snd (OutputManager.safe_file_operation body w)) !! p
            = if Os.under temp_dir p then None
              else files (snd (body temp_dir w0)) !! p)
  end.
Proof.
  unfold OutputManager.safe_file_operation. rewrite run_bind.
  destruct (Os.mkdtemp w) as [[temp_dir|e] w0] eqn:E; [|done].
  split; [by eapply mkdtemp_under_tmp|].
  unfold finally. destruct (body temp_dir w0) as [r w1]. rewrite run_try.
  unfold Os.rmtree, Os.next_outcome, next_call_succeeds. rewrite run_bind. cbn [fst snd].
  destruct (faults w1) as [|[|msg|data] rest]; cbn -[Os.under]; (split; [done|]);
    try done; intros _ p; apply filter_under_lookup.
Qed.

(** * The verification of the staged files *)

(** One turn of the loop of [_verify_saved_files]. *)
Lemma verify_loop_cons tag p rest checksum w :
  OutputManager.verify_loop ((tag, p) :: rest) checksum w
  = match files w !! p with
    | None => (Raise (Exn FileError ("Missing file: " ++ path_str p)), w)
    | Some data =>
        if String.eqb tag "json" then
          match OutputManager.json_load data with
          | Ok content =>
              if String.eqb (_compute_checksum content) checksum
              then OutputManager.verify_loop rest checksum w
              else (Raise (Exn ValidationError "Content verification failed"), w)
          | Raise e => (Raise e, w)
          end
        else OutputManager.verify_loop rest checksum w
    end.
Proof.
  cbn [OutputManager.verify_loop]. rewrite run_bind. unfold Os.exists_, gets.
  destruct (files w !! p) as [data|] eqn:Hp.
  - rewrite bool_decide_eq_true_2 by done. cbn [negb]. rewrite !run_bind.
    change ((mret tt : M unit) w) with (Ok tt, w).
    destruct (String.eqb tag "json"); [|reflexivity].
    rewrite run_bind. unfold Os.read. rewrite run_bind. cbv beta. rewrite Hp.
    rewrite run_bind. unfold lift.
    destruct (OutputManager.json_load data) as [content|e]; [|reflexivity].
    by destruct (String.eqb (_compute_checksum content) checksum).
  - rewrite bool_decide_eq_false_2 by (by intros [? ?]). reflexivity.
Qed.

(** A listed file passes the verification: it exists, and when it is
    the one tagged [json] it parses to a value with the expected checksum. *)
Definition verified (checksum : string) (fs : gmap path file_data) (tp : string * path)
  : Prop :=
  exists data,
    fs !! snd tp = Some data
    /\ (fst tp = "json" ->
        exists content,
          OutputManager.json_load data = Ok content
          /\ _compute_checksum content = checksum).


(** * The rate limit *)

(** The file-system calls and the clock do not touch [last_save_time]. *)
Lemma next_outcome_last_save_time : preserves last_save_time Os.next_outcome.
Proof. intros w. unfold Os.next_outcome. by destruct (faults w). Qed.

Lemma sleep_last_save_time d : preserves last_save_time (Os.sleep d).
Proof. by intros w. Qed.

Lemma read_last_save_time q : preserves last_save_time (Os.read q).
Proof. intros w. unfold Os.read. by destruct (files w !! q). Qed.

Lemma put_last_save_time q data : preserves last_save_time (Os.put q data).
Proof. by intros w. Qed.

#[local] Ltac quiet_step :=
  lazymatch goal with
  | |- preserves _ (mret _) => apply preserves_ret
  | |- preserves _ (raise _) => apply preserves_raise
  | |- preserves _ (lift _) => apply preserves_lift
  | |- preserves _ (gets _) => apply preserves_gets
  | |- preserves _ Os.time => apply preserves_gets
  | |- preserves _ (Os.exists_ _) => apply preserves_gets
  | |- preserves _ Os.next_outcome => apply next_outcome_last_save_time
  | |- preserves _ (Os.sleep _) => apply sleep_last_save_time
  | |- preserves _ (Os.read _) => apply read_last_save_time
  | |- preserves _ (Os.put _ _) => apply put_last_save_time
  | |- preserves _ (modify _) => by apply preserves_modify
  | |- preserves _ (OutputManager._retry_operation _) =>
      apply preserves_retry; [apply sleep_last_save_time|]
  | |- preserves _ (_ ≫= _) => apply preserves_bind; [|intros ?]
  | |- preserves _ (try_except _ _) => apply preserves_try; [|intros ?]
  | |- preserves _ (finally _ _) => apply preserves_finally
  | |- preserves _ (if ?b then _ else _) => destruct b
  | |- preserves _ (match ?x with _ => _ end) => destruct x
  end.

#[local] Ltac quiet := cbv zeta; repeat quiet_step.

Lemma mkdir_last_save_time q : preserves last_save_time (Os.mkdir q).
Proof. unfold Os.mkdir. quiet. Qed.

Lemma mkdtemp_last_save_time : preserves last_save_time Os.mkdtemp.
Proof. unfold Os.mkdtemp. quiet. Qed.

Lemma write_last_save_time q data : preserves last_save_time (Os.write q data).
Proof. unfold Os.write. quiet. Qed.

Lemma move_last_save_time src dst : preserves last_save_time (Os.move src dst).
Proof. unfold Os.move. quiet. Qed.

Lemma copy2_last_save_time src dst : preserves last_save_time (Os.copy2 src dst).
Proof. unfold Os.copy2. quiet. Qed.

Lemma rmtree_last_save_time dir : preserves last_save_time (Os.rmtree dir).
Proof. unfold Os.rmtree. quiet. Qed.

Lemma verify_loop_last_save_time l checksum :
  preserves last_save_time (OutputManager.verify_loop l checksum).
Proof.
  induction l as [|[tag q] l IH]; [apply preserves_ret|].
  cbn [OutputManager.verify_loop]. quiet. exact IH.
Qed.

Lemma move_loop_last_save_time dir l acc :
  preserves last_save_time (OutputManager.move_loop dir l acc).
Proof.
  revert acc. induction l as [|[tag src] l IH]; intros acc; [apply preserves_ret|].
  cbn [OutputManager.move_loop]. quiet; [apply move_last_save_time|apply IH].
Qed.

Lemma backup_loop_last_save_time self backup l :
  preserves last_save_time (OutputManager.backup_loop self backup l).
Proof.
  induction l as [|[tag src] l IH]; [apply preserves_ret|].
  cbn [OutputManager.backup_loop]. quiet;
    [apply mkdir_last_save_time|apply copy2_last_save_time|exact IH].
Qed.

(** Everything [save_content] does after it has set [last_save_time]. *)
Lemma staging_last_save_time self content kind checksum :
  preserves last_save_time
    (OutputManager.safe_file_operation (fun temp_dir =>
       content_dir ← OutputManager._get_content_dir self kind;
       stamp ← gets timestamp;
       topic ← lift (OutputManager.topic_of content);
       let base_filename := _sanitize_filename topic ++ "_" ++ stamp in
       temp_paths ← OutputManager._save_all_formats content kind temp_dir base_filename;
       OutputManager._verify_saved_files temp_paths checksum;;
       final_paths ← OutputManager._move_to_final_location temp_paths content_dir
                       base_filename;
       match backup_dir self with
       | Some backup => OutputManager._create_backup self backup final_paths
       | None => mret tt
       end;;
       mret final_paths)).
Proof.
  unfold OutputManager.safe_file_operation, OutputManager._get_content_dir,
    OutputManager._save_all_formats, OutputManager._save_formatted,
    OutputManager._save_json, OutputManager._save_yaml,
    OutputManager._verify_saved_files, OutputManager._move_to_final_location,
    OutputManager._create_backup.
  quiet;
    first [ apply mkdtemp_last_save_time | apply mkdir_last_save_time
          | apply write_last_save_time | apply rmtree_last_save_time
          | apply verify_loop_last_save_time | apply move_loop_last_save_time
          | apply backup_loop_last_save_time ].
Qed.



(** * File names, again *)

Lemma filename_char_fixed c :
  filename_char c = true -> safe_char (PyStr.lower_char c) = c.
Proof.
  destruct c as [[] [] [] [] [] [] [] []]; vm_compute; intros H;
    first [reflexivity|discriminate H].
Qed.

Lemma smap_fixed (f : ascii -> ascii) (p : ascii -> bool) (s : string) :
  (forall c, p c = true -> f c = c) -> PyStr.sall p s = true -> PyStr.smap f s = s.
Proof.
  intros Hf. induction s as [|c s IH]; [done|].
  cbn [PyStr.sall PyStr.smap]. intros [Hc Hs]%andb_prop. by rewrite (Hf c Hc), (IH Hs).
Qed.

Lemma smap_smap (f g : ascii -> ascii) (s : string) :
  PyStr.smap f (PyStr.smap g s) = PyStr.smap (fun c => f (g c)) s.
Proof. induction s as [|c s IH]; [done|]. cbn [PyStr.smap]. by rewrite IH. Qed.

(** A string that does not begin with a character to drop. *)
Definition clean_head (p : ascii -> bool) (s : string) : bool :=
  match s with
  | EmptyString => true
  | String c _ => negb (p c)
  end.

Lemma clean_head_ldrop p s : clean_head p (PyStr.ldrop p s) = true.
Proof.
  induction s as [|c s IH]; [done|]. cbn [PyStr.ldrop].
  destruct (p c) eqn:Hc; [exact IH|]. cbn. by rewrite Hc.
Qed.

Lemma clean_head_rdrop p s : clean_head p s = true -> clean_head p (PyStr.rdrop p s) = true.
Proof.
  destruct s as [|c s]; [done|]. cbn [clean_head PyStr.rdrop]. intros Hc.
  destruct (PyStr.rdrop p s); [|exact Hc].
  apply negb_true_iff in Hc. rewrite Hc. cbn. by rewrite Hc.
Qed.

Lemma ldrop_clean_head p s : clean_head p s = true -> PyStr.ldrop p s = s.
Proof.
  destruct s as [|c s]; [done|]. cbn [clean_head PyStr.ldrop].
  intros Hc%negb_true_iff. by rewrite Hc.
Qed.

Lemma rdrop_idempotent p s : PyStr.rdrop p (PyStr.rdrop p s) = PyStr.rdrop p s.
Proof.
  induction s as [|c s IH]; [done|]. cbn [PyStr.rdrop].
  destruct (PyStr.rdrop p s) as [|c' r] eqn:Hr.
  - destruct (p c) eqn:Hc; [done|]. cbn [PyStr.rdrop]. by rewrite Hc.
  - cbn [PyStr.rdrop]. cbn [PyStr.rdrop] in IH. by rewrite IH.
Qed.

Lemma strip_idempotent s : PyStr.strip (PyStr.strip s) = PyStr.strip s.
Proof.
  unfold PyStr.strip.
  rewrite (ldrop_clean_head _ (PyStr.rdrop _ _))
    by apply clean_head_rdrop, clean_head_ldrop.
  apply rdrop_idempotent.
Qed.

(** X9: sanitizing is idempotent: the name [_sanitize_filename] makes
    of any value is a name it leaves as it is. *)
Theorem sanitize_filename_idempotent (text : pyval) :
  _sanitize_filename (PStr (_sanitize_filename text)) = _sanitize_filename text.
Proof.
  assert (Hr : _sanitize_filename text = "untitled"
               \/ (PyStr.is_empty (_sanitize_filename text) = false
                   /\ PyStr.sall filename_char (_sanitize_filename text) = true
                   /\ PyStr.strip (_sanitize_filename text) = _sanitize_filename text)).
  { unfold _sanitize_filename. cbv zeta.
    destruct (negb (truthy text)); [by left|].
    set (joined := PyStr.smap safe_char (PyStr.lower (PyRepr.str text))).
    destruct (PyStr.is_empty (PyStr.strip joined)) eqn:Hempty; [by left|].
    right. split; [exact Hempty|]. split; [|apply strip_idempotent].
    unfold PyStr.strip. apply sall_rdrop, sall_ldrop. unfold joined, PyStr.lower.
    rewrite smap_smap. apply sall_smap. intros c. apply safe_lower_filename_char. }
  destruct Hr as [->|(Hempty & Hchars & Hstrip)]; [reflexivity|].
  generalize dependent (_sanitize_filename text). intros r Hempty Hchars Hstrip.
  unfold _sanitize_filename. cbv zeta. cbn [truthy PyRepr.str]. rewrite Hempty. cbn [negb].
  unfold PyStr.lower. rewrite smap_smap.
  rewrite (smap_fixed _ filename_char) by (exact filename_char_fixed || exact Hchars).
  by rewrite Hstrip, Hempty.
Qed.

(** * Rendering a valid record *)

Lemma of_Z_not_empty z : PyStr.is_empty (PyStr.of_Z z) = false.
Proof.
  pose proof (of_Z_head z "") as H. rewrite string_app_nil_r in H.
  by destruct (PyStr.of_Z z).
Qed.

Lemma str_truthy_not_empty v : truthy v = true -> PyStr.is_empty (PyRepr.str v) = false.
Proof.
  destruct v as [|[]|z|s|l|d]; cbn; try done.
  - intros _. apply of_Z_not_empty.
  - by destruct s.
Qed.



(** * [safe_save] *)

Lemma try_reraise {A} (m : M A) w : try_except m (fun e => raise e) w = m w.
Proof. rewrite run_try. by destruct (m w) as [[a|e] w1]. Qed.

Lemma restore_from_backup_file_at p data :
  preserves (file_at p) (OutputManager._restore_from_backup data).
Proof.
  unfold OutputManager._restore_from_backup.
  apply preserves_try; [|intros e; apply preserves_raise]. cbv zeta.
  apply preserves_bind; [apply read_file_at|]. intros text.
  apply preserves_bind; [apply preserves_lift|]. intros content. apply preserves_ret.
Qed.

Lemma swallowed_never_raises (m : M unit) w :
  fst (try_except m (fun _ => mret tt) w) = Ok tt.
Proof. rewrite run_try. by destruct (m w) as [[[]|e] w1]. Qed.

(** The handler of [safe_save]: the backup is read again, whatever
    that gives is dropped, and the exception is raised again. *)
Lemma restore_then_raise (e : exn) data w :
  let r := (try_except (OutputManager._restore_from_backup data) (fun _ => mret tt);;
            (raise e : M paths)) w in
  fst r = Raise e /\ forall p, files (snd r) !! p = files w !! p.
Proof.
  cbv zeta. rewrite run_bind.
  pose proof (swallowed_never_raises (OutputManager._restore_from_backup data) w) as Hok.
  assert (Hkeep : forall p,
            files (snd (try_except (OutputManager._restore_from_backup data)
                          (fun _ => mret tt) w)) !! p = files w !! p).
  { intros p. apply (preserves_try (file_at p)); [apply restore_from_backup_file_at|].
    intros e'. apply preserves_ret. }
  destruct (try_except (OutputManager._restore_from_backup data) (fun _ => mret tt) w)
    as [[[]|e'] w1]; [|discriminate Hok].
  split; [reflexivity|exact Hkeep].
Qed.

Lemma scratch_removal_file_at p temp_dir :
  Os.under temp_dir p = false ->
  preserves (file_at p) (try_except (Os.rmtree temp_dir) (fun _ => mret tt)).
Proof.
  intros Hp. apply preserves_try; [by apply rmtree_file_at|].
  intros e. apply preserves_ret.
Qed.

Lemma create_temp_backup_file_at p content temp_dir :
  Os.under temp_dir p = false ->
  preserves (file_at p) (OutputManager._create_temp_backup content temp_dir).
Proof.
  intros Hp. unfold OutputManager._create_temp_backup.
  apply preserves_try; [|intros e; apply preserves_raise].
  by apply write_file_at, under_div.
Qed.


(** * Temporary files *)

(** A file [_cleanup_temp_files] looks for: below the output
    directory, with a name that ends in [.tmp]. *)
Definition stale (self : manager) (p : path) : bool :=
  Os.inside (base_dir self) p && Os.ends_with ".tmp" (path_name p).

Lemma unlink_file_at p q : q <> p -> preserves (file_at p) (Os.unlink q).
Proof.
  intros Hq. unfold Os.unlink. apply preserves_bind; [apply next_outcome_file_at|].
  assert (H : preserves (file_at p)
                (present ← Os.exists_ q;
                 if present : bool then modify (with_files (delete q))
                 else raise (Exn OSError ("No such file or directory: " ++ path_str q)))).
  { apply preserves_bind; [apply exists_file_at|]. intros [|]; [|apply preserves_raise].
    apply preserves_modify. intros w. unfold file_at. cbn. by rewrite lookup_delete_ne. }
  intros [| |]; first [exact H|apply preserves_raise].
Qed.

Lemma unlink_loop_file_at p l : p ∉ l -> preserves (file_at p) (OutputManager.unlink_loop l).
Proof.
  induction l as [|q l IH]; intros Hp; [apply preserves_ret|].
  cbn [OutputManager.unlink_loop]. apply not_elem_of_cons in Hp as [Hq Hl].
  apply preserves_bind; [by apply unlink_file_at|]. intros _. by apply IH.
Qed.

(** A computation that only removes files. *)
Definition only_removes {A} (m : M A) : Prop :=
  forall w p, files (snd (m w)) !! p = None \/ files (snd (m w)) !! p = files w !! p.

Lemma only_removes_bind {A B} (m : M A) (f : A -> M B) :
  only_removes m -> (forall a, only_removes (f a)) -> only_removes (m ≫= f).
Proof.
  intros Hm Hf w p. rewrite run_bind. specialize (Hm w p).
  destruct (m w) as [[a|e] w1]; [|exact Hm].
  cbn [snd] in Hm. destruct (Hf a w1 p) as [H|H]; [by left|].
  rewrite H. exact Hm.
Qed.

Lemma unlink_only_removes q : only_removes (Os.unlink q).
Proof.
  intros w p. unfold Os.unlink, Os.next_outcome, Os.exists_, gets. rewrite run_bind.
  assert (H : forall w0, files w0 = files w ->
            let r := (present ← (fun w1 => (Ok (bool_decide (is_Some (files w1 !! q))), w1));
                      if present : bool then modify (with_files (delete q))
                      else raise (Exn OSError ("No such file or directory: " ++ path_str q)))
                       w0 in
            files (snd r) !! p = None \/ files (snd r) !! p = files w !! p).
  { intros w0 E. cbv zeta. rewrite run_bind. cbv beta.
    destruct (bool_decide (is_Some (files w0 !! q))); cbn; [|right; by rewrite E].
    destruct (decide (q = p)) as [->|Hq].
    - left. apply lookup_delete_eq.
    - right. by rewrite lookup_delete_ne, E. }
  destruct (faults w) as [|[|msg|data] rest]; cbv iota beta;
    first [by apply H|by right].
Qed.

Lemma unlink_loop_only_removes l : only_removes (OutputManager.unlink_loop l).
Proof.
  induction l as [|q l IH]; [by right|].
  cbn [OutputManager.unlink_loop]. apply only_removes_bind; [apply unlink_only_removes|].
  intros _. exact IH.
Qed.

Lemma returns_unlink fs q :
  is_Some (fs !! q) -> returns (calm fs) (Os.unlink q) (fun _ => calm (delete q fs)).
Proof.
  intros Hq w [Hf <-]. unfold Os.unlink, Os.next_outcome, Os.exists_, gets.
  rewrite run_bind, Hf. cbv iota beta. rewrite run_bind. cbv beta.
  rewrite bool_decide_eq_true_2 by done. eexists tt, _. split; [reflexivity|]. done.
Qed.

Lemma returns_unlink_loop fs l :
  NoDup l -> (forall q, q ∈ l -> is_Some (fs !! q)) ->
  returns (calm fs) (OutputManager.unlink_loop l)
          (fun _ w => faults w = [] /\ forall q, q ∈ l -> files w !! q = None).
Proof.
  revert fs. induction l as [|q l IH]; intros fs Hn Hl.
  { apply returns_ret. intros w [Hf _]. split; [done|]. by intros q Hq%elem_of_nil. }
  apply NoDup_cons in Hn as [Hq Hn]. cbn [OutputManager.unlink_loop].
  eapply returns_bind; [apply returns_unlink, Hl; by left|]. intros ?.
  intros w Hw.
  destruct (IH (delete q fs) Hn) with (w := w) as (r & w' & E & Hf & Hgone); [|done|].
  { intros q' Hq'. rewrite lookup_delete_ne by (intros ->; done). apply Hl. by right. }
  exists r, w'. split; [exact E|]. split; [exact Hf|].
  intros q' [->|Hq']%elem_of_cons; [|by apply Hgone].
  destruct Hw as [_ Hfs].
  destruct (unlink_loop_only_removes l w q) as [H|H]; rewrite E in H; cbn [snd] in H;
    [exact H|].
  rewrite H, Hfs. apply lookup_delete_eq.
Qed.

(** What [_cleanup_temp_files] does to the world is what the loop does
    on the files the search lists. *)
Definition stale_files (self : manager) (w : world) : list path :=
  List.filter (stale self) (map fst (map_to_list (files w))).

Lemma cleanup_temp_files_run self w :
  snd (OutputManager._cleanup_temp_files self w)
  = snd (OutputManager.unlink_loop (stale_files self w) w).
Proof.
  unfold OutputManager._cleanup_temp_files. rewrite run_try, run_bind.
  change (Os.rglob (base_dir self) ".tmp" w) with (Ok (stale_files self w), w).
  cbv iota beta.
  by destruct (OutputManager.unlink_loop (stale_files self w) w) as [[[]|e] w1].
Qed.

Lemma stale_files_spec self w p :
  p ∈ stale_files self w <-> stale self p = true /\ is_Some (files w !! p).
Proof.
  unfold stale_files. rewrite list_elem_of_In, List.filter_In, <-list_elem_of_In.
  rewrite list_elem_of_fmap. split.
  - intros [((q & x) & -> & Hq) Hs]. split; [exact Hs|].
    apply elem_of_map_to_list in Hq. cbn. by rewrite Hq.
  - intros [Hs [x Hx]]. split; [|exact Hs].
    exists (p, x). split; [done|]. by apply elem_of_map_to_list.
Qed.

Lemma cleanup_temp_files_stale_only self w p :
  stale self p = false ->
  files (snd (OutputManager._cleanup_temp_files self w)) !! p = files w !! p.
Proof.
  intros Hp. rewrite cleanup_temp_files_run.
  apply (unlink_loop_file_at p (stale_files self w)).
  rewrite stale_files_spec. intros [Hs _]. congruence.
Qed.

Lemma cleanup_temp_files_removes_all self w p :
  faults w = [] -> stale self p = true ->
  files (snd (OutputManager._cleanup_temp_files self w)) !! p = None.
Proof.
  intros Hcalm Hp. rewrite cleanup_temp_files_run.
  destruct (files w !! p) as [x|] eqn:Hx.
  2:{ destruct (unlink_loop_only_removes (stale_files self w) w p) as [H|H];
        [exact H|]. by rewrite H. }
  destruct (returns_unlink_loop (files w) (stale_files self w)) with (w := w)
    as (a & w' & E & _ & Hgone).
  - unfold stale_files. apply NoDup_ListNoDup, List.NoDup_filter, NoDup_ListNoDup.
    apply NoDup_fst_map_to_list.
  - intros q Hq. by apply stale_files_spec in Hq as [_ Hq].
  - done.
  - rewrite E. cbn [snd]. apply Hgone, stale_files_spec. by rewrite Hx.
Qed.

(** X12: [_cleanup_temp_files] never raises.  It creates and changes
    no file; the only files it removes are below the output directory
    and have a name that ends in [.tmp]; and when no file-system call
    fails it removes all of these. *)
Theorem cleanup_temp_files_removes_only_stale_files (self : manager) (w : world) :
  let w' := snd (OutputManager._cleanup_temp_files self w) in
  fst (OutputManager._cleanup_temp_files self w) = Ok tt
  /\ (forall p, files w' !! p = None \/ files w' !! p = files w !! p)
  /\ (forall p, stale self p = false -> files w' !! p = files w !! p)
  /\ (faults w = [] -> forall p, stale self p = true -> files w' !! p = None).
Proof.
  cbv zeta. split; [apply swallowed_never_raises|]. split; [|split].
  - intros p. rewrite cleanup_temp_files_run. apply unlink_loop_only_removes.
  - intros p. apply cleanup_temp_files_stale_only.
  - intros Hcalm p. by apply cleanup_temp_files_removes_all.
Qed.

(** A save that returns, returns three paths in one directory. *)
Lemma save_content_returns_three_paths self content kind w ps w' :
  OutputManager.save_content self content kind w = (Ok ps, w') ->
  exists dir b, ps = staged_paths dir b kind.
Proof.
  intros H. unfold OutputManager.save_content in H. cbv zeta in H. peel H.
  unfold OutputManager.safe_file_operation in H. peel H.
  apply finally_ok_inv in H as [wz H]. peel H.
  apply ret_ok_inv in H as [<- _].
  match goal with
  | Hs : OutputManager._save_all_formats _ _ _ _ _ = _ |- _ =>
      apply save_all_formats_paths in Hs; subst
  end.
  match goal with
  | Hm : OutputManager._move_to_final_location _ ?dir ?b _ = _ |- _ =>
      unfold OutputManager._move_to_final_location in Hm;
      apply try_wrap_ok_inv, move_loop_paths in Hm; subst;
      exists dir, b
  end.
  cbn [map app fst snd]. by rewrite !path_name_div.
Qed.

Lemma eqb_length (s t : string) : String.eqb s t = true -> String.length s = String.length t.
Proof. by intros ->%String.eqb_eq. Qed.

Lemma ends_with_app (suffix b t : string) :
  (String.length suffix <= String.length t)%nat ->
  Os.ends_with suffix (b ++ t) = Os.ends_with suffix t.
Proof.
  intros Hlen. induction b as [|c b IH]; [done|].
  change (String c b ++ t) with (String c (b ++ t)).
  cbn [Os.ends_with]. rewrite IH.
  destruct (String.eqb (String c (b ++ t)) suffix) eqn:E; [|done].
  apply eqb_length in E. cbn [String.length] in E. rewrite string_length_app in E. lia.
Qed.

Lemma ends_with_refl (s : string) : Os.ends_with s s = true.
Proof. destruct s; cbn [Os.ends_with]; by rewrite String.eqb_refl. Qed.

Lemma ends_with_tail (c : ascii) (suffix s : string) :
  Os.ends_with (String c suffix) s = true -> Os.ends_with suffix s = true.
Proof.
  induction s as [|c' s IH]; [done|]. cbn [Os.ends_with].
  intros [E|E]%orb_prop.
  - apply String.eqb_eq in E as [= -> ->]. rewrite ends_with_refl. apply orb_true_r.
  - rewrite (IH E). apply orb_true_r.
Qed.

Lemma saved_names_not_stale (dir : path) (b kind : string) :
  Forall (fun tp => Os.ends_with ".tmp" (path_name (snd tp)) = false)
         (staged_paths dir b kind).
Proof.
  unfold staged_paths. repeat constructor; cbn [snd]; rewrite path_name_div.
  - by rewrite ends_with_app by (cbn; lia).
  - destruct (negb (String.eqb kind "text")); [|by rewrite ends_with_app by (cbn; lia)].
    destruct (Os.ends_with ".tmp" (b ++ ".md")) eqn:E; [|done].
    apply ends_with_tail in E. by rewrite ends_with_app in E by (cbn; lia).
  - by rewrite ends_with_app by (cbn; lia).
Qed.

(** X13: the files a save returned are not temporary files: whatever
    manager later runs [_cleanup_temp_files], in whatever world, each of
    the returned paths holds afterwards what it held before. *)
Theorem cleanup_keeps_the_saved_files
    (self cleaner : manager) (content : pyval) (kind : string) (w w' : world)
    (final_paths : paths) (later : world) :
  OutputManager.save_content self content kind w = (Ok final_paths, w') ->
  Forall (fun tp =>
            files (snd (OutputManager._cleanup_temp_files cleaner later)) !! snd tp
            = files later !! snd tp)
         final_paths.
Proof.
  intros (dir & b & ->)%save_content_returns_three_paths.
  eapply Forall_impl; [apply saved_names_not_stale|].
  intros [tag p] Hp. cbn [snd] in *.
  apply (cleanup_temp_files_stale_only cleaner later).
  unfold stale. rewrite Hp. apply andb_false_r.
Qed.

Lemma hello_result :
  fst (OutputManager.save_content mgr hello "text" (world0 [])) = Ok hello_paths.
Proof. vm_compute. reflexivity. Qed.

Lemma hello_run :
  OutputManager.save_content mgr hello "text" (world0 [])
  = (Ok hello_paths, snd (OutputManager.save_content mgr hello "text" (world0 []))).
Proof. rewrite <-hello_result. apply surjective_pairing. Qed.

Lemma X13_witness :
  Forall (fun tp =>
            files (snd (OutputManager._cleanup_temp_files mgr
                          (snd (OutputManager.save_content mgr hello "text" (world0 [])))))
              !! snd tp
            = files (snd (OutputManager.save_content mgr hello "text" (world0 [])))
                !! snd tp)
         hello_paths.
Proof.
  exact (cleanup_keeps_the_saved_files mgr mgr hello "text" (world0 []) _ hello_paths
           (snd (OutputManager.save_content mgr hello "text" (world0 []))) hello_run).
Defined.

(** * Making a manager *)

Lemma unlink_last_save_time q : preserves last_save_time (Os.unlink q).
Proof. unfold Os.unlink. quiet. Qed.

Lemma unlink_loop_last_save_time l :
  preserves last_save_time (OutputManager.unlink_loop l).
Proof.
  induction l as [|q l IH]; [apply preserves_ret|].
  cbn [OutputManager.unlink_loop]. quiet; [apply unlink_last_save_time|exact IH].
Qed.

Lemma setup_and_cleanup_last_save_time self :
  preserves last_save_time
    (OutputManager._setup_directories self;;
     OutputManager._cleanup_temp_files self;;
     mret self).
Proof.
  unfold OutputManager._setup_directories, OutputManager._cleanup_temp_files, Os.rglob.
  quiet; first [apply mkdir_last_save_time|apply unlink_loop_last_save_time].
Qed.

Lemma setup_directories_file_at p self :
  preserves (file_at p) (OutputManager._setup_directories self).
Proof.
  unfold OutputManager._setup_directories.
  apply preserves_try; [|intros e; apply preserves_raise].
  apply preserves_bind; [apply mkdir_file_at|]. intros _.
  destruct (backup_dir self); [apply mkdir_file_at|apply preserves_ret].
Qed.

Lemma setup_directories_outcome self w :
  fst (OutputManager._setup_directories self w) = Ok tt
  \/ exists msg,
       fst (OutputManager._setup_directories self w)
       = Raise (Exn FileError ("Failed to create directories: " ++ msg)).
Proof.
  unfold OutputManager._setup_directories. rewrite run_try.
  match goal with |- context [match ?m w with _ => _ end] => destruct (m w) as [[[]|e] w1] end;
    [by left|right; by eexists].
Qed.

Lemma setup_directories_calm self w :
  faults w = [] -> OutputManager._setup_directories self w = (Ok tt, w).
Proof.
  intros Hcalm. unfold OutputManager._setup_directories. rewrite run_try, run_bind.
  assert (Hmk : forall q, Os.mkdir q w = (Ok tt, w)).
  { intros q. unfold Os.mkdir, Os.next_outcome. by rewrite run_bind, Hcalm. }
  rewrite Hmk. destruct (backup_dir self); [by rewrite Hmk|done].
Qed.

Lemma cleanup_temp_files_never_raises self w :
  fst (OutputManager._cleanup_temp_files self w) = Ok tt.
Proof. apply swallowed_never_raises. Qed.


(** * The configuration *)

(** A configuration the command line accepts: the three sections are
    there, [content_config] and [brand_voice] are mappings, and the goal,
    the audience, the tone and the style are there and not empty. *)
Definition config_complete (c : pydict) : Prop :=
  Dict.contains "templates" c = true
  /\ exists content_config brand_voice,
       Dict.get "content_config" c = Some (PDict content_config)
       /\ Dict.get "brand_voice" c = Some (PDict brand_voice)
       /\ truthy (Dict.get_default "primary_goal" PNone content_config) = true
       /\ truthy (Dict.get_default "target_audience" PNone content_config) = true
       /\ truthy (Dict.get_default "tone" PNone brand_voice) = true
       /\ truthy (Dict.get_default "style" PNone brand_voice) = true.

Lemma require_ok v message : LinkedInContentCLI.require v message = Ok tt <-> truthy v = true.
Proof. unfold LinkedInContentCLI.require. by destruct (truthy v). Qed.

Lemma check_three_sections (c : pydict) s1 s2 s3 :
  LinkedInContentCLI.check_sections (PDict c) [s1; s2; s3]
  = if negb (Dict.contains s1 c)
    then Raise (Exn ValueError ("Missing required section: " ++ s1))
    else if negb (Dict.contains s2 c)
    then Raise (Exn ValueError ("Missing required section: " ++ s2))
    else if negb (Dict.contains s3 c)
    then Raise (Exn ValueError ("Missing required section: " ++ s3))
    else Ok tt.
Proof.
  cbn [LinkedInContentCLI.check_sections Py.contains mbind result_bind].
  destruct (Dict.contains s1 c); [|done]. destruct (Dict.contains s2 c); [|done].
  by destruct (Dict.contains s3 c).
Qed.

Lemma validate_config_complete (c : pydict) :
  LinkedInContentCLI.validate_config (PDict c) = Ok tt <-> config_complete c.
Proof.
  unfold LinkedInContentCLI.validate_config, LinkedInContentCLI.required_sections.
  rewrite check_three_sections.
  unfold config_complete, Dict.contains.
  destruct (Dict.get "content_config" c) as [cc|] eqn:Hcc; cbn [negb].
  2:{ split; [done|]. by intros (_ & ? & ? & [=] & _). }
  destruct (Dict.get "brand_voice" c) as [bv|] eqn:Hbv; cbn [negb].
  2:{ split; [done|]. by intros (_ & ? & ? & _ & [=] & _). }
  destruct (Dict.get "templates" c) as [t|]; cbn [negb].
  2:{ split; [done|]. by intros ([=] & _). }
  assert (G1 : Py.get (PDict c) "content_config" (PDict []) = Ok cc).
  { unfold Py.get, Dict.get_default. by rewrite Hcc. }
  assert (G2 : Py.get (PDict c) "brand_voice" (PDict []) = Ok bv).
  { unfold Py.get, Dict.get_default. by rewrite Hbv. }
  rewrite G1, G2. cbn [mbind result_bind]. clear G1 G2.
  destruct cc as [|?|?|?|?|cc];
    try (split; [done|]; by intros (_ & ? & ? & [=] & _)).
  cbn [Py.get mbind result_bind].
  destruct (LinkedInContentCLI.require (Dict.get_default "primary_goal" PNone cc) _)
    as [[]|e] eqn:E1.
  2:{ split; [done|]. intros (_ & cc' & bv' & [= <-] & _ & H & _).
      apply (require_ok _ "Missing primary_goal in content_config") in H. congruence. }
  apply require_ok in E1. cbn [mbind result_bind].
  destruct (LinkedInContentCLI.require (Dict.get_default "target_audience" PNone cc) _)
    as [[]|e] eqn:E2.
  2:{ split; [done|]. intros (_ & cc' & bv' & [= <-] & _ & _ & H & _).
      apply (require_ok _ "Missing target_audience in content_config") in H.
      congruence. }
  apply require_ok in E2. cbn [mbind result_bind].
  destruct bv as [|?|?|?|?|bv];
    try (split; [done|]; by intros (_ & ? & ? & _ & [=] & _)).
  cbn [Py.get mbind result_bind].
  destruct (LinkedInContentCLI.require (Dict.get_default "tone" PNone bv) _)
    as [[]|e] eqn:E3.
  2:{ split; [done|]. intros (_ & cc' & bv' & _ & [= <-] & _ & _ & H & _).
      apply (require_ok _ "Missing tone in brand_voice") in H. congruence. }
  apply require_ok in E3. cbn [mbind result_bind].
  rewrite require_ok. split.
  - intros E4. split; [done|]. by exists cc, bv.
  - by intros (_ & cc' & bv' & [= <-] & [= <-] & _ & _ & _ & H).
Qed.

(** X15: [validate_config] on a mapping returns exactly when the
    configuration is complete; a missing section is reported by name, in
    the order [content_config], [brand_voice], [templates]; and on the
    [None] that an empty YAML file loads as, the membership test raises
    [TypeError]. *)
Theorem validate_config_accepts_exactly (c : pydict) :
  (LinkedInContentCLI.validate_config (PDict c) = Ok tt <-> config_complete c)
  /\ (Dict.contains "content_config" c = false ->
      LinkedInContentCLI.validate_config (PDict c)
      = Raise (Exn ValueError "Missing required section: content_config"))
  /\ (Dict.contains "content_config" c = true -> Dict.contains "brand_voice" c = false ->
      LinkedInContentCLI.validate_config (PDict c)
      = Raise (Exn ValueError "Missing required section: brand_voice"))
  /\ (Dict.contains "content_config" c = true -> Dict.contains "brand_voice" c = true ->
      Dict.contains "templates" c = false ->
      LinkedInContentCLI.validate_config (PDict c)
      = Raise (Exn ValueError "Missing required section: templates"))
  /\ LinkedInContentCLI.validate_config PNone
     = Raise (Exn TypeError "argument of type 'NoneType' is not iterable").
Proof.
  split; [apply validate_config_complete|].
  unfold LinkedInContentCLI.validate_config, LinkedInContentCLI.required_sections.
  rewrite check_three_sections.
  split; [|split; [|split]]; [by intros ->|by intros -> ->|by intros -> -> ->|done].
Qed.

(** A value that is there and not empty is found whatever the default. *)
Lemma truthy_default k default d :
  truthy (Dict.get_default k PNone d) = true ->
  Dict.get_default k default d = Dict.get_default k PNone d.
Proof. unfold Dict.get_default. by destruct (Dict.get k d). Qed.

(** X16: a configuration the command line accepts, when the
    generator loads it.  [ContentConfig.from_yaml] followed by
    [validate] fails in two ways only: the goal is not one of the five
    goals ([ValueError] from [ContentGoal]), or [industry_context] is
    missing or empty; otherwise it returns. *)
Theorem accepted_config_loads_unless_goal_or_context
    (c content_config : pydict) :
  LinkedInContentCLI.validate_config (PDict c) = Ok tt ->
  Dict.get "content_config" c = Some (PDict content_config) ->
  (config ← ContentConfig.from_yaml (PDict c); ContentConfig.validate config)
  = match ContentGoal.of_value (Dict.get_default "primary_goal" PNone content_config) with
    | Raise e => Raise e
    | Ok _ =>
        if truthy (Dict.get_default "industry_context" (PStr "") content_config)
        then Ok tt
        else Raise (Exn ValueError "Industry context cannot be empty")
    end.
Proof.
  intros (_ & cc & bv & Hcc & Hbv & _ & Haudience & Htone & _)%validate_config_complete Hc.
  rewrite Hcc in Hc. injection Hc as <-.
  unfold ContentConfig.from_yaml.
  assert (G1 : Py.get (PDict c) "content_config" (PDict []) = Ok (PDict cc)).
  { unfold Py.get, Dict.get_default. by rewrite Hcc. }
  assert (G2 : Py.get (PDict c) "brand_voice" (PDict []) = Ok (PDict bv)).
  { unfold Py.get, Dict.get_default. by rewrite Hbv. }
  rewrite G1, G2. cbn [Py.get mbind result_bind].
  destruct (ContentGoal.of_value (Dict.get_default "primary_goal" PNone cc)) as [goal|e];
    [|reflexivity].
  cbn [mbind result_bind]. unfold ContentConfig.validate.
  cbn [ContentConfig.target_audience ContentConfig.industry_context
       ContentConfig.brand_voice BrandVoice.tone].
  rewrite (truthy_default "target_audience" (PList [])), Haudience by done.
  rewrite (truthy_default "tone" (PList [])), Htone by done. cbn [negb].
  by destruct (truthy (Dict.get_default "industry_context" (PStr "") cc)).
Qed.

(** A complete configuration with a goal that is not one of the five. *)
Definition config_with_unknown_goal : pydict :=
  [("content_config", PDict [("primary_goal", PStr "sales");
                             ("target_audience", PList [PStr "engineers"])]);
   ("brand_voice", PDict [("tone", PList [PStr "professional"]);
                          ("style", PList [PStr "conversational"])]);
   ("templates", PDict [])].

Lemma X16_witness :
  (config ← ContentConfig.from_yaml (PDict config_with_unknown_goal);
   ContentConfig.validate config)
  = match ContentGoal.of_value
            (Dict.get_default "primary_goal" PNone
               [("primary_goal", PStr "sales");
                ("target_audience", PList [PStr "engineers"])]) with
    | Raise e => Raise e
    | Ok _ =>
        if truthy (Dict.get_default "industry_context" (PStr "")
                     [("primary_goal", PStr "sales");
                      ("target_audience", PList [PStr "engineers"])])
        then Ok tt
        else Raise (Exn ValueError "Industry context cannot be empty")
    end.
Proof.
  apply (accepted_config_loads_unless_goal_or_context config_with_unknown_goal
           [("primary_goal", PStr "sales"); ("target_audience", PList [PStr "engineers"])]);
    reflexivity.
Defined.

(** * From the generator to the manager *)

Lemma content_type_of_value c : ContentType.of_value (PStr (ContentType.value c)) = Ok c.
Proof. by destruct c. Qed.

Lemma content_type_unknown s :
  existsb (String.eqb s) (map ContentType.value ContentType.members) = false ->
  ContentType.of_value (PStr s)
  = Raise (Exn ValueError (PyRepr.repr_str s ++ " is not a valid ContentType")).
Proof.
  cbn [existsb map ContentType.members ContentType.value]. intros H.
  repeat (apply orb_false_elim in H as [? H]).
  unfold ContentType.of_value, ContentType.members. cbn [List.find ContentType.value].
  repeat match goal with
         | E : String.eqb s ?k = false |- context [String.eqb ?k s] =>
             rewrite (String.eqb_sym k s), E
         end.
  reflexivity.
Qed.



(** X18: the kinds of the generator and the tables of the manager
    agree.  Every member of [ContentType] has a validator and a formatter
    bound to the formatter instance, so [validate_components] returns,
    and a record that [generate] hands to [save_content] is never refused
    for want of a validator nor rendered by the unbound class function.
    A kind given by its name is the member with that value; and what the
    generating method or [save_content] raises reaches the caller of
    [generate] as it is; when both return, the record is returned with
    the saved paths under [output_paths]. *)
Theorem generate_saves_with_a_registered_kind
    (_generate : ContentType.t -> string -> M pyval) (c : ContentType.t)
    (topic : string) (w : world) :
  (exists formatter validator,
     OutputManager.FORMATTERS (ContentType.value c) = Some (BoundMethod formatter)
     /\ ContentValidator.validators (ContentType.value c) = Some validator)
  /\ LinkedInContentCLI.validate_components = Ok tt
  /\ ContentGenerator.generate _generate (inr (ContentType.value c)) topic w
     = ContentGenerator.generate _generate (inl c) topic w
  /\ ContentGenerator.generate _generate (inl c) topic w
     = match _generate c topic w with
       | (Raise e, w1) => (Raise e, w1)
       | (Ok content, w1) =>
           match OutputManager.save_content ContentGenerator.output_manager content
                   (ContentType.value c) w1 with
           | (Raise e, w2) => (Raise e, w2)
           | (Ok saved_paths, w2) =>
               (Py.setitem content "output_paths"
                  (ContentGenerator.paths_value saved_paths), w2)
           end
       end.
Proof.
  split; [destruct c; eexists _, _; split; reflexivity|].
  split; [reflexivity|].
  assert (Hrun : forall (m : M ContentType.t),
            m w = (Ok c, w) ->
            try_except
              (content_type ← m;
               content ← _generate content_type topic;
               try_except
                 (saved_paths ← OutputManager.save_content ContentGenerator.output_manager
                                  content (ContentType.value content_type);
                  lift (Py.setitem content "output_paths"
                          (ContentGenerator.paths_value saved_paths)))
                 (fun e => raise e))
              (fun e => raise e) w
            = match _generate c topic w with
              | (Raise e, w1) => (Raise e, w1)
              | (Ok content, w1) =>
                  match OutputManager.save_content ContentGenerator.output_manager content
                          (ContentType.value c) w1 with
                  | (Raise e, w2) => (Raise e, w2)
                  | (Ok saved_paths, w2) =>
                      (Py.setitem content "output_paths"
                         (ContentGenerator.paths_value saved_paths), w2)
                  end
              end).
  { intros m Hm. rewrite try_reraise, run_bind, Hm. cbv iota beta. rewrite run_bind.
    destruct (_generate c topic w) as [[content|e] w1]; [|done].
    rewrite try_reraise, run_bind.
    by destruct (OutputManager.save_content _ content _ w1) as [[ps|e] w2]. }
  split.
  - unfold ContentGenerator.generate. rewrite !Hrun; [done|done|].
    unfold lift. by rewrite content_type_of_value.
  - unfold ContentGenerator.generate. by apply Hrun.
Qed.

Lemma generate_file_at p (_generate : ContentType.t -> string -> M pyval)
    content_type topic :
  (forall c, preserves (file_at p) (_generate c topic)) ->
  Os.under ["tmp"] p = false -> Os.under ["output"] p = false ->
  preserves (file_at p) (ContentGenerator.generate _generate content_type topic).
Proof.
  intros Hg Htmp Hout. unfold ContentGenerator.generate.
  apply preserves_try; [|intros e; apply preserves_raise].
  apply preserves_bind.
  { destruct content_type; [apply preserves_ret|apply preserves_lift]. }
  intros c. apply preserves_bind; [apply Hg|]. intros content.
  apply preserves_try; [|intros e; apply preserves_raise].
  apply preserves_bind; [|intros ps; apply preserves_lift].
  by apply save_content_file_at.
Qed.



(** * The static renderers and the file checksum *)


Lemma fold_chunks (chunks : list (list Z)) (buffer : list Z) :
  fold_left (fun buffer chunk => buffer ++ chunk)%list chunks buffer
  = (buffer ++ concat chunks)%list.
Proof.
  revert buffer. induction chunks as [|chunk chunks IH]; intros buffer; cbn.
  - by rewrite app_nil_r.
  - by rewrite IH, app_assoc.
Qed.

Lemma read_chunks_all (fuel n : nat) (data : list Z) :
  (0 < n)%nat -> (length data < fuel)%nat ->
  concat (OutputManager.read_chunks fuel n data) = data.
Proof.
  intros Hn. revert data. induction fuel as [|fuel IH]; intros data Hlen; [lia|].
  cbn [OutputManager.read_chunks].
  destruct data as [|b data]; [by destruct n|].
  destruct n as [|n]; [lia|].
  cbn [firstn skipn concat]. rewrite IH.
  - cbn. by rewrite firstn_skipn.
  - cbn in Hlen. rewrite length_skipn. lia.
Qed.

(** X21: [_compute_file_checksum] reads the file in chunks of
    [CHUNK_SIZE] bytes and feeds them to SHA-256 in turn; the result is
    the digest of the whole file, whatever its length. *)
Theorem compute_file_checksum_is_the_digest_of_the_file (contents : list Z) :
  OutputManager._compute_file_checksum contents = Sha256.hexdigest contents.
Proof.
  unfold OutputManager._compute_file_checksum. cbv zeta.
  rewrite fold_chunks, read_chunks_all; [done| |lia].
  unfold OutputManager.CHUNK_SIZE. lia.
Qed.

(** * The relocation, file by file *)

(** One [shutil.move]: the file has moved, or nothing has changed. *)
Lemma move_attempt src dst w :
  match Os.move src dst w with
  | (Ok _, w') =>
      exists data, files w !! src = Some data
                   /\ exists landed, files w' = <[dst := landed]> (delete src (files w))
  | (Raise _, w') => files w' = files w
  end.
Proof.
  unfold Os.move, Os.next_outcome, Os.read. rewrite run_bind.
  destruct (faults w) as [|[|msg|garbage] rest]; cbv iota beta; try done;
    rewrite run_bind; cbn [files]; destruct (files w !! src) as [data|] eqn:Hs;
    try done; cbv iota beta; exists data; (split; [done|]); by eexists.
Qed.

(** The same for the move with its retries: the waits change no file. *)
Lemma retry_move src dst w :
  match OutputManager._retry_operation (Os.move src dst) w with
  | (Ok _, w') =>
      exists data, files w !! src = Some data
                   /\ exists landed, files w' = <[dst := landed]> (delete src (files w))
  | (Raise _, w') => files w' = files w
  end.
Proof.
  unfold OutputManager._retry_operation, OutputManager.MAX_RETRIES. cbn [seq].
  rewrite retry_loop_cons. pose proof (move_attempt src dst w) as H1.
  destruct (Os.move src dst w) as [[[]|e1] w1]; [exact H1|]. cbn [Nat.eqb].
  rewrite retry_loop_cons.
  pose proof (move_attempt src dst (after_sleep (1000 * 2 ^ Z.of_nat 0) w1)) as H2.
  destruct (Os.move src dst (after_sleep (1000 * 2 ^ Z.of_nat 0) w1)) as [[[]|e2] w2].
  { cbn [files after_sleep] in H2. change (files (after_sleep _ w1)) with (files w1) in H2.
    by rewrite H1 in H2. }
  cbn [Nat.eqb]. rewrite retry_loop_cons.
  pose proof (move_attempt src dst (after_sleep (1000 * 2 ^ Z.of_nat 1) w2)) as H3.
  change (files (after_sleep _ w1)) with (files w1) in H2.
  destruct (Os.move src dst (after_sleep (1000 * 2 ^ Z.of_nat 1) w2)) as [[[]|e3] w3];
    change (files (after_sleep _ w2)) with (files w2) in H3; cbn [Nat.eqb];
    rewrite H2, H1 in H3; exact H3.
Qed.

Lemma retry_move_file_at p src dst :
  src <> p -> dst <> p ->
  preserves (file_at p) (OutputManager._retry_operation (Os.move src dst)).
Proof. intros Hs Hd. by apply retry_file_at, move_file_at. Qed.

Lemma move_loop_elsewhere p dir l acc :
  (forall src, src ∈ l.*2 -> src <> p /\ path_div dir (path_name src) <> p) ->
  preserves (file_at p) (OutputManager.move_loop dir l acc).
Proof.
  revert acc. induction l as [|[tag src] l IH]; intros acc Hl; [apply preserves_ret|].
  cbn [OutputManager.move_loop]. cbv zeta.
  destruct (Hl src) as [Hs Hd]; [cbn; left|].
  apply preserves_bind; [by apply retry_move_file_at|]. intros _.
  apply IH. intros q Hq. apply Hl. cbn. by right.
Qed.

(** X22: [_move_to_final_location] moves the files one after the
    other and stops at the first that cannot be moved.  For staged files
    that are there, with distinct names, to a directory that holds none
    of them: the files split into those before the failure, which have
    left the scratch directory and are in the final directory, and the
    others, which are where they were; the call returns exactly when
    every file was moved.  A failure therefore leaves the earlier files
    in the final directory. *)
Theorem relocation_moves_a_prefix
    (temp_paths : paths) (content_dir : path) (base_filename : string) (w : world) :
  NoDup (map (fun tp => path_name (snd tp)) temp_paths) ->
  (forall src, src ∈ temp_paths.*2 -> is_Some (files w !! src)) ->
  (forall src name, src ∈ temp_paths.*2 -> path_div content_dir name <> src) ->
  let r := OutputManager._move_to_final_location temp_paths content_dir base_filename w in
  exists moved left,
    temp_paths = (moved ++ left)%list
    /\ (forall src, src ∈ moved.*2 ->
          files (snd r) !! src = None
          /\ is_Some (files (snd r) !! path_div content_dir (path_name src)))
    /\ (forall src, src ∈ left.*2 -> files (snd r) !! src = files w !! src)
    /\ match fst r with
       | Ok final_paths =>
           left = []
           /\ final_paths
              = map (fun tp => (fst tp, path_div content_dir (path_name (snd tp)))) temp_paths
       | Raise e =>
           left <> []
           /\ exists msg,
                e = Exn FileError ("Failed to move files to final location: " ++ msg)
       end.
Proof.
  intros Hnames Hpresent Hfresh. cbv zeta.
  assert (Hloop : forall acc,
            exists moved left,
              temp_paths = (moved ++ left)%list
              /\ (forall src, src ∈ moved.*2 ->
                    files (snd (OutputManager.move_loop content_dir temp_paths acc w)) !! src
                    = None
                    /\ is_Some (files (snd (OutputManager.move_loop content_dir temp_paths
                                              acc w))
                                  !! path_div content_dir (path_name src)))
              /\ (forall src, src ∈ left.*2 ->
                    files (snd (OutputManager.move_loop content_dir temp_paths acc w)) !! src
                    = files w !! src)
              /\ match fst (OutputManager.move_loop content_dir temp_paths acc w) with
                 | Ok final_paths =>
                     left = []
                     /\ final_paths
                        = (acc ++ map (fun tp => (fst tp, path_div content_dir
                                                            (path_name (snd tp))))
                                      temp_paths)%list
                 | Raise e => left <> []
                 end).
  { clear base_filename. revert w Hpresent.
    induction temp_paths as [|[tag src] l IH]; intros w Hpresent acc.
    { exists [], []. cbn. rewrite app_nil_r.
      split; [done|]. split; [by intros ? ?%elem_of_nil|].
      split; [by intros ? ?%elem_of_nil|done]. }
    cbn [map snd] in Hnames. apply NoDup_cons in Hnames as [Hname Hnames].
    cbn [OutputManager.move_loop]. cbv zeta. rewrite run_bind.
    pose proof (retry_move src (path_div content_dir (path_name src)) w) as Hmove.
    destruct (OutputManager._retry_operation
                (Os.move src (path_div content_dir (path_name src))) w) as [[a|e] w1].
    2:{ exists [], ((tag, src) :: l). cbn [fst snd]. split; [done|].
        split; [by intros ? ?%elem_of_nil|]. split; [|done].
        intros q _. by rewrite Hmove. }
    destruct Hmove as (data & Hsrc & landed & Hfiles).
    assert (Hsrc_l : src ∉ l.*2).
    { intros Hin. apply Hname. apply list_elem_of_fmap in Hin as ([tag' q] & -> & Hq).
      apply list_elem_of_fmap. by exists (tag', q). }
    destruct (IH Hnames) with (w := w1)
                              (acc := (acc ++ [(tag, path_div content_dir (path_name src))])%list)
      as (moved & left & El & Hmoved & Hleft & Hres).
    { intros q name Hq. apply Hfresh. cbn. by right. }
    { intros q Hq. rewrite Hfiles, lookup_insert_ne, lookup_delete_ne.
      - apply Hpresent. cbn. by right.
      - intros ->. done.
      - apply Hfresh. cbn. by right. }
    exists ((tag, src) :: moved), left. split; [by rewrite El|].
    assert (Hin_moved : forall q, q ∈ moved.*2 -> q ∈ l.*2).
    { intros q Hq. rewrite El, fmap_app. apply elem_of_app. by left. }
    assert (Hin_left : forall q, q ∈ left.*2 -> q ∈ l.*2).
    { intros q Hq. rewrite El, fmap_app. apply elem_of_app. by right. }
    assert (Hkeep : forall p,
              (forall q, q ∈ l.*2 ->
                 q <> p /\ path_div content_dir (path_name q) <> p) ->
              files (snd (OutputManager.move_loop content_dir l
                            (acc ++ [(tag, path_div content_dir (path_name src))]) w1))
                !! p = files w1 !! p).
    { intros p Hp. by apply (move_loop_elsewhere p). }
    split; [|split].
    - intros q Hq. cbn [fmap list_fmap snd] in Hq.
      apply elem_of_cons in Hq as [->|Hq]; [|by apply Hmoved]. split.
      + rewrite Hkeep.
        * rewrite Hfiles, lookup_insert_ne, lookup_delete_eq; [done|].
          apply Hfresh. cbn. by left.
        * intros q Hq. split; [intros ->; done|]. apply Hfresh. cbn. by left.
      + rewrite Hkeep.
        * rewrite Hfiles, lookup_insert_eq. by eexists.
        * intros q Hq. split.
          -- intros E. apply (Hfresh q (path_name src)); [cbn; by right|by symmetry].
          -- intros E. apply path_div_inj in E as [_ E]. apply Hname.
             apply list_elem_of_fmap in Hq as ([tag' q'] & -> & Hq').
             apply list_elem_of_fmap. exists (tag', q'). by split.
    - intros q Hq. rewrite (Hleft q Hq), Hfiles, lookup_insert_ne, lookup_delete_ne.
      + done.
      + intros ->. by apply Hsrc_l, Hin_left.
      + apply Hfresh. cbn. right. by apply Hin_left.
    - destruct (fst (OutputManager.move_loop content_dir l _ w1))
        as [ps|e]; [|exact Hres].
      destruct Hres as [-> ->]. split; [done|]. cbn [map fst snd]. by rewrite <-app_assoc. }
  destruct (Hloop []) as (moved & left & -> & Hmoved & Hleft & Hres).
  exists moved, left. split; [done|].
  unfold OutputManager._move_to_final_location. rewrite run_try.
  destruct (OutputManager.move_loop content_dir (moved ++ left) [] w) as [[ps|e] w1];
    cbn [fst snd] in *; (split; [exact Hmoved|]); (split; [exact Hleft|]);
    [exact Hres|].
  split; [exact Hres|]. by eexists.
Qed.

(** Three staged files, and a file system that moves the first and then
    refuses three times. *)
Definition staged_three : paths :=
  [("json", ["tmp"; "tmp0"; "a.json"]);
   ("formatted", ["tmp"; "tmp0"; "a.txt"]);
   ("metadata", ["tmp"; "tmp0"; "a_meta.yaml"])].

Definition refusing_after_one_move : world :=
  World {[ ["tmp"; "tmp0"; "a.json"] := Text "{}";
           ["tmp"; "tmp0"; "a.txt"] := Text "Hello world";
           ["tmp"; "tmp0"; "a_meta.yaml"] := Yaml (PDict []) ]}
        [Succeed; Fail "disk full"; Fail "disk full"; Fail "disk full"]
        1700000000000 [] 0 1 "2024-01-15" "20240115_093000".

Lemma X22_witness :
  let r := OutputManager._move_to_final_location staged_three final_dir "a" refusing_after_one_move in
  exists moved left,
    staged_three = (moved ++ left)%list
    /\ (forall src, src ∈ moved.*2 ->
          files (snd r) !! src = None
          /\ is_Some (files (snd r) !! path_div final_dir (path_name src)))
    /\ (forall src, src ∈ left.*2 -> files (snd r) !! src = files refusing_after_one_move !! src)
    /\ match fst r with
       | Ok final_paths =>
           left = []
           /\ final_paths
              = map (fun tp => (fst tp, path_div final_dir (path_name (snd tp)))) staged_three
       | Raise e =>
           left <> []
           /\ exists msg,
                e = Exn FileError ("Failed to move files to final location: " ++ msg)
       end.
Proof.
  apply (relocation_moves_a_prefix staged_three final_dir "a" refusing_after_one_move).
  - by apply (bool_decide_unpack _).
  - intros src Hsrc. cbn in Hsrc.
    repeat (apply elem_of_cons in Hsrc as [->|Hsrc]); try by apply elem_of_nil in Hsrc.
    all: vm_compute; by eexists.
  - intros src name Hsrc. cbn in Hsrc.
    repeat (apply elem_of_cons in Hsrc as [->|Hsrc]); try by apply elem_of_nil in Hsrc.
    all: discriminate.
Defined.

(** * The checksum and the order of the keys, at every depth *)

(** The same value but for the order in which the keys of its
    dictionaries, at any depth, were inserted. *)
#[warnings="-register-all"]
Inductive reordered : pyval -> pyval -> Prop :=
  | reordered_same v : reordered v v
  | reordered_list l1 l2 :
      Forall2 reordered l1 l2 -> reordered (PList l1) (PList l2)
  | reordered_dict d1 d d2 :
      Forall2 (fun kv1 kv2 => fst kv1 = fst kv2 /\ reordered (snd kv1) (snd kv2)) d1 d ->
      d ≡ₚ d2 ->
      reordered (PDict d1) (PDict d2).

Lemma dumps_sorted_reordered (v1 : pyval) :
  forall v2, wf v1 -> reordered v1 v2 -> Json.dumps true v1 = Json.dumps true v2.
Proof.
  induction v1 as [| | | |l1 IH|d1 IH] using pyval_nested_ind; intros v2 Hwf Hre;
    inversion Hre as [|? l2 Hl|? d d2 Hd Hp]; subst; try reflexivity.
  - cbn [Json.dumps]. do 3 f_equal. apply wf_list in Hwf.
    clear Hre. induction Hl as [|x y l1 l2 Hxy Hl IHl]; [done|].
    apply Forall_cons in IH as [IHx IH]. apply Forall_cons in Hwf as [Hx Hwf].
    cbn [map]. f_equal; [by apply IHx|by apply IHl].
  - apply wf_dict in Hwf as [Hn Hwf].
    assert (Hmap : map (fun kv => (fst kv, Json.dumps true (snd kv))) d1
                   = map (fun kv => (fst kv, Json.dumps true (snd kv))) d).
    { clear Hre Hp Hn. induction Hd as [|[k1 x] [k2 y] d1 d [Hk Hxy] Hd IHd]; [done|].
      apply Forall_cons in IH as [IHx IH]. apply Forall_cons in Hwf as [Hx Hwf].
      cbn [map fst snd] in *. subst k2. f_equal; [|by apply IHd].
      f_equal. by apply IHx. }
    cbn [Json.dumps]. do 3 f_equal. apply (f_equal (map _)).
    rewrite Hmap. apply sort_items_canonical.
    + rewrite <-Hmap, map_map. exact Hn.
    + by apply Permutation_map.
Qed.

Lemma pop_reordered k (d1 d : pydict) :
  Forall2 (fun kv1 kv2 => fst kv1 = fst kv2 /\ reordered (snd kv1) (snd kv2)) d1 d ->
  Forall2 (fun kv1 kv2 => fst kv1 = fst kv2 /\ reordered (snd kv1) (snd kv2))
          (Dict.pop k d1) (Dict.pop k d).
Proof.
  induction 1 as [|[k1 x] [k2 y] d1 d [Hk Hxy] Hd IHd]; [constructor|].
  cbn [fst snd] in *. subst k2. cbn [Dict.pop].
  destruct (String.eqb k k1); [exact IHd|]. by constructor.
Qed.

Lemma pop_perm k (d d' : pydict) : d ≡ₚ d' -> Dict.pop k d ≡ₚ Dict.pop k d'.
Proof.
  induction 1 as [|[k1 x] d d' Hp IH|[k1 x] [k2 y] d|d d' d'' H1 IH1 H2 IH2];
    cbn [Dict.pop].
  - done.
  - destruct (String.eqb k k1); [done|by constructor].
  - destruct (String.eqb k k1), (String.eqb k k2); try done. apply perm_swap.
  - by etrans.
Qed.

Lemma wf_pop k (d : pydict) : wf (PDict d) -> wf (PDict (Dict.pop k d)).
Proof.
  rewrite !wf_dict. intros [Hn Hwf]. split; [by apply NoDup_keys_pop|].
  clear Hn. induction Hwf as [|[k1 x] d Hx Hwf IH]; [constructor|].
  cbn [Dict.pop]. destruct (String.eqb k k1); [done|by constructor].
Qed.

Lemma normalize_reordered (v1 v2 : pyval) :
  reordered v1 v2 -> reordered (_normalize_content v1) (_normalize_content v2).
Proof.
  intros Hre. inversion Hre as [|l1 l2 Hl|d1 d d2 Hd Hp]; subst;
    [constructor|exact Hre|].
  rewrite !normalize_dict.
  apply reordered_dict with (d := Dict.pop "metadata" (Dict.pop "generation_time" d)).
  - by do 2 apply pop_reordered.
  - by do 2 apply pop_perm.
Qed.

Lemma wf_normalize (v : pyval) : wf v -> wf (_normalize_content v).
Proof.
  destruct v as [| | | | |d]; try done. rewrite normalize_dict. intros Hwf.
  by do 2 apply wf_pop.
Qed.

(** X23: the checksum of a record does not depend on the order of the
    keys, in the record or in any dictionary inside it, however deep:
    two records that are the same but for these orders have the same
    checksum. *)
Theorem checksum_ignores_key_order_at_every_depth (v1 v2 : pyval) :
  wf v1 -> reordered v1 v2 -> _compute_checksum v1 = _compute_checksum v2.
Proof.
  intros Hwf Hre. unfold _compute_checksum. cbv zeta. do 2 f_equal.
  apply dumps_sorted_reordered; [by apply wf_normalize|by apply normalize_reordered].
Qed.

(** A carousel, and the same with the keys of the record and of its
    slides in another order. *)
Definition carousel_a : pyval :=
  PDict [("hook", PStr "Hi");
         ("slides", PList [PDict [("title", PStr "One"); ("body", PStr "First")];
                           PDict [("title", PStr "Two"); ("body", PStr "Second")]])].

Definition carousel_b : pyval :=
  PDict [("slides", PList [PDict [("body", PStr "First"); ("title", PStr "One")];
                           PDict [("title", PStr "Two"); ("body", PStr "Second")]]);
         ("hook", PStr "Hi")].

Lemma carousel_reordered : reordered carousel_a carousel_b.
Proof.
  apply reordered_dict
    with (d := [("hook", PStr "Hi");
                ("slides", PList [PDict [("body", PStr "First"); ("title", PStr "One")];
                                  PDict [("title", PStr "Two"); ("body", PStr "Second")]])]).
  - repeat constructor.
    + apply reordered_dict with (d := [("title", PStr "One"); ("body", PStr "First")]).
      * repeat constructor.
      * apply perm_swap.
  - apply perm_swap.
Qed.

Lemma carousel_wf : wf carousel_a.
Proof. repeat split; by apply (bool_decide_unpack _). Qed.

Lemma X23_witness : _compute_checksum carousel_a = _compute_checksum carousel_b.
Proof.
  exact (checksum_ignores_key_order_at_every_depth carousel_a carousel_b
           carousel_wf carousel_reordered).
Defined.
